(** * layerindex-web: pagination template tags and the release importer

    A shallow embedding of

    - [layerindex/templatetags/paginator.py]: the [page_url] tag and the
      [elided_page_range] filter;
    - [rrs/tools/create_release.py]: the YAML driven importer of a
      release and its milestones.

    Both files are thin clients of Python's and Django's libraries.  The
    library calls they make (the paginator's elided range, [QueryDict]
    and [urllib.parse], the ORM manager calls and [transaction.atomic])
    are embedded next to them, each in a module of its own, following
    the library's code.

    Part I holds the definitions, Part II the theorems. *)

From Stdlib Require Import ZArith List String Ascii Bool Lia DecimalString Sorted.
From stdpp Require Import base gmap strings.
Import ListNotations.
Open Scope Z_scope.

(** * Part I: definitions *)

(** ** Python: exceptions, results, builtins *)

Module Py.

(** The exception classes the two programs can meet.
    [DryRunRollbackException] is the class defined at the end of
    [create_release.py]; [SystemExit] is what [sys.exit] raises. *)
Inductive exn : Type :=
| SystemExit (code : Z)
| DryRunRollbackException
| TypeError
| KeyError
| AttributeError
| ValidationError
| IntegrityError
| EmptyPage.

Inductive result (A : Type) : Type :=
| Ok (a : A)
| Raise (e : exn).
Arguments Ok {A} a.
Arguments Raise {A} e.

(** [range(start, stop)] on integers. *)
Definition range (start stop : Z) : list Z :=
  map (fun i => start + Z.of_nat i) (seq 0 (Z.to_nat (stop - start))).

(** [str(n)], [f'{n}'] and ['%d' % n] for an [int]. *)
Definition str_of_int (n : Z) : string :=
  NilZero.string_of_int (Z.to_int n).

(** [p in s] for two strings: [p] occurs in [s]. *)
Fixpoint is_substring (p s : string) : bool :=
  String.prefix p s
  || match s with
     | EmptyString => false
     | String _ s' => is_substring p s'
     end.

(** [s.replace(a, b)] for one-character [a] and [b]. *)
Fixpoint replace_char (a b : ascii) (s : string) : string :=
  match s with
  | EmptyString => EmptyString
  | String c s' => String (if Ascii.eqb c a then b else c) (replace_char a b s')
  end.

(** [c in s] for a character. *)
Fixpoint has_char (c : ascii) (s : string) : bool :=
  match s with
  | EmptyString => false
  | String x s' => Ascii.eqb x c || has_char c s'
  end.

(** [s.partition(sep)]: the text before the first [sep], whether [sep]
    was found, and the text after it. *)
Fixpoint partition (sep : ascii) (s : string) : string * bool * string :=
  match s with
  | EmptyString => (EmptyString, false, EmptyString)
  | String c s' =>
      if Ascii.eqb c sep then (EmptyString, true, s')
      else let '(a, found, b) := partition sep s' in (String c a, found, b)
  end.

(** [s.split(sep)]; the empty string splits into one empty piece. *)
Fixpoint split (sep : ascii) (s : string) : list string :=
  match s with
  | EmptyString => [EmptyString]
  | String c s' =>
      if Ascii.eqb c sep then EmptyString :: split sep s'
      else match split sep s' with
           | [] => [String c EmptyString]
           | piece :: rest => String c piece :: rest
           end
  end.

(** *** Values built by [yaml.safe_load] *)

(** A [datetime.date]. *)
Record date : Type := { year : Z; month : Z; day : Z }.

(** The Python values a YAML document is loaded into.  A [float] is
    carried by its [repr], which is what [str] returns for it. *)
#[warnings="-register-all"]
Inductive pyval : Type :=
| VNone
| VBool (b : bool)
| VInt (n : Z)
| VFloat (repr : string)
| VStr (s : string)
| VDate (d : date)
| VList (l : list pyval)
| VDict (d : list (pyval * pyval)).

(** ['k' == v] for a string literal ['k']. *)
Definition is_str (k : string) (v : pyval) : bool :=
  match v with
  | VStr s => String.eqb k s
  | _ => false
  end.

(** The value a [dict] holds under the string key [k]. *)
Fixpoint lookup_key (k : string) (d : list (pyval * pyval)) : option pyval :=
  match d with
  | [] => None
  | (k', v) :: rest => if is_str k k' then Some v else lookup_key k rest
  end.

(** ['k' in c]. *)
Definition py_in (k : string) (c : pyval) : result bool :=
  match c with
  | VDict d => Ok (existsb (is_str k) (map fst d))
  | VList l => Ok (existsb (is_str k) l)
  | VStr s => Ok (is_substring k s)
  | _ => Raise TypeError
  end.

(** [c['k']]. *)
Definition py_getitem (c : pyval) (k : string) : result pyval :=
  match c with
  | VDict d =>
      match lookup_key k d with
      | Some v => Ok v
      | None => Raise KeyError
      end
  | _ => Raise TypeError
  end.

(** [c.get('k', default)]: only a [dict] has the method. *)
Definition py_get (c : pyval) (k : string) (default : pyval) : result pyval :=
  match c with
  | VDict d =>
      match lookup_key k d with
      | Some v => Ok v
      | None => Ok default
      end
  | _ => Raise AttributeError
  end.

(** The characters of a string, each a string of length one. *)
Fixpoint chars (s : string) : list pyval :=
  match s with
  | EmptyString => []
  | String c s' => VStr (String c EmptyString) :: chars s'
  end.

(** What [for x in c] and [enumerate(c)] walk through. *)
Definition py_iter (c : pyval) : result (list pyval) :=
  match c with
  | VList l => Ok l
  | VDict d => Ok (map fst d)
  | VStr s => Ok (chars s)
  | _ => Raise TypeError
  end.

(** ['%0*d' % (width, n)] for [n >= 0]. *)
Definition zero_pad (width : nat) (n : Z) : string :=
  let s := str_of_int n in
  String.concat EmptyString (repeat "0"%string (width - String.length s)) ++ s.

(** [date.isoformat()]. *)
Definition isoformat (d : date) : string :=
  zero_pad 4 (year d) ++ "-" ++ zero_pad 2 (month d) ++ "-" ++ zero_pad 2 (day d).

End Py.
Import Py.

(** ** django.core.paginator *)

Module DjangoPaginator.

(** What [get_elided_page_range] yields: page numbers and
    [Paginator.ELLIPSIS]. *)
Inductive page_item : Type :=
| PageNumber (n : Z)
| ELLIPSIS.

(** A paginator, by its [num_pages]. *)
Record Paginator : Type := { num_pages : Z }.

Definition page_range (p : Paginator) : list Z :=
  range 1 (num_pages p + 1).

(** [Paginator.validate_number] for an [int] argument. *)
Definition validate_number (p : Paginator) (number : Z) : result Z :=
  if number <? 1 then Raise EmptyPage
  else if number >? num_pages p then Raise EmptyPage
  else Ok number.

Definition numbers (l : list Z) : list page_item := map PageNumber l.

(** [Paginator.get_elided_page_range(number, on_each_side, on_ends)];
    the generator is embedded by the list of what it yields. *)
Definition get_elided_page_range (p : Paginator)
    (number on_each_side on_ends : Z) : result (list page_item) :=
  match validate_number p number with
  | Raise e => Raise e
  | Ok number =>
      if num_pages p <=? (on_each_side + on_ends) * 2 then
        Ok (numbers (page_range p))
      else
        let head :=
          if number >? (1 + on_each_side + on_ends) + 1 then
            numbers (range 1 (on_ends + 1))
              ++ [ELLIPSIS]
              ++ numbers (range (number - on_each_side) (number + 1))
          else
            numbers (range 1 (number + 1)) in
        let tail :=
          if number <? (num_pages p - on_each_side - on_ends) - 1 then
            numbers (range (number + 1) (number + on_each_side + 1))
              ++ [ELLIPSIS]
              ++ numbers (range (num_pages p - on_ends + 1) (num_pages p + 1))
          else
            numbers (range (number + 1) (num_pages p + 1)) in
        Ok (head ++ tail)
  end.

End DjangoPaginator.

(** ** urllib.parse: quoting and query strings *)

Module Urllib.

(** A [str] is embedded by the bytes of its UTF-8 encoding, so the
    [encode]/[decode] steps around the byte level functions below are
    the identity. *)

Definition in_range (lo hi : N) (c : ascii) : bool :=
  let n := N_of_ascii c in ((lo <=? n) && (n <=? hi))%N.

(** [_ALWAYS_SAFE]: letters, digits and [_.-~]. *)
Definition always_safe (c : ascii) : bool :=
  in_range 65 90 c || in_range 97 122 c || in_range 48 57 c
  || Ascii.eqb c "_" || Ascii.eqb c "." || Ascii.eqb c "-" || Ascii.eqb c "~".

Definition hex_digit (n : N) : ascii :=
  if (n <? 10)%N then ascii_of_N (48 + n) else ascii_of_N (55 + n).

(** ['%{:02X}'.format(byte)]. *)
Definition percent (c : ascii) : string :=
  let n := N_of_ascii c in
  String "%" (String (hex_digit (n / 16)) (String (hex_digit (n mod 16)) EmptyString)).

(** [quote(s, safe)]: bytes that are always safe or listed in [safe]
    are kept, every other one becomes [%XX]. *)
Fixpoint quote (safe : ascii -> bool) (s : string) : string :=
  match s with
  | EmptyString => EmptyString
  | String c s' =>
      if always_safe c || safe c then String c (quote safe s')
      else percent c ++ quote safe s'
  end.

(** [quote_plus(s)] with the default [safe='']. *)
Definition quote_plus (s : string) : string :=
  if has_char " " s then
    replace_char " " "+" (quote (fun c => Ascii.eqb c " ") s)
  else quote (fun _ => false) s.

(** [quote_plus] one byte at a time, the form the proofs work with. *)
Definition quote_plus_byte (c : ascii) : string :=
  if always_safe c then String c EmptyString
  else if Ascii.eqb c " " then "+"
  else percent c.

Fixpoint quote_plus_bytes (s : string) : string :=
  match s with
  | EmptyString => EmptyString
  | String c s' => quote_plus_byte c ++ quote_plus_bytes s'
  end.

(** An entry of [_hextobyte]: the value of a hexadecimal digit of
    either case. *)
Definition hex_value (c : ascii) : option N :=
  let n := N_of_ascii c in
  if in_range 48 57 c then Some (n - 48)%N
  else if in_range 65 70 c then Some (n - 55)%N
  else if in_range 97 102 c then Some (n - 87)%N
  else None.

(** [unquote(s)]: every [%XX] with two hexadecimal digits is replaced by
    its byte; a [%] followed by anything else is kept.  Python then
    decodes the bytes as UTF-8 with [errors='replace']: on this embedding
    that step is the identity when the bytes are valid UTF-8, and the
    model is exact for such inputs only (an escape such as [%FF], which
    Python turns into U+FFFD, is outside it). *)
Fixpoint unquote (s : string) : string :=
  match s with
  | EmptyString => EmptyString
  | String c s' =>
      if Ascii.eqb c "%" then
        match s' with
        | String h (String l rest) =>
            match hex_value h, hex_value l with
            | Some a, Some b => String (ascii_of_N (16 * a + b)) (unquote rest)
            | _, _ => String c (unquote s')
            end
        | _ => String c (unquote s')
        end
      else String c (unquote s')
  end.

(** [urlencode({k: v})] for one pair. *)
Definition urlencode_pair (k v : string) : string :=
  quote_plus k ++ "=" ++ quote_plus v.

(** The loop of [parse_qsl] over the pieces between separators. *)
Fixpoint parse_pieces (keep_blank_values : bool) (pieces : list string)
    : list (string * string) :=
  match pieces with
  | [] => []
  | name_value :: rest =>
      match name_value with
      | EmptyString => parse_pieces keep_blank_values rest
      | _ =>
          let '(name, _, value) := partition "=" name_value in
          match value, keep_blank_values with
          | EmptyString, false => parse_pieces keep_blank_values rest
          | _, _ =>
              (unquote (replace_char "+" " " name),
               unquote (replace_char "+" " " value))
                :: parse_pieces keep_blank_values rest
          end
      end
  end.

(** [parse_qsl(qs, keep_blank_values)] with the separator [&]. *)
Definition parse_qsl (qs : string) (keep_blank_values : bool)
    : list (string * string) :=
  match qs with
  | EmptyString => []
  | _ => parse_pieces keep_blank_values (split "&" qs)
  end.

End Urllib.

(** ** django.http: [QueryDict] *)

Module DjangoHttp.
Import Urllib.

(** The dictionary inside a [MultiValueDict]: keys in insertion order,
    each with the list of its values. *)
Definition multidict : Type := list (string * list string).

(** [dict.__getitem__] as [get]: the entry of a key. *)
Fixpoint dict_get {V : Type} (k : string) (d : list (string * V)) : option V :=
  match d with
  | [] => None
  | (k', v) :: rest => if String.eqb k k' then Some v else dict_get k rest
  end.

(** [dict.__setitem__]: an existing key keeps its place. *)
Fixpoint dict_set {V : Type} (k : string) (v : V) (d : list (string * V))
    : list (string * V) :=
  match d with
  | [] => [(k, v)]
  | (k', v') :: rest =>
      if String.eqb k k' then (k, v) :: rest else (k', v') :: dict_set k v rest
  end.

(** A [QueryDict] object: its [_mutable] flag and its entries.  The
    [encoding] attribute is left out: the model is the one of a request
    with the default charset, UTF-8. *)
Record QueryDict : Type := { mutable : bool; entries : multidict }.

(** [MultiValueDict.getlist(key)]. *)
Definition getlist (key : string) (d : multidict) : list string :=
  match dict_get key d with
  | Some l => l
  | None => []
  end.

(** [MultiValueDict.appendlist(key, value)]. *)
Definition appendlist (key value : string) (d : multidict) : multidict :=
  dict_set key (getlist key d ++ [value]) d.

(** [QueryDict(query_string)]: the pairs of [parse_qsl], blank values
    kept, appended one after the other.  The limit on the number of
    fields ([DATA_UPLOAD_MAX_NUMBER_FIELDS], whose excess raises
    [TooManyFieldsSent]) is left out: the model is the one of a query
    string below that limit. *)
Definition QueryDict_parse (query_string : string) : multidict :=
  fold_left (fun d kv => appendlist (fst kv) (snd kv) d)
            (parse_qsl query_string true) [].

(** The pairs [(k, v)] that [QueryDict.urlencode] walks through:
    [for k, list_ in self.lists() for v in list_]. *)
Definition pairs (d : multidict) : list (string * string) :=
  flat_map (fun kl => map (fun v => (fst kl, v)) (snd kl)) d.

(** [QueryDict.urlencode()] with no [safe] characters. *)
Definition urlencode (d : multidict) : string :=
  String.concat "&" (map (fun kv => urlencode_pair (fst kv) (snd kv)) (pairs d)).

(** All the values the pairs [ps] give for [key], in order. *)
Definition values_of (key : string) (ps : list (string * string)) : list string :=
  map snd (List.filter (fun kv => String.eqb key (fst kv)) ps).

(** The heap of [QueryDict] objects and a request holding a reference to
    its [GET] dictionary. *)
Definition ref : Type := positive.
Abbreviation heap := (gmap ref QueryDict).
Record HttpRequest : Type := { GET : ref }.

(** Heap commands that may raise. *)
Definition cmd (A : Type) : Type := heap -> result A * heap.

(** [q.copy()]: a deep copy in a new object, which is mutable. *)
Definition QueryDict_copy (q : ref) : cmd ref := fun h =>
  match h !! q with
  | None => (Raise AttributeError, h)
  | Some o =>
      let r := fresh (dom h) in
      (Ok r, <[r := {| mutable := true; entries := entries o |}]> h)
  end.

(** [q[key] = value]: refused on an immutable [QueryDict]. *)
Definition QueryDict_setitem (q : ref) (key value : string) : cmd unit := fun h =>
  match h !! q with
  | None => (Raise AttributeError, h)
  | Some o =>
      if mutable o then
        (Ok tt, <[q := {| mutable := true;
                          entries := dict_set key [value] (entries o) |}]> h)
      else (Raise AttributeError, h)
  end.

(** [q.urlencode()]. *)
Definition QueryDict_urlencode (q : ref) : cmd string := fun h =>
  match h !! q with
  | None => (Raise AttributeError, h)
  | Some o => (Ok (urlencode (entries o)), h)
  end.

End DjangoHttp.

(** ** layerindex/templatetags/paginator.py *)

Module paginator.
Import DjangoPaginator DjangoHttp.

(** [page_url(request, page)]. *)
Definition page_url (request : HttpRequest) (page : Z) : cmd string := fun h =>
  match QueryDict_copy (GET request) h with
  | (Raise e, h1) => (Raise e, h1)
  | (Ok new_query, h1) =>
      match QueryDict_setitem new_query "page" (str_of_int page) h1 with
      | (Raise e, h2) => (Raise e, h2)
      | (Ok _, h2) =>
          match QueryDict_urlencode new_query h2 with
          | (Raise e, h3) => (Raise e, h3)
          | (Ok s, h3) => (Ok ("?" ++ s)%string, h3)
          end
      end
  end.

(** The object found in [page_obj.paginator]: an instance of Django's
    [Paginator] (or of a subclass), or an instance of another class. *)
Inductive paginator_object : Type :=
| PaginatorInstance (p : Paginator)
| OtherInstance (class_name : string).

(** The object handed to the filter, by what reading its attributes
    [paginator] and [number] gives: [None] stands for an attribute the
    object does not have, whose reading raises [AttributeError] (the
    objects [None], [''] and a list have neither attribute). *)
Record Page : Type :=
  { number : option Z; paginator : option paginator_object }.

(** [obj.name], from what the object has under the name. *)
Definition getattr {A : Type} (attribute : option A) : result A :=
  match attribute with
  | Some v => Ok v
  | None => Raise AttributeError
  end.

Definition isinstance_Paginator (o : paginator_object) : bool :=
  match o with
  | PaginatorInstance _ => true
  | OtherInstance _ => false
  end.

(** [elided_page_range(page_obj)]: line 21 reads [page_obj.paginator]
    before it tests its class; [page_obj.number] is read on line 25 only. *)
Definition elided_page_range (page_obj : Page) : result (list page_item) :=
  match getattr (paginator page_obj) with
  | Raise e => Raise e
  | Ok (OtherInstance _) => Ok []
  | Ok (PaginatorInstance p) =>
      match getattr (number page_obj) with
      | Raise e => Raise e
      | Ok n => get_elided_page_range p n 3 1
      end
  end.

(** *** Observations on a yielded range *)

Definition is_ellipsis (x : page_item) : bool :=
  match x with ELLIPSIS => true | PageNumber _ => false end.

Definition count_ellipsis (l : list page_item) : nat :=
  List.length (List.filter is_ellipsis l).

(** [consecutive prev l]: two elision markers are adjacent in [l], or
    [prev] holds and [l] starts with one. *)
Fixpoint consecutive (prev : bool) (l : list page_item) : bool :=
  match l with
  | [] => false
  | ELLIPSIS :: t => prev || consecutive true t
  | PageNumber _ :: t => consecutive false t
  end.

(** A page of a paginator with [total] pages. *)
Definition page_of (total current : Z) : Page :=
  {| number := Some current;
     paginator := Some (PaginatorInstance {| num_pages := total |}) |}.

(** An object with neither attribute, as [None] is. *)
Definition none_object : Page := {| number := None; paginator := None |}.

End paginator.

(** ** The store: rrs.models behind Django's ORM *)

Module DjangoDb.

(** Modelled from the spec: the rows of the three tables declared in
    [rrs/models.py], which is not among the sources (section 3 of the
    specification: a plan has a name; a release belongs to a plan and has
    a name, a start date and an end date; a milestone belongs to a
    release and has a name, a start date and an end date).  Every row
    carries the primary key Django adds to a model. *)
Record plan_row : Type :=
  { plan_id : Z; plan_name : string }.

Record release_row : Type :=
  { release_id : Z; release_plan_id : Z; release_name : string;
    release_start : date; release_end : date }.

Record milestone_row : Type :=
  { milestone_id : Z; milestone_release_id : Z; milestone_name : string;
    milestone_start : date; milestone_end : date }.

(** The committed or working content of the database; each table lists
    its rows in primary key order. *)
Record Store : Type :=
  { plans : list plan_row;
    releases : list release_row;
    milestones : list milestone_row }.

(** Model instances: Python objects whose attributes hold whatever was
    assigned to them. *)
Record MaintenancePlan : Type :=
  { mp_pk : Z; mp_name : string }.

Record Release : Type :=
  { r_pk : Z; r_plan : Z; r_name : string;
    r_start_date : pyval; r_end_date : pyval }.

Record Milestone : Type :=
  { m_pk : Z; m_release : Z; m_name : string;
    m_start_date : pyval; m_end_date : pyval }.

(** What the development is parametric in: library and repository code
    that is not among the sources and that no claim depends on.
    - [repr_container]: [str] of a list or of a dict;
    - [parse_date]: [django.utils.dateparse.parse_date];
    - [Release_str], [Milestone_str]: the [__str__] methods of the two
      models, which may read the store. *)
Class Environment : Type :=
  { repr_container : pyval -> string;
    parse_date : string -> option date;
    Release_str : Store -> Release -> string;
    Milestone_str : Store -> Milestone -> string }.

(** [str(v)]. *)
Definition py_str `{Environment} (v : pyval) : string :=
  match v with
  | VNone => "None"
  | VBool true => "True"
  | VBool false => "False"
  | VInt n => str_of_int n
  | VFloat repr => repr
  | VStr s => s
  | VDate d => isoformat d
  | VList _ | VDict _ => repr_container v
  end.

(** What happens during a run, in order. *)
Inductive table : Type := TMaintenancePlan | TRelease | TMilestone.

Inductive event : Type :=
| EvLog (level : Z) (msg : string)
| EvSetupDjango
| EvSelect (t : table)
| EvInsert (t : table) (pk : Z)
| EvUpdate (t : table) (pk : Z)
| EvAtomicEnter
| EvCommit
| EvRollback.

Record World : Type := { db : Store; trace : list event }.

(** Commands: they read and change the world, and return or raise. *)
Definition M (A : Type) : Type := World -> result A * World.

Definition ret {A : Type} (a : A) : M A := fun w => (Ok a, w).

Definition raise {A : Type} (e : exn) : M A := fun w => (Raise e, w).

Definition bind {A B : Type} (c : M A) (k : A -> M B) : M B := fun w =>
  match c w with
  | (Ok a, w') => k a w'
  | (Raise e, w') => (Raise e, w')
  end.

Notation "x <- c ;; k" := (bind c (fun x => k))
  (at level 100, c at next level, right associativity).
Notation "c ;;; k" := (bind c (fun _ => k))
  (at level 100, right associativity).

Definition lift {A : Type} (r : result A) : M A := fun w => (r, w).

Definition emit (e : event) : M unit := fun w =>
  (Ok tt, {| db := db w; trace := trace w ++ [e] |}).

Definition get_db : M Store := fun w => (Ok (db w), w).

Definition put_db (s : Store) : M unit := fun w =>
  (Ok tt, {| db := s; trace := trace w |}).

(** [for x in l: body(x)]. *)
Fixpoint for_each {A : Type} (l : list A) (body : A -> M unit) : M unit :=
  match l with
  | [] => ret tt
  | x :: rest => body x ;;; for_each rest body
  end.

(** [for i, x in enumerate(l): body(i, x)], counting from [i]. *)
Fixpoint for_each_enumerate {A : Type} (i : Z) (l : list A)
    (body : Z -> A -> M unit) : M unit :=
  match l with
  | [] => ret tt
  | x :: rest => body i x ;;; for_each_enumerate (i + 1) rest body
  end.

(** [with transaction.atomic(): body], outermost: the block's writes are
    committed when it ends normally and undone when any exception
    ([SystemExit] included) leaves it; the exception goes on. *)
Definition atomic {A : Type} (body : M A) : M A := fun w =>
  let saved := db w in
  match (emit EvAtomicEnter ;;; body) w with
  | (Ok a, w') => (Ok a, {| db := db w'; trace := trace w' ++ [EvCommit] |})
  | (Raise e, w') => (Raise e, {| db := saved; trace := trace w' ++ [EvRollback] |})
  end.

(** [DateField.to_python] followed by the column's [NOT NULL]. *)
Definition DateField_to_python `{Environment} (v : pyval) : result date :=
  match v with
  | VDate d => Ok d
  | VStr s =>
      match parse_date s with
      | Some d => Ok d
      | None => Raise ValidationError
      end
  | VNone => Raise IntegrityError
  | _ => Raise TypeError
  end.

(** [DateField.get_prep_value], which the compiler of an [INSERT] or an
    [UPDATE] calls for every field before the statement is sent: it is
    [to_python], which lets [None] through. *)
Definition DateField_get_prep_value `{Environment} (v : pyval) : result (option date) :=
  match v with
  | VNone => Ok None
  | VDate d => Ok (Some d)
  | VStr s =>
      match parse_date s with
      | Some d => Ok (Some d)
      | None => Raise ValidationError
      end
  | _ => Raise TypeError
  end.

(** The column's [NOT NULL], which the database checks when the
    statement runs. *)
Definition not_null (d : option date) : result date :=
  match d with
  | Some d => Ok d
  | None => Raise IntegrityError
  end.

(** The key an [INSERT] gives a new row. *)
Definition next_pk (ids : list Z) : Z := 1 + fold_right Z.max 0 ids.

Definition plan_of_row (r : plan_row) : MaintenancePlan :=
  {| mp_pk := plan_id r; mp_name := plan_name r |}.

Definition release_of_row (r : release_row) : Release :=
  {| r_pk := release_id r; r_plan := release_plan_id r; r_name := release_name r;
     r_start_date := VDate (release_start r); r_end_date := VDate (release_end r) |}.

Definition milestone_of_row (r : milestone_row) : Milestone :=
  {| m_pk := milestone_id r; m_release := milestone_release_id r;
     m_name := milestone_name r;
     m_start_date := VDate (milestone_start r); m_end_date := VDate (milestone_end r) |}.

(** [MaintenancePlan.objects.filter(name=name).first()]. *)
Definition MaintenancePlan_filter_first (name : string) : M (option MaintenancePlan) :=
  emit (EvSelect TMaintenancePlan) ;;;
  s <- get_db ;;
  ret (option_map plan_of_row
         (find (fun r => String.eqb (plan_name r) name) (plans s))).

(** [MaintenancePlan.objects.values_list('name', flat=True)]. *)
Definition MaintenancePlan_values_list_name : M (list string) :=
  emit (EvSelect TMaintenancePlan) ;;;
  s <- get_db ;;
  ret (map plan_name (plans s)).

(** [Release.objects.filter(plan=plan, name=name).first()]. *)
Definition Release_filter_first (plan : MaintenancePlan) (name : string)
    : M (option Release) :=
  emit (EvSelect TRelease) ;;;
  s <- get_db ;;
  ret (option_map release_of_row
         (find (fun r => (release_plan_id r =? mp_pk plan) && String.eqb (release_name r) name)
               (releases s))).

(** [INSERT] of a row and [UPDATE ... WHERE id = pk] of a whole row. *)
Definition insert_release (s : Store) (row : release_row) : Store :=
  {| plans := plans s; releases := releases s ++ [row]; milestones := milestones s |}.

Definition update_release (s : Store) (row : release_row) : Store :=
  {| plans := plans s;
     releases := map (fun r => if release_id r =? release_id row then row else r)
                     (releases s);
     milestones := milestones s |}.

Definition insert_milestone (s : Store) (row : milestone_row) : Store :=
  {| plans := plans s; releases := releases s; milestones := milestones s ++ [row] |}.

Definition update_milestone (s : Store) (row : milestone_row) : Store :=
  {| plans := plans s; releases := releases s;
     milestones := map (fun r => if milestone_id r =? milestone_id row then row else r)
                       (milestones s) |}.

(** [Release.objects.create(plan=, name=, start_date=, end_date=)]: both
    dates are prepared, then the row is inserted. *)
Definition Release_create `{Environment} (plan : MaintenancePlan) (name : string)
    (start_date end_date : pyval) : M Release :=
  sd <- lift (DateField_get_prep_value start_date) ;;
  ed <- lift (DateField_get_prep_value end_date) ;;
  sd <- lift (not_null sd) ;;
  ed <- lift (not_null ed) ;;
  s <- get_db ;;
  let pk := next_pk (map release_id (releases s)) in
  put_db (insert_release s
            {| release_id := pk; release_plan_id := mp_pk plan; release_name := name;
               release_start := sd; release_end := ed |}) ;;;
  emit (EvInsert TRelease pk) ;;;
  ret {| r_pk := pk; r_plan := mp_pk plan; r_name := name;
         r_start_date := start_date; r_end_date := end_date |}.

(** [release.save()] of an instance read from the store: its row is
    rewritten with the instance's attributes. *)
Definition Release_save `{Environment} (release : Release) : M unit :=
  sd <- lift (DateField_get_prep_value (r_start_date release)) ;;
  ed <- lift (DateField_get_prep_value (r_end_date release)) ;;
  sd <- lift (not_null sd) ;;
  ed <- lift (not_null ed) ;;
  s <- get_db ;;
  put_db (update_release s
            {| release_id := r_pk release; release_plan_id := r_plan release;
               release_name := r_name release;
               release_start := sd; release_end := ed |}) ;;;
  emit (EvUpdate TRelease (r_pk release)).

(** [Milestone.objects.filter(release=release, name=name).first()]. *)
Definition Milestone_filter_first (release : Release) (name : string)
    : M (option Milestone) :=
  emit (EvSelect TMilestone) ;;;
  s <- get_db ;;
  ret (option_map milestone_of_row
         (find (fun r => (milestone_release_id r =? r_pk release)
                         && String.eqb (milestone_name r) name)
               (milestones s))).

(** [Milestone.objects.create(release=, name=, start_date=, end_date=)]. *)
Definition Milestone_create `{Environment} (release : Release) (name : string)
    (start_date end_date : pyval) : M Milestone :=
  sd <- lift (DateField_get_prep_value start_date) ;;
  ed <- lift (DateField_get_prep_value end_date) ;;
  sd <- lift (not_null sd) ;;
  ed <- lift (not_null ed) ;;
  s <- get_db ;;
  let pk := next_pk (map milestone_id (milestones s)) in
  put_db (insert_milestone s
            {| milestone_id := pk; milestone_release_id := r_pk release;
               milestone_name := name;
               milestone_start := sd; milestone_end := ed |}) ;;;
  emit (EvInsert TMilestone pk) ;;;
  ret {| m_pk := pk; m_release := r_pk release; m_name := name;
         m_start_date := start_date; m_end_date := end_date |}.

(** [milestone.save()] of an instance read from the store. *)
Definition Milestone_save `{Environment} (milestone : Milestone) : M unit :=
  sd <- lift (DateField_get_prep_value (m_start_date milestone)) ;;
  ed <- lift (DateField_get_prep_value (m_end_date milestone)) ;;
  sd <- lift (not_null sd) ;;
  ed <- lift (not_null ed) ;;
  s <- get_db ;;
  put_db (update_milestone s
            {| milestone_id := m_pk milestone;
               milestone_release_id := m_release milestone;
               milestone_name := m_name milestone;
               milestone_start := sd; milestone_end := ed |}) ;;;
  emit (EvUpdate TMilestone (m_pk milestone)).

End DjangoDb.

(** ** rrs/tools/create_release.py *)

Module create_release.
Import DjangoDb.

(** The parsed command line.  The YAML file named on it enters the
    model as the document [yaml.safe_load] returned for it. *)
Record Args : Type :=
  { debug : bool; quiet : bool; dry_run : bool; update : bool }.

Definition DEBUG : Z := 10.
Definition INFO : Z := 20.
Definition WARNING : Z := 30.
Definition ERROR : Z := 40.

(** Lines 56-63: the level given to [logger.setLevel]. *)
Definition loglevel (args : Args) : Z :=
  if debug args then DEBUG
  else if quiet args then WARNING
  else INFO.

(** A logger call: the record is kept when its level reaches the
    logger's. *)
Definition logger_log (threshold level : Z) (msg : string) : M unit :=
  if level >=? threshold then emit (EvLog level msg) else ret tt.

Definition logger_error (threshold : Z) (msg : string) : M unit :=
  logger_log threshold ERROR msg.

Definition logger_info (threshold : Z) (msg : string) : M unit :=
  logger_log threshold INFO msg.

Definition sys_exit {A : Type} (code : Z) : M A := raise (SystemExit code).

(** [try: body / except: handler]: [handler] tells which exceptions the
    clause catches and what it then runs. *)
Definition try_except {A : Type} (body : M A) (handler : exn -> option (M A))
    : M A := fun w =>
  match body w with
  | (Raise e, w') =>
      match handler e with
      | Some h => h w'
      | None => (Raise e, w')
      end
  | r => r
  end.

Definition release_fields : list string :=
  ["plan"; "name"; "start_date"; "end_date"]%string.

Definition milestone_fields : list string :=
  ["name"; "start_date"; "end_date"]%string.

(** Lines 68-85: the checks made before Django is set up.  Returns
    [reldata] and [milestones]. *)
Definition validate (lvl : Z) (data : pyval) : M (pyval * pyval) :=
  has_release <- lift (py_in "release" data) ;;
  (if negb has_release then
     logger_error lvl "YAML file must contain a top-level 'release' key" ;;;
     sys_exit 1
   else ret tt) ;;;
  reldata <- lift (py_getitem data "release") ;;
  for_each release_fields (fun field =>
    present <- lift (py_in field reldata) ;;
    if negb present then
      logger_error lvl ("Release is missing required field '" ++ field ++ "'") ;;;
      sys_exit 1
    else ret tt) ;;;
  milestones <- lift (py_get reldata "milestones" (VList [])) ;;
  items <- lift (py_iter milestones) ;;
  for_each_enumerate 0 items (fun i ms =>
    for_each milestone_fields (fun field =>
      present <- lift (py_in field ms) ;;
      if negb present then
        logger_error lvl ("Milestone " ++ str_of_int (i + 1)
                          ++ " is missing required field '" ++ field ++ "'") ;;;
        sys_exit 1
      else ret tt)) ;;;
  ret (reldata, milestones).

(** *** The shape of a document *)

(** [v] is a mapping that holds the key [f]. *)
Definition has_field (f : string) (v : pyval) : bool :=
  match v with
  | VDict d => match lookup_key f d with Some _ => true | None => false end
  | _ => false
  end.

Definition has_fields (fields : list string) (v : pyval) : bool :=
  forallb (fun f => has_field f v) fields.

(** The first of [fields], in their order, that the mapping lacks. *)
Definition first_missing (fields : list string) (v : pyval) : option string :=
  find (fun f => negb (has_field f v)) fields.

(** The value under the key [f] of a mapping. *)
Definition field (f : string) (v : pyval) : pyval :=
  match v with
  | VDict d => match lookup_key f d with Some x => x | None => VNone end
  | _ => VNone
  end.

(** The release object of a document and the entries of its
    [milestones] list. *)
Definition release_of (data : pyval) : pyval := field "release" data.

Definition milestones_of (data : pyval) : list pyval :=
  match field "milestones" (release_of data) with
  | VList l => l
  | _ => []
  end.

Definition is_dict (v : pyval) : bool :=
  match v with VDict _ => true | _ => false end.

(** A document of the schema: a mapping with a [release] mapping that
    has its four fields and, if it has [milestones], has there a list
    of mappings with their three fields. *)
Definition well_formed (data : pyval) : bool :=
  has_field "release" data
  && has_fields release_fields (release_of data)
  && match field "milestones" (release_of data) with
     | VList l => forallb (has_fields milestone_fields) l
     | _ => negb (has_field "milestones" (release_of data))
     end.

(** The test [f in v] of lines 75 and 82 succeeds: it raises nothing and
    it is true. *)
Definition contains (f : string) (v : pyval) : bool :=
  match py_in f v with
  | Ok true => true
  | _ => false
  end.

Definition contains_all (fields : list string) (v : pyval) : bool :=
  forallb (fun f => contains f v) fields.

(** What [reldata.get('milestones', [])] gives for the release object of
    a document. *)
Definition milestones_value (data : pyval) : pyval :=
  match release_of data with
  | VDict d =>
      match lookup_key "milestones" d with
      | Some v => v
      | None => VList []
      end
  | _ => VList []
  end.


(** How the tests for [fields], made in their order, end: with each of
    them true, at the first one that is false, or at the first one that
    raises. *)
Inductive tested : Type :=
| AllPresent
| Absent (f : string)
| TestRaises (e : exn).

Fixpoint test_fields (fields : list string) (v : pyval) : tested :=
  match fields with
  | [] => AllPresent
  | f :: rest =>
      match py_in f v with
      | Ok true => test_fields rest v
      | Ok false => Absent f
      | Raise e => TestRaises e
      end
  end.

(** The status the process ends with when [e] reaches the interpreter. *)
Definition exception_status (e : exn) : Z :=
  match e with
  | SystemExit code => code
  | _ => 1
  end.

(** What a logger call adds to the trace. *)
Definition logged (threshold level : Z) (msg : string) : list event :=
  if level >=? threshold then [EvLog level msg] else [].

Definition is_log (e : event) : bool :=
  match e with EvLog _ _ => true | _ => false end.

Definition is_insert (e : event) : bool :=
  match e with EvInsert _ _ => true | _ => false end.

(** The rows a store holds for a plan name, for a release of a plan and
    for a milestone of a release. *)
Definition find_plan (s : Store) (name : string) : option plan_row :=
  find (fun r => String.eqb (plan_name r) name) (plans s).

Definition find_release (s : Store) (plan : Z) (name : string)
    : option release_row :=
  find (fun r => (release_plan_id r =? plan) && String.eqb (release_name r) name)
       (releases s).

Definition find_milestone (s : Store) (release : Z) (name : string)
    : option milestone_row :=
  find (fun r => (milestone_release_id r =? release)
                 && String.eqb (milestone_name r) name)
       (milestones s).

(** [c] started on the store [s] with the trace [t] ends with the result
    [r], the store [s'] and the events [evs] added to the trace. *)
Definition runs {A : Type} (c : M A) (s : Store) (t : list event)
    (r : result A) (s' : Store) (evs : list event) : Prop :=
  c {| db := s; trace := t |} = (r, {| db := s'; trace := t ++ evs |}).

(** [c] leaves the store alone: from any store and trace it runs without
    reading or changing the store, adds only log records to the trace,
    and an exception it raises ends the process with status 1. *)
Definition store_free {A : Type} (c : M A) : Prop :=
  forall s t, exists r evs,
    runs c s t r s evs /\
    forallb is_log evs = true /\
    forall e, r = Raise e -> exception_status e = 1.



(** The check of one field in lines 75-77 and 82-85; [msg] is the text
    logged for a missing field. *)
Definition check_field (lvl : Z) (obj : pyval) (msg : string -> string)
    (field : string) : M unit :=
  present <- lift (py_in field obj) ;;
  if negb present then
    logger_error lvl (msg field) ;;;
    sys_exit 1
  else ret tt.

Definition release_message (field : string) : string :=
  "Release is missing required field '" ++ field ++ "'".

Definition milestone_message (i : Z) (field : string) : string :=
  "Milestone " ++ str_of_int (i + 1) ++ " is missing required field '"
  ++ field ++ "'".

Section program.
Context `{Environment}.

(** ['%s' % release] and ['%s' % milestone]. *)
Definition str_release (release : Release) : M string :=
  s <- get_db ;; ret (Release_str s release).

Definition str_milestone (milestone : Milestone) : M string :=
  s <- get_db ;; ret (Milestone_str s milestone).

(** Lines 124-145: the body of the loop over the milestones. *)
Definition upsert_milestone (args : Args) (lvl : Z) (release : Release)
    (ms : pyval) : M unit :=
  name <- lift (py_getitem ms "name") ;;
  let ms_name := py_str name in
  existing_ms <- Milestone_filter_first release ms_name ;;
  match existing_ms with
  | Some existing_ms =>
      (if negb (update args) then
         text <- str_release release ;;
         logger_error lvl ("Milestone '" ++ ms_name ++ "' already exists for release "
                           ++ "'" ++ text ++ "' (use --update to update it)") ;;;
         sys_exit 1
       else ret tt) ;;;
      start_date <- lift (py_getitem ms "start_date") ;;
      end_date <- lift (py_getitem ms "end_date") ;;
      let existing_ms :=
        {| m_pk := m_pk existing_ms; m_release := m_release existing_ms;
           m_name := m_name existing_ms;
           m_start_date := start_date; m_end_date := end_date |} in
      Milestone_save existing_ms ;;;
      text <- str_milestone existing_ms ;;
      logger_info lvl ("Updated milestone '" ++ text ++ "'")
  | None =>
      start_date <- lift (py_getitem ms "start_date") ;;
      end_date <- lift (py_getitem ms "end_date") ;;
      milestone <- Milestone_create release ms_name start_date end_date ;;
      text <- str_milestone milestone ;;
      logger_info lvl ("Created milestone '" ++ text ++ "'")
  end.

(** Lines 103-122: the release is updated or created. *)
Definition upsert_release (args : Args) (lvl : Z) (maintplan : MaintenancePlan)
    (plan_name release_name : string) (reldata : pyval) : M Release :=
  existing <- Release_filter_first maintplan release_name ;;
  match existing with
  | Some existing =>
      (if negb (update args) then
         logger_error lvl ("Release '" ++ release_name ++ "' already exists for plan '"
                           ++ plan_name ++ "' " ++ "(use --update to update it)") ;;;
         sys_exit 1
       else ret tt) ;;;
      start_date <- lift (py_getitem reldata "start_date") ;;
      end_date <- lift (py_getitem reldata "end_date") ;;
      let release :=
        {| r_pk := r_pk existing; r_plan := r_plan existing; r_name := r_name existing;
           r_start_date := start_date; r_end_date := end_date |} in
      Release_save release ;;;
      text <- str_release release ;;
      logger_info lvl ("Updated release '" ++ text ++ "'") ;;;
      ret release
  | None =>
      start_date <- lift (py_getitem reldata "start_date") ;;
      end_date <- lift (py_getitem reldata "end_date") ;;
      release <- Release_create maintplan release_name start_date end_date ;;
      text <- str_release release ;;
      logger_info lvl ("Created release '" ++ text ++ "'") ;;;
      ret release
  end.

(** Lines 103-148: the block under [with transaction.atomic()]. *)
Definition upsert (args : Args) (lvl : Z) (maintplan : MaintenancePlan)
    (plan_name release_name : string) (reldata milestones : pyval) : M unit :=
  release <- upsert_release args lvl maintplan plan_name release_name reldata ;;
  items <- lift (py_iter milestones) ;;
  for_each items (upsert_milestone args lvl release) ;;;
  if dry_run args then raise DryRunRollbackException else ret tt.

(** The [except DryRunRollbackException] clause of lines 149-150. *)
Definition except_dry_run (lvl : Z) (e : exn) : option (M unit) :=
  match e with
  | DryRunRollbackException => Some (logger_info lvl "Dry run; changes not saved")
  | _ => None
  end.

(** Lines 101-150: the [try] statement. *)
Definition transaction (args : Args) (lvl : Z) (maintplan : MaintenancePlan)
    (plan_name release_name : string) (reldata milestones : pyval) : M unit :=
  try_except
    (atomic (upsert args lvl maintplan plan_name release_name reldata milestones))
    (except_dry_run lvl).

(** [main()], from the loaded document on. *)
Definition main (args : Args) (data : pyval) : M unit :=
  let lvl := loglevel args in
  checked <- validate lvl data ;;
  let reldata := fst checked in
  let milestones := snd checked in
  emit EvSetupDjango ;;;
  plan <- lift (py_getitem reldata "plan") ;;
  let plan_name := py_str plan in
  maintplan <- MaintenancePlan_filter_first plan_name ;;
  match maintplan with
  | None =>
      names <- MaintenancePlan_values_list_name ;;
      logger_error lvl ("Maintenance plan '" ++ plan_name
                        ++ "' does not exist. Available plans: "
                        ++ String.concat ", " names) ;;;
      sys_exit 1
  | Some maintplan =>
      name <- lift (py_getitem reldata "name") ;;
      let release_name := py_str name in
      transaction args lvl maintplan plan_name release_name reldata milestones ;;;
      sys_exit 0
  end.

(** How the process ends: [sys.exit(code)] gives the exit code, any
    other exception reaches the interpreter, which prints a traceback
    and ends the process with status 1. *)
Inductive outcome : Type :=
| Exit (code : Z)
| Traceback (e : exn).

Definition exit_status (o : outcome) : Z :=
  match o with
  | Exit code => code
  | Traceback _ => 1
  end.

(** A run of the script on a store, with an empty trace at the start. *)
Definition run (args : Args) (data : pyval) (s : Store) : outcome * World :=
  match main args data {| db := s; trace := [] |} with
  | (Ok _, w) => (Exit 0, w)
  | (Raise (SystemExit code), w) => (Exit code, w)
  | (Raise e, w) => (Traceback e, w)
  end.

(** *** What a document asks for *)

Definition plan_name_of (data : pyval) : string :=
  py_str (field "plan" (release_of data)).

Definition release_name_of (data : pyval) : string :=
  py_str (field "name" (release_of data)).

Definition milestone_name_of (ms : pyval) : string :=
  py_str (field "name" ms).

Definition is_ok {A : Type} (r : result A) : bool :=
  match r with Ok _ => true | Raise _ => false end.

(** Both dates of a release object or of a milestone entry are accepted
    by the date columns. *)
Definition dates_valid (v : pyval) : bool :=
  is_ok (DateField_to_python (field "start_date" v))
  && is_ok (DateField_to_python (field "end_date" v)).

Definition all_dates_valid (data : pyval) : bool :=
  dates_valid (release_of data) && forallb dates_valid (milestones_of data).

(** The date a column holds after [v] was saved to it. *)
Definition stored_date (v : pyval) : date :=
  match DateField_to_python v with
  | Ok d => d
  | Raise _ => {| year := 0; month := 0; day := 0 |}
  end.

(** The row the store holds after the object [v] of the document was
    saved under the key [pk]. *)
Definition release_row_of (pk plan : Z) (name : string) (v : pyval) : release_row :=
  {| release_id := pk; release_plan_id := plan; release_name := name;
     release_start := stored_date (field "start_date" v);
     release_end := stored_date (field "end_date" v) |}.

Definition milestone_row_of (pk release : Z) (name : string) (v : pyval)
    : milestone_row :=
  {| milestone_id := pk; milestone_release_id := release; milestone_name := name;
     milestone_start := stored_date (field "start_date" v);
     milestone_end := stored_date (field "end_date" v) |}.

Definition milestone_names (data : pyval) : list string :=
  map milestone_name_of (milestones_of data).

(** The instance [upsert_release] returns for a release with key [pk]. *)
Definition release_instance (pk plan : Z) (name : string) (v : pyval) : Release :=
  {| r_pk := pk; r_plan := plan; r_name := name;
     r_start_date := field "start_date" v; r_end_date := field "end_date" v |}.

End program.

(** *** Invariants of the store *)

(** What identifies a milestone row: its key, its release and its name. *)
Definition milestone_key (r : milestone_row) : Z * Z * string :=
  (milestone_id r, milestone_release_id r, milestone_name r).

(** Primary keys are unique. *)
Definition keys_unique (s : Store) : Prop :=
  List.NoDup (map release_id (releases s))
  /\ List.NoDup (map milestone_id (milestones s)).

(** Every milestone belongs to a release of the store. *)
Definition referential (s : Store) : Prop :=
  forall m, List.In m (milestones s) ->
            List.In (milestone_release_id m) (map release_id (releases s)).

End create_release.

(** ** Sample inputs *)

Module samples.
Import DjangoDb create_release.
Open Scope string_scope.

(** An environment to run the importer in: containers print as a fixed
    text, no string is read as a date (dates come as [datetime.date]
    values, as YAML loads them), and a release or a milestone prints as
    its name. *)
Definition sample_environment : Environment :=
  {| repr_container := fun _ => "<container>";
     parse_date := fun _ => None;
     Release_str := fun _ r => r_name r;
     Milestone_str := fun _ m => m_name m |}.

Definition ymd (y m d : Z) : pyval := VDate {| year := y; month := m; day := d |}.

Definition milestone_entry (name : string) (start_date end_date : pyval) : pyval :=
  VDict [(VStr "name", VStr name); (VStr "start_date", start_date);
         (VStr "end_date", end_date)].

Definition release_document (plan : string) (name : pyval)
    (start_date end_date : pyval) (entries : list pyval) : pyval :=
  VDict [(VStr "release",
          VDict [(VStr "plan", VStr plan); (VStr "name", name);
                 (VStr "start_date", start_date); (VStr "end_date", end_date);
                 (VStr "milestones", VList entries)])].

(** The example of the script's help text. *)
Definition help_document : pyval :=
  release_document "OE-Core" (VFloat "5.1") (ymd 2024 4 30) (ymd 2024 10 25)
    [milestone_entry "M1" (ymd 2024 4 30) (ymd 2024 5 31);
     milestone_entry "M2" (ymd 2024 6 3) (ymd 2024 7 19)].

(** A store with the plan of the example and nothing else. *)
Definition fresh_store : Store :=
  {| plans := [{| plan_id := 1; plan_name := "OE-Core" |};
               {| plan_id := 2; plan_name := "meta-oe" |}];
     releases := []; milestones := [] |}.

Definition plain : Args :=
  {| debug := false; quiet := false; dry_run := false; update := false |}.

Definition with_dry_run : Args :=
  {| debug := false; quiet := false; dry_run := true; update := false |}.

Definition with_update : Args :=
  {| debug := false; quiet := false; dry_run := false; update := true |}.

(** The example without the release's [name]; with a plan that no store
    below has; with a second milestone that lacks its [start_date]; with
    the name [M1] given to both milestones. *)
Definition nameless_document : pyval :=
  VDict [(VStr "release",
          VDict [(VStr "plan", VStr "OE-Core");
                 (VStr "start_date", ymd 2024 4 30); (VStr "end_date", ymd 2024 10 25)])].

Definition unknown_plan_document : pyval :=
  release_document "Poky" (VFloat "5.1") (ymd 2024 4 30) (ymd 2024 10 25) [].

Definition incomplete_milestone_document : pyval :=
  release_document "OE-Core" (VFloat "5.1") (ymd 2024 4 30) (ymd 2024 10 25)
    [milestone_entry "M1" (ymd 2024 4 30) (ymd 2024 5 31);
     VDict [(VStr "name", VStr "M2"); (VStr "end_date", ymd 2024 7 19)]].

Definition twice_document : pyval :=
  release_document "OE-Core" (VFloat "5.1") (ymd 2024 4 30) (ymd 2024 10 25)
    [milestone_entry "M1" (ymd 2024 4 30) (ymd 2024 5 31);
     milestone_entry "M1" (ymd 2024 6 3) (ymd 2024 7 19)].

(** The example with, as its only milestone, an entry that is no mapping:
    the YAML sequence [[name, start_date, end_date]]. *)
Definition sequence_entry : pyval :=
  VList [VStr "name"; VStr "start_date"; VStr "end_date"].


(** The store after the example was imported into [fresh_store]. *)
Definition imported_store : Store :=
  db (snd (@run sample_environment plain help_document fresh_store)).

End samples.

(** ** What is observed of page links *)

Module page_links.
Import Urllib DjangoHttp DjangoPaginator.

(** The page numbers among what the filter yielded, in its order. *)
Fixpoint page_numbers (l : list page_item) : list Z :=
  match l with
  | [] => []
  | PageNumber n :: t => n :: page_numbers t
  | ELLIPSIS :: t => page_numbers t
  end.

(** Every elision marker of [l] stands between two page numbers and
    hides at least the two pages between them. *)
Definition hides_two (l : list page_item) : Prop :=
  forall pre post,
    l = (pre ++ ELLIPSIS :: post)%list ->
    exists pre' a b post',
      pre = (pre' ++ [PageNumber a])%list /\ post = PageNumber b :: post' /\ a + 3 <= b.

(** [p] holds of every byte of [s]. *)
Fixpoint all_chars (p : ascii -> bool) (s : string) : bool :=
  match s with
  | EmptyString => true
  | String c s' => p c && all_chars p s'
  end.

(** The bytes of a query string that needs no further quoting: the
    unreserved characters, the [%] and [+] of the quoting, and the
    delimiters [?], [&] and [=]. *)
Definition query_char (c : ascii) : bool :=
  always_safe c || has_char c "%+?&=".

(** Every key of the dictionary has at least one value. *)
Definition no_empty_list (d : multidict) : Prop :=
  Forall (fun kl => snd kl <> []) d.

End page_links.

(** ** What is observed of the importer's commands *)

Module importer_logic.
Import DjangoDb create_release.
Open Scope string_scope.

(** From a world that satisfies [P] the command [c] returns a value and
    a world that satisfy [Q], or raises an exception in a world that
    satisfy [E]. *)
Definition triple {A : Type} (P : World -> Prop) (c : M A)
    (Q : A -> World -> Prop) (E : exn -> World -> Prop) : Prop :=
  forall w, P w ->
    match c w with
    | (Ok a, w') => Q a w'
    | (Raise e, w') => E e w'
    end.

(** Every exception [c] raises ends the process with status 1. *)
Definition status_one {A : Type} (c : M A) : Prop :=
  triple (fun _ => True) c (fun _ _ => True) (fun e _ => exception_status e = 1).

(** Two commands that, started on the same store, end with the same
    result and the same store; their traces may differ. *)
Definition sim {A : Type} (c1 c2 : M A) : Prop :=
  forall w1 w2, db w1 = db w2 ->
    fst (c1 w1) = fst (c2 w2) /\ db (snd (c1 w1)) = db (snd (c2 w2)).

(** Two commands that, started on the same store, end with the same
    result. *)
Definition same_result {A : Type} (c1 c2 : M A) : Prop :=
  forall w1 w2, db w1 = db w2 -> fst (c1 w1) = fst (c2 w2).

(** Two blocks that end alike, except that one may return where the
    other raises [DryRunRollbackException]. *)
Definition rehearsal (c1 c2 : M unit) : Prop :=
  forall w1 w2, db w1 = db w2 ->
    fst (c1 w1) = fst (c2 w2)
    \/ (fst (c1 w1) = Ok tt /\ fst (c2 w2) = Raise DryRunRollbackException)
    \/ (fst (c1 w1) = Raise DryRunRollbackException /\ fst (c2 w2) = Ok tt).

(** Every log record among the events [evs] is an error record. *)
Definition only_errors (evs : list event) : Prop :=
  forall level msg, List.In (EvLog level msg) evs -> level = ERROR.

(** [c] adds no log record but error records to a trace that has none. *)
Definition quiet_command {A : Type} (c : M A) : Prop :=
  triple (fun w => only_errors (trace w)) c
         (fun _ w => only_errors (trace w)) (fun _ w => only_errors (trace w)).

(** What identifies a release row: its key, its plan and its name. *)
Definition release_key (r : release_row) : Z * Z * string :=
  (release_id r, release_plan_id r, release_name r).

(** No two releases of a plan share a name and no two milestones of a
    release share a name. *)
Definition names_unique (s : Store) : Prop :=
  List.NoDup (map (fun r => (release_plan_id r, release_name r)) (releases s))
  /\ List.NoDup (map (fun m => (milestone_release_id m, milestone_name m))
                     (milestones s)).

(** One write of lines 103-145 for the release [name] of the plan [plan]
    and for milestones whose names satisfy [named]: a row is inserted
    under a new key where the lookup found none, or the row the lookup
    found gets new dates. *)
Inductive write (plan : Z) (name : string) (named : string -> Prop) (s : Store)
    : Store -> Prop :=
| write_release_insert sd ed :
    find_release s plan name = None ->
    write plan name named s
      (insert_release s
         {| release_id := next_pk (map release_id (releases s));
            release_plan_id := plan; release_name := name;
            release_start := sd; release_end := ed |})
| write_release_update found sd ed :
    find_release s plan name = Some found ->
    write plan name named s
      (update_release s
         {| release_id := release_id found; release_plan_id := release_plan_id found;
            release_name := release_name found;
            release_start := sd; release_end := ed |})
| write_milestone_insert release n sd ed :
    named n ->
    find_milestone s release n = None ->
    write plan name named s
      (insert_milestone s
         {| milestone_id := next_pk (map milestone_id (milestones s));
            milestone_release_id := release; milestone_name := n;
            milestone_start := sd; milestone_end := ed |})
| write_milestone_update release n found sd ed :
    named n ->
    find_milestone s release n = Some found ->
    write plan name named s
      (update_milestone s
         {| milestone_id := milestone_id found;
            milestone_release_id := milestone_release_id found;
            milestone_name := milestone_name found;
            milestone_start := sd; milestone_end := ed |}).

(** The names the entries of a [milestones] value give. *)
Definition names_in `{Environment} (milestones : pyval) (n : string) : Prop :=
  exists items ms v,
    py_iter milestones = Ok items /\ List.In ms items /\
    py_getitem ms "name" = Ok v /\ n = py_str v.

End importer_logic.

(** ** More sample inputs *)

Module more_samples.
Import DjangoHttp DjangoDb create_release samples.
Open Scope string_scope.

(** The [GET] dictionary of a request for [?a=1&a=2&q=x+y], the one of
    a request for its link to page 2, and heaps that hold them. *)
Definition first_query : QueryDict :=
  {| mutable := false; entries := QueryDict_parse "a=1&a=2&q=x+y" |}.

Definition second_query : QueryDict :=
  {| mutable := false; entries := QueryDict_parse "a=1&a=2&q=x+y&page=2" |}.

Definition first_heap : heap := {[ 1%positive := first_query ]}.

Definition second_heap : heap := {[ 1%positive := second_query ]}.

Definition the_request : HttpRequest := {| GET := 1%positive |}.

(** The example with, as its only milestone entry, the text [M1], the
    number 5, nothing, and the sequence [[name]]. *)
Definition text_entry_document : pyval :=
  release_document "OE-Core" (VFloat "5.1") (ymd 2024 4 30) (ymd 2024 10 25)
    [VStr "M1"].

Definition number_entry_document : pyval :=
  release_document "OE-Core" (VFloat "5.1") (ymd 2024 4 30) (ymd 2024 10 25)
    [VInt 5].



(** A document whose [release] key holds nothing, and the example with
    the sequence [[name, start_date, end_date]] as its first entry and a
    mapping without [start_date] as its second. *)
Definition null_release_document : pyval :=
  VDict [(VStr "release", VNone)].

Definition mixed_document : pyval :=
  release_document "OE-Core" (VFloat "5.1") (ymd 2024 4 30) (ymd 2024 10 25)
    [sequence_entry;
     VDict [(VStr "name", VStr "M2"); (VStr "end_date", ymd 2024 7 19)]].


(** The example with other dates for the release and for [M1], and
    without [M2]. *)
Definition revised_document : pyval :=
  release_document "OE-Core" (VFloat "5.1") (ymd 2024 5 7) (ymd 2024 11 1)
    [milestone_entry "M1" (ymd 2024 5 7) (ymd 2024 6 7)].

End more_samples.

(** * Part II: theorems *)

Module results.

Lemma Ok_inj {A : Type} (a b : A) : Ok a = Ok b -> a = b.
Proof. intros [= ->]. reflexivity. Qed.

End results.
Import results.

(** ** The elided page range *)

Module paginator_range.
Import DjangoPaginator paginator.

Lemma count_ellipsis_app l1 l2 :
  count_ellipsis (l1 ++ l2) = (count_ellipsis l1 + count_ellipsis l2)%nat.
Proof.
  unfold count_ellipsis. rewrite List.filter_app. apply List.length_app.
Qed.

Lemma count_ellipsis_numbers l : count_ellipsis (numbers l) = 0%nat.
Proof. induction l as [|x l IH]; [reflexivity | exact IH]. Qed.

Lemma count_ellipsis_marker l :
  count_ellipsis (ELLIPSIS :: l) = S (count_ellipsis l).
Proof. reflexivity. Qed.

Lemma count_ellipsis_number n l :
  count_ellipsis (PageNumber n :: l) = count_ellipsis l.
Proof. reflexivity. Qed.

Lemma consecutive_numbers_nil prev l :
  consecutive prev (numbers l) = false.
Proof.
  revert prev. induction l as [|x l IH]; intros prev; [reflexivity|].
  simpl. apply IH.
Qed.

Lemma consecutive_skip_numbers l rest :
  consecutive false (numbers l ++ rest) = consecutive false rest.
Proof. induction l as [|x l IH]; [reflexivity | exact IH]. Qed.

Lemma consecutive_after_numbers prev l rest :
  l <> [] ->
  consecutive prev (numbers l ++ rest) = consecutive false rest.
Proof.
  destruct l as [|x l]; [congruence|]. intros _.
  simpl. apply consecutive_skip_numbers.
Qed.

Lemma range_nonempty a b : a < b -> range a b <> [].
Proof.
  intros Hab. unfold range.
  destruct (Z.to_nat (b - a)) eqn:E; [lia|]. simpl. discriminate.
Qed.

Lemma validate_number_ok p n :
  1 <= n <= num_pages p -> validate_number p n = Ok n.
Proof.
  intros [H1 H2]. unfold validate_number.
  destruct (Z.ltb_spec n 1); [lia|].
  destruct (Z.gtb_spec n (num_pages p)); [lia | reflexivity].
Qed.

Lemma validate_number_inv p n m :
  validate_number p n = Ok m -> m = n /\ 1 <= n <= num_pages p.
Proof.
  unfold validate_number.
  destruct (Z.ltb_spec n 1); [discriminate|].
  destruct (Z.gtb_spec n (num_pages p)); [discriminate|].
  intros [= <-]. lia.
Qed.

(** The shape of what the filter yields for a valid page of a paginator
    with more than eight pages. *)
Lemma elided_page_range_long total current :
  8 < total -> 1 <= current <= total ->
  elided_page_range (page_of total current) =
  Ok ((if current >? 6
       then numbers (range 1 2) ++ [ELLIPSIS]
              ++ numbers (range (current - 3) (current + 1))
       else numbers (range 1 (current + 1)))
      ++ (if current <? total - 5
          then numbers (range (current + 1) (current + 4)) ++ [ELLIPSIS]
                 ++ numbers (range total (total + 1))
          else numbers (range (current + 1) (total + 1)))).
Proof.
  intros Hlong Hvalid.
  unfold elided_page_range, page_of, get_elided_page_range; simpl.
  rewrite validate_number_ok by (simpl; lia). simpl.
  change ((3 + 1) * 2) with 8. change (1 + 3 + 1 + 1) with 6.
  destruct (Z.leb_spec total 8); [lia|].
  replace (total - 3 - 1 - 1) with (total - 5) by lia.
  replace (total - 1 + 1) with total by lia.
  replace (current + 3 + 1) with (current + 4) by lia.
  reflexivity.
Qed.

Lemma elided_page_range_short total current :
  total <= 8 -> 1 <= current <= total ->
  elided_page_range (page_of total current) = Ok (numbers (range 1 (total + 1))).
Proof.
  intros Hshort Hvalid.
  unfold elided_page_range, page_of, get_elided_page_range; simpl.
  rewrite validate_number_ok by (simpl; lia). simpl.
  change ((3 + 1) * 2) with 8.
  destruct (Z.leb_spec total 8); [reflexivity | lia].
Qed.

Lemma elided_page_range_valid total current l :
  elided_page_range (page_of total current) = Ok l -> 1 <= current <= total.
Proof.
  unfold elided_page_range, page_of, get_elided_page_range; simpl.
  destruct (validate_number _ current) as [m|e] eqn:E; [|discriminate].
  intros _. apply validate_number_inv in E. simpl in E. lia.
Qed.

Lemma get_elided_page_range_not_empty p n l :
  get_elided_page_range p n 3 1 = Ok l -> l <> [].
Proof.
  destruct p as [total]. intros Hl.
  assert (Hpage : elided_page_range (page_of total n) = Ok l) by exact Hl.
  pose proof (elided_page_range_valid _ _ _ Hpage) as Hvalid.
  destruct (Z.le_gt_cases total 8) as [Hshort|Hlong].
  - rewrite elided_page_range_short in Hpage by lia. apply Ok_inj in Hpage. subst l.
    pose proof (range_nonempty 1 (total + 1) ltac:(lia)) as Hne.
    destruct (range 1 (total + 1)); [congruence | discriminate].
  - rewrite elided_page_range_long in Hpage by lia. apply Ok_inj in Hpage. subst l.
    destruct (n >? 6); [discriminate|].
    pose proof (range_nonempty 1 (n + 1) ltac:(lia)) as Hne.
    destruct (range 1 (n + 1)); [congruence | discriminate].
Qed.

(** C9, the claim as stated fails: the filter reads [page_obj.paginator]
    before it looks at its class, so that an object without the
    attribute, as [None] is, makes it raise [AttributeError]. *)
Lemma elided_page_range_none_object :
  paginator none_object = None /\
  elided_page_range none_object = Raise AttributeError.
Proof. split; reflexivity. Qed.

(** C9, amended: when the object has an attribute [paginator] and what
    it holds is not an instance of [Paginator], the filter returns the
    empty list and raises nothing, whatever the attribute [number] is
    and whether the object has it; when the object has no attribute
    [paginator] the filter raises [AttributeError]; and the filter
    returns the empty list in no other case. *)
Theorem elided_page_range_not_a_paginator (page_obj : Page) :
  (forall o, paginator page_obj = Some o -> isinstance_Paginator o = false ->
             elided_page_range page_obj = Ok []) /\
  (paginator page_obj = None -> elided_page_range page_obj = Raise AttributeError) /\
  (elided_page_range page_obj = Ok [] ->
   exists o, paginator page_obj = Some o /\ isinstance_Paginator o = false).
Proof.
  destruct page_obj as [n [[p|class_name]|]]; unfold elided_page_range; cbn.
  - split; [|split].
    + intros o [= <-]. discriminate.
    + discriminate.
    + destruct n as [n|]; cbn; [|discriminate].
      intros Hl. now apply get_elided_page_range_not_empty in Hl.
  - split; [|split].
    + reflexivity.
    + discriminate.
    + intros _. now exists (OtherInstance class_name).
  - split; [|split].
    + discriminate.
    + reflexivity.
    + discriminate.
Qed.

(** The amended C9 at work: a page object whose [paginator] is a list,
    with a number and without one. *)
Lemma elided_page_range_not_a_paginator_witness :
  elided_page_range {| number := Some 3; paginator := Some (OtherInstance "list") |} = Ok []
  /\ elided_page_range {| number := None; paginator := Some (OtherInstance "list") |} = Ok [].
Proof.
  split.
  - exact (proj1 (elided_page_range_not_a_paginator
                    {| number := Some 3; paginator := Some (OtherInstance "list") |})
             (OtherInstance "list") eq_refl eq_refl).
  - exact (proj1 (elided_page_range_not_a_paginator
                    {| number := None; paginator := Some (OtherInstance "list") |})
             (OtherInstance "list") eq_refl eq_refl).
Defined.

(** C8, the claim as stated fails: a paginator of 9 = 2*3 + 2*1 + 1
    pages, on its first page, yields an elision marker. *)
Lemma elided_page_range_nine_pages :
  9 <= 2 * 3 + 2 * 1 + 1 /\
  elided_page_range (page_of 9 1) =
    Ok [PageNumber 1; PageNumber 2; PageNumber 3; PageNumber 4;
        ELLIPSIS; PageNumber 9] /\
  count_ellipsis [PageNumber 1; PageNumber 2; PageNumber 3; PageNumber 4;
                  ELLIPSIS; PageNumber 9] = 1%nat.
Proof. split; [lia | split; reflexivity]. Qed.

(** C8, amended: the filter yields a range for every valid page; with at
    most 8 = 2*(3 + 1) pages there is no elision marker in it; when the
    current page is more than 6 and less than [total - 5] there are
    exactly two; there are never more than two, and never two in a row. *)
Theorem elided_page_range_markers (total current : Z) :
  (1 <= current <= total ->
   exists l, elided_page_range (page_of total current) = Ok l) /\
  (total <= 8 ->
   forall l, elided_page_range (page_of total current) = Ok l ->
             count_ellipsis l = 0%nat) /\
  (6 < current < total - 5 ->
   exists l, elided_page_range (page_of total current) = Ok l /\
             count_ellipsis l = 2%nat) /\
  (forall l, elided_page_range (page_of total current) = Ok l ->
             (count_ellipsis l <= 2)%nat /\ consecutive false l = false).
Proof.
  split; [|split; [|split]].
  - intros Hvalid. destruct (Z.le_gt_cases total 8).
    + rewrite elided_page_range_short by lia. eauto.
    + rewrite elided_page_range_long by lia. eauto.
  - intros Hshort l Hl.
    pose proof (elided_page_range_valid _ _ _ Hl) as Hvalid.
    rewrite elided_page_range_short in Hl by lia.
    apply Ok_inj in Hl; subst l. apply count_ellipsis_numbers.
  - intros Hmid. rewrite elided_page_range_long by lia.
    eexists; split; [reflexivity|].
    destruct (Z.gtb_spec current 6); [|lia].
    destruct (Z.ltb_spec current (total - 5)); [|lia].
    rewrite !count_ellipsis_app, !count_ellipsis_numbers, !count_ellipsis_marker.
    reflexivity.
  - intros l Hl.
    pose proof (elided_page_range_valid _ _ _ Hl) as Hvalid.
    destruct (Z.le_gt_cases total 8).
    + rewrite elided_page_range_short in Hl by lia. apply Ok_inj in Hl; subst l.
      rewrite count_ellipsis_numbers, consecutive_numbers_nil. split; [lia | reflexivity].
    + rewrite elided_page_range_long in Hl by lia. apply Ok_inj in Hl; subst l.
      split.
      * destruct (current >? 6), (current <? total - 5);
          rewrite ?count_ellipsis_app, ?count_ellipsis_numbers;
          rewrite ?count_ellipsis_app, ?count_ellipsis_numbers,
                  ?count_ellipsis_marker;
          change (count_ellipsis []) with 0%nat; lia.
      * assert (Htail : forall prev,
                 consecutive prev
                   (numbers (range (current - 3) (current + 1)) ++
                    (if current <? total - 5
                     then numbers (range (current + 1) (current + 4)) ++ [ELLIPSIS]
                            ++ numbers (range total (total + 1))
                     else numbers (range (current + 1) (total + 1)))) = false).
        { intros prev. rewrite consecutive_after_numbers by (apply range_nonempty; lia).
          destruct (current <? total - 5).
          - rewrite consecutive_skip_numbers. simpl. apply consecutive_numbers_nil.
          - apply consecutive_numbers_nil. }
        destruct (current >? 6).
        -- rewrite <- !app_assoc. rewrite consecutive_skip_numbers. simpl.
           apply Htail.
        -- rewrite consecutive_skip_numbers.
           destruct (current <? total - 5).
           ++ rewrite consecutive_skip_numbers. simpl. apply consecutive_numbers_nil.
           ++ apply consecutive_numbers_nil.
Qed.

(** The amended C8 at work: 8 pages, and page 7 of 13. *)
Lemma elided_page_range_markers_witness :
  (exists l, elided_page_range (page_of 8 1) = Ok l) /\
  (forall l, elided_page_range (page_of 8 1) = Ok l -> count_ellipsis l = 0%nat) /\
  (exists l, elided_page_range (page_of 13 7) = Ok l /\ count_ellipsis l = 2%nat).
Proof.
  split; [|split].
  - apply (proj1 (elided_page_range_markers 8 1)). lia.
  - apply (proj1 (proj2 (elided_page_range_markers 8 1))). lia.
  - apply (proj1 (proj2 (proj2 (elided_page_range_markers 13 7)))). lia.
Defined.

End paginator_range.

(** ** Query strings: [urlencode] and [parse_qsl] are inverse *)

Module query_string.
Import Urllib DjangoHttp paginator.
Open Scope string_scope.

Ltac each_byte c := destruct c as [[] [] [] [] [] [] [] []].

Lemma replace_char_app a b x y :
  replace_char a b (x ++ y) = replace_char a b x ++ replace_char a b y.
Proof. induction x as [|c x IH]; simpl; [reflexivity | now rewrite IH]. Qed.

Lemma has_char_app c x y :
  has_char c (x ++ y) = has_char c x || has_char c y.
Proof.
  induction x as [|d x IH]; simpl; [reflexivity|].
  rewrite IH. apply orb_assoc.
Qed.

(** The bytes [quote] writes for an unsafe byte hold no space. *)
Lemma percent_no_space c : replace_char " " "+" (percent c) = percent c.
Proof. each_byte c; reflexivity. Qed.

Lemma always_safe_not_space c : always_safe c = true -> Ascii.eqb c " " = false.
Proof. each_byte c; vm_compute; congruence. Qed.

Lemma quote_cons safe c s :
  quote safe (String c s) =
  if always_safe c || safe c then String c (quote safe s)
  else percent c ++ quote safe s.
Proof. reflexivity. Qed.

Lemma replace_char_cons a b c s :
  replace_char a b (String c s) =
  String (if Ascii.eqb c a then b else c) (replace_char a b s).
Proof. reflexivity. Qed.

Lemma quote_space_bytes s :
  replace_char " " "+" (quote (fun c => Ascii.eqb c " ") s) = quote_plus_bytes s.
Proof.
  induction s as [|c s IH]; [reflexivity|].
  rewrite quote_cons. cbn [quote_plus_bytes]. unfold quote_plus_byte.
  destruct (always_safe c) eqn:Hs; cbn [orb].
  - rewrite replace_char_cons, (always_safe_not_space c Hs), IH. reflexivity.
  - destruct (Ascii.eqb c " ") eqn:Hc.
    + rewrite replace_char_cons, Hc, IH. reflexivity.
    + rewrite replace_char_app, percent_no_space, IH. reflexivity.
Qed.

Lemma quote_no_space_bytes s :
  has_char " " s = false -> quote (fun _ => false) s = quote_plus_bytes s.
Proof.
  induction s as [|c s IH]; [reflexivity|].
  cbn [has_char]. intros Hn. apply orb_false_iff in Hn as [Hc Hs].
  rewrite quote_cons. cbn [quote_plus_bytes]. unfold quote_plus_byte.
  rewrite orb_false_r, Hc, IH by exact Hs.
  destruct (always_safe c); reflexivity.
Qed.

Lemma quote_plus_bytes_eq s : quote_plus s = quote_plus_bytes s.
Proof.
  unfold quote_plus. destruct (has_char " " s) eqn:Hs.
  - apply quote_space_bytes.
  - now apply quote_no_space_bytes.
Qed.

(** One quoted byte is read back as that byte. *)
Lemma unquote_byte c rest :
  unquote (replace_char "+" " " (quote_plus_byte c ++ rest)) =
  String c (unquote (replace_char "+" " " rest)).
Proof. each_byte c; reflexivity. Qed.

Lemma unquote_quote_plus s :
  unquote (replace_char "+" " " (quote_plus s)) = s.
Proof.
  rewrite quote_plus_bytes_eq.
  induction s as [|c s IH]; [reflexivity|].
  simpl. rewrite unquote_byte, IH. reflexivity.
Qed.

(** Quoted text holds neither [&] nor [=]. *)
Lemma quote_plus_byte_no_amp c rest :
  has_char "&" (quote_plus_byte c ++ rest) = has_char "&" rest.
Proof. each_byte c; reflexivity. Qed.

Lemma quote_plus_byte_no_eq c rest :
  has_char "=" (quote_plus_byte c ++ rest) = has_char "=" rest.
Proof. each_byte c; reflexivity. Qed.

Lemma quote_plus_no_amp s : has_char "&" (quote_plus s) = false.
Proof.
  rewrite quote_plus_bytes_eq.
  induction s as [|c s IH]; [reflexivity|].
  simpl. now rewrite quote_plus_byte_no_amp.
Qed.

Lemma quote_plus_no_eq s : has_char "=" (quote_plus s) = false.
Proof.
  rewrite quote_plus_bytes_eq.
  induction s as [|c s IH]; [reflexivity|].
  simpl. now rewrite quote_plus_byte_no_eq.
Qed.

Lemma partition_found sep a b :
  has_char sep a = false ->
  partition sep (a ++ String sep b) = (a, true, b).
Proof.
  induction a as [|c a IH]; simpl.
  - intros _. now rewrite Ascii.eqb_refl.
  - intros Hn. apply orb_false_iff in Hn as [Hc Ha].
    rewrite Hc, IH by exact Ha. reflexivity.
Qed.

Lemma split_none sep a : has_char sep a = false -> split sep a = [a].
Proof.
  induction a as [|c a IH]; simpl; [reflexivity|].
  intros Hn. apply orb_false_iff in Hn as [Hc Ha].
  rewrite Hc, IH by exact Ha. reflexivity.
Qed.

Lemma split_first sep a b :
  has_char sep a = false ->
  split sep (a ++ String sep b) = a :: split sep b.
Proof.
  induction a as [|c a IH]; simpl.
  - intros _. now rewrite Ascii.eqb_refl.
  - intros Hn. apply orb_false_iff in Hn as [Hc Ha].
    rewrite Hc, IH by exact Ha. reflexivity.
Qed.

Lemma split_concat sep pieces :
  pieces <> [] ->
  Forall (fun piece => has_char sep piece = false) pieces ->
  split sep (String.concat (String sep "") pieces) = pieces.
Proof.
  induction pieces as [|x rest IH]; [congruence|].
  intros _ Hall. inversion Hall as [|? ? Hx Hrest]; subst.
  destruct rest as [|y rest].
  - simpl. now apply split_none.
  - change (String.concat (String sep "") (x :: y :: rest))
      with (x ++ String sep (String.concat (String sep "") (y :: rest))).
    rewrite split_first by exact Hx.
    rewrite IH by (congruence || assumption). reflexivity.
Qed.

Lemma urlencode_pair_no_amp k v : has_char "&" (urlencode_pair k v) = false.
Proof.
  unfold urlencode_pair. rewrite !has_char_app, !quote_plus_no_amp. reflexivity.
Qed.

Lemma urlencode_pair_partition k v :
  partition "=" (urlencode_pair k v) = (quote_plus k, true, quote_plus v).
Proof. apply partition_found, quote_plus_no_eq. Qed.

Lemma urlencode_pair_not_empty k v : urlencode_pair k v <> "".
Proof.
  unfold urlencode_pair. destruct (quote_plus k); discriminate.
Qed.

Lemma parse_pieces_encoded ps :
  parse_pieces true (map (fun kv => urlencode_pair (fst kv) (snd kv)) ps) = ps.
Proof.
  induction ps as [|[k v] ps IH]; [reflexivity|].
  simpl map. unfold parse_pieces; fold parse_pieces.
  destruct (urlencode_pair k v) eqn:E; [now apply urlencode_pair_not_empty in E|].
  rewrite <- E, urlencode_pair_partition, !unquote_quote_plus, IH.
  destruct (quote_plus v); reflexivity.
Qed.

Lemma concat_not_empty sep x rest :
  x <> "" -> String.concat sep (x :: rest) <> "".
Proof.
  intros Hx. destruct rest as [|y rest]; simpl; [exact Hx|].
  destruct x; [congruence | discriminate].
Qed.

(** [parse_qsl] reads back the pairs [urlencode] wrote. *)
Lemma parse_qsl_urlencode d : parse_qsl (urlencode d) true = pairs d.
Proof.
  unfold urlencode, parse_qsl.
  destruct (pairs d) as [|[k v] ps] eqn:E; [reflexivity|].
  set (enc := map _ _).
  destruct (String.concat "&" enc) eqn:Hc.
  - exfalso. revert Hc. apply concat_not_empty, urlencode_pair_not_empty.
  - rewrite <- Hc. subst enc. rewrite split_concat.
    + apply parse_pieces_encoded.
    + discriminate.
    + apply Forall_map, Forall_forall. intros [k' v'] _. apply urlencode_pair_no_amp.
Qed.

(** *** The dictionary of a [QueryDict] *)

Lemma dict_get_set {V : Type} k k' (v : V) d :
  dict_get k (dict_set k' v d) = if String.eqb k k' then Some v else dict_get k d.
Proof.
  induction d as [|[k0 v0] d IH]; simpl.
  - destruct (String.eqb k k'); reflexivity.
  - destruct (String.eqb_spec k' k0) as [->|Hne]; simpl.
    + destruct (String.eqb k k0); reflexivity.
    + rewrite IH. destruct (String.eqb_spec k k0) as [->|Hne']; [|reflexivity].
      destruct (String.eqb_spec k0 k'); congruence.
Qed.

Lemma getlist_appendlist k k' v d :
  getlist k (appendlist k' v d) =
  if String.eqb k k' then (getlist k d ++ [v])%list else getlist k d.
Proof.
  unfold appendlist, getlist at 1. rewrite dict_get_set.
  destruct (String.eqb_spec k k') as [->|Hne]; reflexivity.
Qed.

Lemma getlist_fold_appendlist k ps acc :
  getlist k (fold_left (fun d kv => appendlist (fst kv) (snd kv) d) ps acc) =
  (getlist k acc ++ values_of k ps)%list.
Proof.
  revert acc. induction ps as [|[k' v] ps IH]; intros acc; simpl.
  - now rewrite app_nil_r.
  - rewrite IH, getlist_appendlist. unfold values_of. simpl.
    destruct (String.eqb k k'); simpl; [now rewrite <- app_assoc | reflexivity].
Qed.

Lemma values_of_app k ps qs :
  values_of k (ps ++ qs)%list = (values_of k ps ++ values_of k qs)%list.
Proof. unfold values_of. now rewrite List.filter_app, List.map_app. Qed.

Lemma values_of_same_key k k' (l : list string) :
  values_of k (map (fun v => (k', v)) l) = if String.eqb k k' then l else [].
Proof.
  unfold values_of.
  induction l as [|v l IH]; simpl; [now destruct (String.eqb k k')|].
  destruct (String.eqb k k') eqn:E; simpl; [|exact IH].
  f_equal. exact IH.
Qed.

Lemma dict_get_absent {V : Type} k (d : list (string * V)) :
  ~ List.In k (map fst d) -> dict_get k d = None.
Proof.
  induction d as [|[k0 v0] d IH]; simpl; [reflexivity|].
  intros Hn. destruct (String.eqb_spec k k0) as [->|Hne]; [tauto|].
  apply IH. tauto.
Qed.

(** In a dictionary, whose keys are distinct, the values found by
    walking through all pairs are the list stored under the key. *)
Lemma values_of_pairs k d :
  List.NoDup (map fst d) -> values_of k (pairs d) = getlist k d.
Proof.
  induction d as [|[k0 l] d IH]; [reflexivity|].
  intros Hnd. inversion Hnd as [|? ? Hnotin Hnd']; subst.
  unfold pairs. simpl flat_map. fold (pairs d).
  rewrite values_of_app, values_of_same_key, (IH Hnd').
  unfold getlist at 2. simpl dict_get.
  destruct (String.eqb_spec k k0) as [->|Hne].
  - unfold getlist. rewrite (dict_get_absent k0 d Hnotin). apply app_nil_r.
  - reflexivity.
Qed.

Lemma dict_set_keys {V : Type} x k (v : V) d :
  List.In x (map fst (dict_set k v d)) -> x = k \/ List.In x (map fst d).
Proof.
  induction d as [|[k0 v0] d IH]; simpl.
  - intros [->|[]]. now left.
  - destruct (String.eqb_spec k k0) as [->|Hne]; simpl.
    + intros [->|Hin]; auto.
    + intros [->|Hin]; auto. destruct (IH Hin); auto.
Qed.

Lemma dict_set_NoDup {V : Type} k (v : V) d :
  List.NoDup (map fst d) -> List.NoDup (map fst (dict_set k v d)).
Proof.
  induction d as [|[k0 v0] d IH]; simpl.
  - intros _. constructor; [intros [] | constructor].
  - intros Hnd. inversion Hnd as [|? ? Hnotin Hnd']; subst.
    destruct (String.eqb_spec k k0) as [->|Hne]; simpl.
    + now constructor.
    + constructor; [|now apply IH].
      intros Hin. apply dict_set_keys in Hin as [->|Hin]; [congruence | tauto].
Qed.

(** Parsing what [urlencode] wrote gives back every list of values. *)
Lemma getlist_parse_urlencode key d :
  List.NoDup (map fst d) ->
  getlist key (QueryDict_parse (urlencode d)) = getlist key d.
Proof.
  intros Hnd. unfold QueryDict_parse.
  rewrite parse_qsl_urlencode, getlist_fold_appendlist.
  simpl. now apply values_of_pairs.
Qed.

(** What [page_url] does on the heap. *)
Lemma page_url_runs (h : heap) request q page :
  h !! GET request = Some q ->
  page_url request page h =
  (Ok ("?" ++ urlencode (dict_set "page" [str_of_int page] (entries q))),
   <[fresh (dom h) :=
       {| mutable := true;
          entries := dict_set "page" [str_of_int page] (entries q) |}]> h).
Proof.
  intros Hq. unfold page_url, QueryDict_copy, QueryDict_setitem, QueryDict_urlencode.
  rewrite Hq. rewrite lookup_insert_eq. simpl.
  rewrite lookup_insert_eq. simpl. rewrite insert_insert_eq. reflexivity.
Qed.

(** C7: [page_url] returns [?] followed by a query string which, parsed
    back, holds the one value [str(page)] under [page] and, under every
    other key, the values the request held; and every object of the heap,
    the request's [GET] among them, is as it was. *)
Theorem page_url_round_trip (h : heap) (request : HttpRequest) (q : QueryDict)
    (page : Z) :
  h !! GET request = Some q ->
  List.NoDup (map fst (entries q)) ->
  exists (qs : string) (h' : heap),
    page_url request page h = (Ok ("?" ++ qs), h') /\
    (forall key,
       getlist key (QueryDict_parse qs) =
       if String.eqb key "page" then [str_of_int page]
       else getlist key (entries q)) /\
    (forall r o, h !! r = Some o -> h' !! r = Some o).
Proof.
  intros Hq Hnd. eexists _, _.
  split; [rewrite (page_url_runs h request q page Hq); reflexivity|]. split.
  - intros key. rewrite getlist_parse_urlencode by now apply dict_set_NoDup.
    unfold getlist. rewrite dict_get_set.
    destruct (String.eqb key "page"); reflexivity.
  - intros r o Hr. rewrite lookup_insert_ne; [exact Hr|].
    intros <-. apply (is_fresh (dom h)). apply elem_of_dom. eauto.
Qed.

(** C7 at work: a request for [?a=1&a=2&page=7&q=x y&b=]. *)
Lemma page_url_round_trip_witness :
  let q := {| mutable := false;
              entries := [("a", ["1"; "2"]); ("page", ["7"]); ("q", ["x y"]);
                          ("b", [""])] |} in
  let h : heap := {[ 1%positive := q ]} in
  h !! 1%positive = Some q /\
  List.NoDup (map fst (entries q)) /\
  exists (qs : string) (h' : heap),
    page_url {| GET := 1%positive |} 3 h = (Ok ("?" ++ qs), h') /\
    (forall key,
       getlist key (QueryDict_parse qs) =
       if String.eqb key "page" then [str_of_int 3]
       else getlist key (entries q)) /\
    (forall r o, h !! r = Some o -> h' !! r = Some o).
Proof.
  intros q h.
  assert (Hq : h !! 1%positive = Some q) by reflexivity.
  assert (Hnd : List.NoDup (map fst (entries q))).
  { simpl. repeat constructor; simpl; intuition discriminate. }
  exact (conj Hq (conj Hnd
           (page_url_round_trip h {| GET := 1%positive |} q 3 Hq Hnd))).
Defined.

End query_string.

(** ** The importer: running commands *)

Module commands.
Import DjangoDb create_release.

Lemma runs_ret {A : Type} (a : A) s t : runs (ret a) s t (Ok a) s [].
Proof. unfold runs, ret. now rewrite app_nil_r. Qed.

Lemma runs_raise {A : Type} e s t : runs (@raise A e) s t (Raise e) s [].
Proof. unfold runs, raise. now rewrite app_nil_r. Qed.

Lemma runs_lift {A : Type} (r : result A) s t : runs (lift r) s t r s [].
Proof. unfold runs, lift. now rewrite app_nil_r. Qed.

Lemma runs_emit e s t : runs (emit e) s t (Ok tt) s [e].
Proof. reflexivity. Qed.

Lemma runs_get_db s t : runs get_db s t (Ok s) s [].
Proof. unfold runs, get_db. simpl. now rewrite app_nil_r. Qed.

Lemma runs_put_db s' s t : runs (put_db s') s t (Ok tt) s' [].
Proof. unfold runs, put_db. simpl. now rewrite app_nil_r. Qed.

Lemma runs_bind {A B : Type} (c : M A) (k : A -> M B) s t a s1 e1 r s2 e2 :
  runs c s t (Ok a) s1 e1 ->
  runs (k a) s1 (t ++ e1) r s2 e2 ->
  runs (bind c k) s t r s2 (e1 ++ e2).
Proof.
  unfold runs, bind. intros -> ->. now rewrite app_assoc.
Qed.

(** The same when the first or the second command adds no event. *)
Lemma runs_bind_silent {A B : Type} (c : M A) (k : A -> M B) s t a r s2 e2 :
  runs c s t (Ok a) s [] ->
  runs (k a) s t r s2 e2 ->
  runs (bind c k) s t r s2 e2.
Proof.
  intros Hc Hk. apply (runs_bind c k s t a s [] r s2 e2 Hc).
  now rewrite app_nil_r.
Qed.

Lemma runs_bind_then_silent {A B : Type} (c : M A) (k : A -> M B)
    s t a s1 e1 r s2 :
  runs c s t (Ok a) s1 e1 ->
  runs (k a) s1 (t ++ e1) r s2 [] ->
  runs (bind c k) s t r s2 e1.
Proof.
  intros Hc Hk. rewrite <- (app_nil_r e1).
  now apply (runs_bind c k s t a s1 e1 r s2 []).
Qed.

Lemma runs_bind_raise {A B : Type} (c : M A) (k : A -> M B) s t e s1 e1 :
  runs c s t (Raise e) s1 e1 ->
  runs (bind c k) s t (Raise e) s1 e1.
Proof. unfold runs, bind. now intros ->. Qed.

Lemma runs_logger_log lvl level msg s t :
  runs (logger_log lvl level msg) s t (Ok tt) s (logged lvl level msg).
Proof.
  unfold logger_log, logged. destruct (level >=? lvl).
  - apply runs_emit.
  - apply runs_ret.
Qed.

(** A command has one run. *)
Lemma runs_unique {A : Type} (c : M A) s t r s' evs r2 s2 evs2 :
  runs c s t r s' evs -> runs c s t r2 s2 evs2 ->
  r = r2 /\ s' = s2 /\ evs = evs2.
Proof.
  unfold runs. intros -> [= -> -> Ht]. apply app_inv_head in Ht. auto.
Qed.

(** Every command runs: its events are added to the trace it was given.
    This holds of each command built below from the primitive ones; here
    for the logger and for a command followed by another. *)
Lemma logged_error_always args msg :
  logged (loglevel args) ERROR msg = [EvLog ERROR msg].
Proof. unfold logged, loglevel. destruct (debug args), (quiet args); reflexivity. Qed.

End commands.

(** ** The importer: the checks made before the store is touched *)

Module validation.
Import DjangoDb create_release commands.
Open Scope string_scope.

(** *** Commands that leave the store alone *)

Lemma store_free_ret {A : Type} (a : A) : store_free (ret a).
Proof.
  intros s t. exists (Ok a), []. split; [apply runs_ret|].
  split; [reflexivity | discriminate].
Qed.

Lemma store_free_lift {A : Type} (r : result A) :
  (forall e, r = Raise e -> exception_status e = 1) ->
  store_free (lift r).
Proof.
  intros Hr s t. exists r, []. split; [apply runs_lift|].
  split; [reflexivity | exact Hr].
Qed.

Lemma store_free_sys_exit {A : Type} : store_free (@sys_exit A 1).
Proof.
  intros s t. exists (Raise (SystemExit 1)), []. split; [apply runs_raise|].
  split; [reflexivity|]. now intros e [= <-].
Qed.

Lemma store_free_logger lvl level msg : store_free (logger_log lvl level msg).
Proof.
  intros s t. exists (Ok tt), (logged lvl level msg).
  split; [apply runs_logger_log|]. split; [|discriminate].
  unfold logged. now destruct (level >=? lvl).
Qed.

Lemma store_free_bind {A B : Type} (c : M A) (k : A -> M B) :
  store_free c -> (forall a, store_free (k a)) -> store_free (bind c k).
Proof.
  intros Hc Hk s t.
  destruct (Hc s t) as (r & e1 & Hrun & Hlog & Hexc).
  destruct r as [a|e].
  - destruct (Hk a s (t ++ e1)%list) as (r2 & e2 & Hrun2 & Hlog2 & Hexc2).
    exists r2, (e1 ++ e2)%list. split; [now apply (runs_bind c k s t a s e1)|].
    split; [|exact Hexc2]. rewrite forallb_app, Hlog, Hlog2. reflexivity.
  - exists (Raise e), e1. split; [now apply runs_bind_raise|].
    split; [exact Hlog|]. now intros e' [= <-]; apply Hexc.
Qed.

Lemma store_free_for_each {A : Type} (l : list A) (body : A -> M unit) :
  (forall x, store_free (body x)) -> store_free (for_each l body).
Proof.
  intros Hbody. induction l as [|x l IH]; simpl.
  - apply store_free_ret.
  - apply store_free_bind; [apply Hbody | intros _; exact IH].
Qed.

Lemma store_free_for_each_enumerate {A : Type} (l : list A) i
    (body : Z -> A -> M unit) :
  (forall j x, store_free (body j x)) -> store_free (for_each_enumerate i l body).
Proof.
  intros Hbody. revert i. induction l as [|x l IH]; intros i; simpl.
  - apply store_free_ret.
  - apply store_free_bind; [apply Hbody | intros _; apply IH].
Qed.

Lemma py_in_status k c e : py_in k c = Raise e -> exception_status e = 1.
Proof. destruct c; simpl; intros [= <-]; reflexivity. Qed.

Lemma py_getitem_status c k e : py_getitem c k = Raise e -> exception_status e = 1.
Proof.
  destruct c; simpl; try (intros [= <-]; reflexivity).
  destruct (lookup_key k d); intros [= <-]; reflexivity.
Qed.

Lemma py_get_status c k v e : py_get c k v = Raise e -> exception_status e = 1.
Proof.
  destruct c; simpl; try (intros [= <-]; reflexivity).
  destruct (lookup_key k d); discriminate.
Qed.

Lemma py_iter_status c e : py_iter c = Raise e -> exception_status e = 1.
Proof. destruct c; simpl; intros [= <-]; reflexivity. Qed.

Lemma store_free_check_field lvl obj msg field :
  store_free (check_field lvl obj msg field).
Proof.
  unfold check_field. apply store_free_bind.
  - apply store_free_lift, py_in_status.
  - intros present. destruct (negb present).
    + apply store_free_bind; [apply store_free_logger | intros _; apply store_free_sys_exit].
    + apply store_free_ret.
Qed.

(** The checks of lines 68-85 leave the store alone. *)
Lemma store_free_validate lvl data : store_free (validate lvl data).
Proof.
  unfold validate.
  apply store_free_bind; [apply store_free_lift, py_in_status|]. intros has_release.
  apply store_free_bind.
  { destruct (negb has_release); [|apply store_free_ret].
    apply store_free_bind; [apply store_free_logger | intros _; apply store_free_sys_exit]. }
  intros _.
  apply store_free_bind; [apply store_free_lift, py_getitem_status|]. intros reldata.
  apply store_free_bind.
  { apply store_free_for_each. intros field.
    apply (store_free_check_field lvl reldata release_message). }
  intros _.
  apply store_free_bind; [apply store_free_lift, py_get_status|]. intros milestones.
  apply store_free_bind; [apply store_free_lift, py_iter_status|]. intros items.
  apply store_free_bind; [|intros _; apply store_free_ret].
  apply store_free_for_each_enumerate. intros i ms.
  apply store_free_for_each. intros field.
  apply (store_free_check_field lvl ms (milestone_message i)).
Qed.

(** *** The checks on mappings *)

Lemma py_in_dict k d : py_in k (VDict d) = Ok (has_field k (VDict d)).
Proof.
  simpl. f_equal. induction d as [|[k' v] d IH]; simpl; [reflexivity|].
  destruct (is_str k k'); simpl; [reflexivity | exact IH].
Qed.

Lemma has_field_dict f v : has_field f v = true -> exists d, v = VDict d.
Proof. destruct v; simpl; try discriminate. eauto. Qed.

Lemma py_getitem_field f v :
  has_field f v = true -> py_getitem v f = Ok (field f v).
Proof.
  destruct v; simpl; try discriminate.
  destruct (lookup_key f d); [reflexivity | discriminate].
Qed.

(** On a mapping, the loop over the required fields stops at the first
    one that is missing, logs it and exits with code 1. *)
Lemma runs_check_fields lvl d msg fields s t :
  runs (for_each fields (check_field lvl (VDict d) msg)) s t
       (match first_missing fields (VDict d) with
        | None => Ok tt
        | Some _ => Raise (SystemExit 1)
        end)
       s
       (match first_missing fields (VDict d) with
        | None => []
        | Some f => logged lvl ERROR (msg f)
        end).
Proof.
  induction fields as [|f fields IH]; [apply runs_ret|].
  cbn [for_each first_missing find].
  unfold check_field at 1. rewrite py_in_dict.
  destruct (has_field f (VDict d)) eqn:Hf; cbn [negb].
  - eapply runs_bind_silent; [|exact IH].
    eapply runs_bind_silent; [apply runs_lift | apply runs_ret].
  - apply runs_bind_raise.
    eapply runs_bind_silent; [apply runs_lift|]. cbn [negb].
    eapply runs_bind_then_silent; [apply runs_logger_log | apply runs_raise].
Qed.

Lemma has_fields_first_missing fields v :
  has_fields fields v = true -> first_missing fields v = None.
Proof.
  unfold has_fields, first_missing.
  induction fields as [|f fields IH]; simpl; [reflexivity|].
  intros Hall. apply andb_true_iff in Hall as [-> Hall]. simpl. now apply IH.
Qed.

Lemma first_missing_has_fields fields v f :
  first_missing fields v = Some f -> has_fields fields v = false.
Proof.
  unfold has_fields, first_missing.
  induction fields as [|f' fields IH]; simpl; [discriminate|].
  destruct (has_field f' v); simpl; [exact IH | reflexivity].
Qed.

Lemma has_fields_milestone_dict m :
  has_fields milestone_fields m = true -> exists d, m = VDict d.
Proof.
  unfold has_fields. simpl. intros Hm.
  apply andb_true_iff in Hm as [Hm _]. now apply has_field_dict in Hm.
Qed.

(** The loop over the milestones, on a list whose first entries are
    complete mappings and whose next entry is a mapping that lacks a
    field: it logs the position of that entry, counted from 1 when the
    loop starts at 0, and exits with code 1. *)
Lemma runs_check_milestones_bad lvl good b rest f i s t :
  forallb (has_fields milestone_fields) good = true ->
  first_missing milestone_fields (VDict b) = Some f ->
  runs (for_each_enumerate i (good ++ VDict b :: rest)%list
          (fun j ms => for_each milestone_fields
                         (check_field lvl ms (milestone_message j))))
       s t (Raise (SystemExit 1)) s
       (logged lvl ERROR (milestone_message (i + Z.of_nat (List.length good)) f)).
Proof.
  intros Hgood Hbad. revert i.
  induction good as [|m good IH]; intros i.
  - cbn [app for_each_enumerate List.length Z.of_nat]. rewrite Z.add_0_r.
    apply runs_bind_raise.
    pose proof (runs_check_fields lvl b (milestone_message i) milestone_fields s t) as Hrun.
    now rewrite Hbad in Hrun.
  - cbn [forallb] in Hgood. apply andb_true_iff in Hgood as [Hm Hgood].
    destruct (has_fields_milestone_dict m Hm) as [d ->].
    cbn [app for_each_enumerate].
    replace (i + Z.of_nat (List.length (VDict d :: good)))
      with (i + 1 + Z.of_nat (List.length good)) by (cbn [List.length]; lia).
    eapply runs_bind_silent; [|apply IH; exact Hgood].
    pose proof (runs_check_fields lvl d (milestone_message i) milestone_fields s t) as Hrun.
    rewrite (has_fields_first_missing _ _ Hm) in Hrun. exact Hrun.
Qed.

Lemma runs_check_milestones_good lvl l i s t :
  forallb (has_fields milestone_fields) l = true ->
  runs (for_each_enumerate i l
          (fun j ms => for_each milestone_fields
                         (check_field lvl ms (milestone_message j))))
       s t (Ok tt) s [].
Proof.
  intros Hgood. revert i.
  induction l as [|m l IH]; intros i; [apply runs_ret|].
  cbn [forallb] in Hgood. apply andb_true_iff in Hgood as [Hm Hgood].
  destruct (has_fields_milestone_dict m Hm) as [d ->].
  cbn [for_each_enumerate].
  eapply runs_bind_silent; [|apply IH; exact Hgood].
  pose proof (runs_check_fields lvl d (milestone_message i) milestone_fields s t) as Hrun.
  rewrite (has_fields_first_missing _ _ Hm) in Hrun. exact Hrun.
Qed.

(** *** Documents that pass the checks *)

Lemma well_formed_inv data :
  well_formed data = true ->
  has_field "release" data = true /\
  has_fields release_fields (release_of data) = true /\
  forallb (has_fields milestone_fields) (milestones_of data) = true /\
  py_get (release_of data) "milestones" (VList []) = Ok (VList (milestones_of data)).
Proof.
  unfold well_formed. intros Hwf.
  apply andb_true_iff in Hwf as [Hwf Hms]. apply andb_true_iff in Hwf as [Hrel Hfields].
  split; [exact Hrel|]. split; [exact Hfields|].
  unfold milestones_of.
  assert (Hdict : exists r, release_of data = VDict r).
  { unfold has_fields in Hfields. simpl in Hfields.
    apply andb_true_iff in Hfields as [Hplan _]. now apply has_field_dict in Hplan. }
  destruct Hdict as [r Hr]. rewrite Hr in *.
  unfold field, has_field in *. simpl.
  destruct (lookup_key "milestones" r) as [v|]; [|split; reflexivity].
  destruct v; try discriminate. split; [exact Hms | reflexivity].
Qed.

(** A well-formed document passes the checks: they return its release
    object and its [milestones] list, and log nothing. *)
Lemma runs_validate lvl data s t :
  well_formed data = true ->
  runs (validate lvl data) s t
       (Ok (release_of data, VList (milestones_of data))) s [].
Proof.
  intros Hwf. destruct (well_formed_inv data Hwf) as (Hrel & Hfields & Hms & Hget).
  destruct (has_field_dict _ _ Hrel) as [d ->].
  assert (Hdict : exists r, release_of (VDict d) = VDict r).
  { unfold has_fields in Hfields. simpl in Hfields.
    apply andb_true_iff in Hfields as [Hplan _]. now apply has_field_dict in Hplan. }
  destruct Hdict as [r Hr].
  unfold validate. rewrite py_in_dict, Hrel. cbn [negb].
  eapply runs_bind_silent; [apply runs_lift|].
  eapply runs_bind_silent; [apply runs_ret|].
  rewrite (py_getitem_field _ _ Hrel). fold (release_of (VDict d)).
  eapply runs_bind_silent; [apply runs_lift|].
  eapply runs_bind_silent.
  { rewrite Hr.
    pose proof (runs_check_fields lvl r release_message release_fields s t) as Hrun.
    rewrite <- Hr, (has_fields_first_missing _ _ Hfields) in Hrun.
    rewrite Hr in Hrun. exact Hrun. }
  rewrite Hget.
  eapply runs_bind_silent; [apply runs_lift|].
  eapply runs_bind_silent; [apply runs_lift|].
  eapply runs_bind_silent; [|apply runs_ret].
  now apply runs_check_milestones_good.
Qed.

(** *** Documents that do not pass the checks *)









(** *** The membership tests on any value *)

Lemma py_in_raises k c e : py_in k c = Raise e -> e = TypeError.
Proof. destruct c; simpl; now intros [= <-]. Qed.

(** The loop over the required fields stops at the first test that does
    not succeed: a false test logs the field and exits with code 1, a
    test that raises logs nothing. *)
Lemma runs_test_fields lvl v msg fields s t :
  runs (for_each fields (check_field lvl v msg)) s t
       (match test_fields fields v with
        | AllPresent => Ok tt
        | Absent _ => Raise (SystemExit 1)
        | TestRaises e => Raise e
        end)
       s
       (match test_fields fields v with
        | Absent f => logged lvl ERROR (msg f)
        | _ => []
        end).
Proof.
  induction fields as [|f fields IH]; [apply runs_ret|].
  cbn [for_each test_fields]. unfold check_field at 1.
  destruct (py_in f v) as [[|]|e] eqn:Hin.
  - eapply runs_bind_silent; [|exact IH].
    eapply runs_bind_silent; [apply runs_lift | apply runs_ret].
  - apply runs_bind_raise.
    eapply runs_bind_silent; [apply runs_lift|]. cbn [negb].
    eapply runs_bind_then_silent; [apply runs_logger_log | apply runs_raise].
  - apply runs_bind_raise. apply runs_bind_raise. apply runs_lift.
Qed.

Lemma contains_true f v : contains f v = true -> py_in f v = Ok true.
Proof. unfold contains. now destruct (py_in f v) as [[|]|]. Qed.

Lemma test_fields_all fields v :
  contains_all fields v = true -> test_fields fields v = AllPresent.
Proof.
  unfold contains_all. induction fields as [|f fields IH]; [reflexivity|].
  cbn [forallb test_fields]. intros Hall. apply andb_true_iff in Hall as [Hf Hall].
  rewrite (contains_true _ _ Hf). now apply IH.
Qed.


(** The tests stop at the field [f] when those before it succeed and
    the one for [f] does not. *)
Lemma test_fields_first before f after v :
  contains_all before v = true ->
  test_fields (before ++ f :: after) v =
  match py_in f v with
  | Ok true => test_fields after v
  | Ok false => Absent f
  | Raise e => TestRaises e
  end.
Proof.
  unfold contains_all. induction before as [|g before IH]; [reflexivity|].
  cbn [forallb app test_fields]. intros Hall. apply andb_true_iff in Hall as [Hg Hall].
  rewrite (contains_true _ _ Hg). now apply IH.
Qed.

(** On a mapping the tests succeed for the keys it holds. *)
Lemma contains_all_dict fields d :
  contains_all fields (VDict d) = has_fields fields (VDict d).
Proof.
  unfold contains_all, has_fields.
  induction fields as [|f fields IH]; [reflexivity|].
  cbn [forallb]. rewrite IH. f_equal.
  unfold contains. rewrite py_in_dict. now destruct (has_field f (VDict d)).
Qed.

Lemma py_get_milestones data :
  has_fields release_fields (release_of data) = true ->
  py_get (release_of data) "milestones" (VList []) = Ok (milestones_value data).
Proof.
  intros Hfields. unfold milestones_value.
  assert (Hdict : exists r, release_of data = VDict r).
  { unfold has_fields in Hfields. simpl in Hfields.
    apply andb_true_iff in Hfields as [Hplan _]. now apply has_field_dict in Hplan. }
  destruct Hdict as [r ->]. cbn [py_get].
  now destruct (lookup_key "milestones" r).
Qed.

(** The loop over the entries, on a list whose first entries pass the
    tests and whose next entry does not: a false test logs the position
    of that entry, counted from 1 when the loop starts at 0, and exits
    with code 1; a test that raises logs nothing. *)
Lemma runs_check_entries_first lvl good b rest i s t :
  forallb (contains_all milestone_fields) good = true ->
  test_fields milestone_fields b <> AllPresent ->
  runs (for_each_enumerate i (good ++ b :: rest)%list
          (fun j ms => for_each milestone_fields
                         (check_field lvl ms (milestone_message j))))
       s t
       (match test_fields milestone_fields b with
        | AllPresent => Ok tt
        | Absent _ => Raise (SystemExit 1)
        | TestRaises e => Raise e
        end)
       s
       (match test_fields milestone_fields b with
        | Absent f => logged lvl ERROR (milestone_message (i + Z.of_nat (List.length good)) f)
        | _ => []
        end).
Proof.
  intros Hgood Hbad. revert i.
  induction good as [|m good IH]; intros i.
  - cbn [app for_each_enumerate List.length Z.of_nat]. rewrite Z.add_0_r.
    pose proof (runs_test_fields lvl b (milestone_message i) milestone_fields s t) as Hrun.
    destruct (test_fields milestone_fields b); [congruence | |];
      now apply runs_bind_raise.
  - cbn [forallb] in Hgood. apply andb_true_iff in Hgood as [Hm Hgood].
    cbn [app for_each_enumerate].
    replace (i + Z.of_nat (List.length (m :: good)))
      with (i + 1 + Z.of_nat (List.length good)) by (cbn [List.length]; lia).
    apply (runs_bind_silent _ _ s t tt); [|apply IH; exact Hgood].
    pose proof (runs_test_fields lvl m (milestone_message i) milestone_fields s t) as Hrun.
    rewrite (test_fields_all _ _ Hm) in Hrun. exact Hrun.
Qed.







End validation.

(** ** The importer: input-shape errors and unknown plans *)

Module importer_checks.
Import DjangoDb create_release commands validation samples.
Open Scope string_scope.

(** *** Commands only add to the trace *)















Section checks.
Context `{Environment}.

(** How a run of the script ends, from how [main] ran. *)
Lemma run_of_runs args data s r s' evs :
  runs (main args data) s [] r s' evs ->
  run args data s =
  (match r with
   | Ok _ => Exit 0
   | Raise (SystemExit code) => Exit code
   | Raise e => Traceback e
   end, {| db := s'; trace := evs |}).
Proof.
  unfold run, runs. intros ->. destruct r as [a|[]]; reflexivity.
Qed.

Lemma runs_plan_filter name s t :
  runs (MaintenancePlan_filter_first name) s t
       (Ok (option_map plan_of_row (find_plan s name))) s
       [EvSelect TMaintenancePlan].
Proof. reflexivity. Qed.

Lemma runs_plan_names s t :
  runs MaintenancePlan_values_list_name s t
       (Ok (map plan_name (plans s))) s [EvSelect TMaintenancePlan].
Proof. reflexivity. Qed.

Lemma well_formed_fields data :
  well_formed data = true ->
  py_getitem (release_of data) "plan" = Ok (field "plan" (release_of data)) /\
  py_getitem (release_of data) "name" = Ok (field "name" (release_of data)) /\
  py_getitem (release_of data) "start_date" = Ok (field "start_date" (release_of data)) /\
  py_getitem (release_of data) "end_date" = Ok (field "end_date" (release_of data)).
Proof.
  intros Hwf. destruct (well_formed_inv data Hwf) as (_ & Hfields & _).
  unfold has_fields in Hfields. cbn [release_fields forallb] in Hfields.
  repeat (apply andb_true_iff in Hfields as [?Hf Hfields]).
  repeat split; now apply py_getitem_field.
Qed.

(** [main] up to the lookup of the plan, for a well-formed document:
    what remains to run is [rest], given the plan found. *)
Lemma runs_main_plan args data s (found : option MaintenancePlan) r s' evs :
  well_formed data = true ->
  option_map plan_of_row (find_plan s (plan_name_of data)) = found ->
  runs (match found with
        | None =>
            names <- MaintenancePlan_values_list_name ;;
            logger_error (loglevel args)
              ("Maintenance plan '" ++ plan_name_of data
               ++ "' does not exist. Available plans: "
               ++ String.concat ", " names) ;;;
            sys_exit 1
        | Some maintplan =>
            name <- lift (py_getitem (release_of data) "name") ;;
            transaction args (loglevel args) maintplan (plan_name_of data)
              (py_str name) (release_of data) (VList (milestones_of data)) ;;;
            sys_exit 0
        end) s [EvSetupDjango; EvSelect TMaintenancePlan] r s' evs ->
  runs (main args data) s [] r s' ([EvSetupDjango; EvSelect TMaintenancePlan] ++ evs).
Proof.
  intros Hwf Hfound Hrest. destruct (well_formed_fields data Hwf) as (Hplan & _).
  unfold main.
  eapply runs_bind_silent; [now apply runs_validate|]. cbn [fst snd].
  change [EvSetupDjango; EvSelect TMaintenancePlan]
    with ([EvSetupDjango] ++ [EvSelect TMaintenancePlan])%list.
  rewrite <- app_assoc.
  eapply runs_bind; [apply runs_emit|].
  rewrite Hplan.
  eapply runs_bind_silent; [apply runs_lift|].
  eapply runs_bind; [apply runs_plan_filter|].
  fold (plan_name_of data). rewrite Hfound. exact Hrest.
Qed.



(** C5: the release object is tested for [plan], [name], [start_date],
    [end_date] in this order, and the run ends at the first test that does
    not succeed: when the test is false, the field is logged and the exit
    code is 1; when the test raises (the release object is [None] or a
    number), nothing is logged and the run ends in a [TypeError].  The
    entries under [milestones] are tested in the order of the list, each
    for [name], [start_date], [end_date], and the run ends at the first
    entry with a test that does not succeed: when the test is false, the
    position of the entry, counted from 1, is logged with the field; when
    it raises, nothing is logged.  An entry passes when the three tests
    succeed, whether or not it is a mapping with the three fields. *)
Theorem first_missing_field_reported args data s :
  has_field "release" data = true ->
  release_fields = ["plan"; "name"; "start_date"; "end_date"] /\
  milestone_fields = ["name"; "start_date"; "end_date"] /\
  (forall before f after,
     release_fields = (before ++ f :: after)%list ->
     contains_all before (release_of data) = true ->
     (py_in f (release_of data) = Ok false ->
      run args data s =
      (Exit 1,
       {| db := s;
          trace := [EvLog ERROR ("Release is missing required field '" ++ f ++ "'")] |})) /\
     (forall e, py_in f (release_of data) = Raise e ->
      run args data s = (Traceback TypeError, {| db := s; trace := [] |}))) /\
  (forall good b rest before f after,
     has_fields release_fields (release_of data) = true ->
     py_iter (milestones_value data) = Ok (good ++ b :: rest)%list ->
     forallb (contains_all milestone_fields) good = true ->
     milestone_fields = (before ++ f :: after)%list ->
     contains_all before b = true ->
     (py_in f b = Ok false ->
      run args data s =
      (Exit 1,
       {| db := s;
          trace := [EvLog ERROR ("Milestone " ++ str_of_int (Z.of_nat (List.length good) + 1)
                                 ++ " is missing required field '" ++ f ++ "'")] |})) /\
     (forall e, py_in f b = Raise e ->
      run args data s = (Traceback TypeError, {| db := s; trace := [] |}))).
Proof.
  intros Hrel. split; [reflexivity|]. split; [reflexivity|].
  destruct (has_field_dict _ _ Hrel) as [d ->].
  assert (Hstart : forall (k : pyval -> M (pyval * pyval)) r s' evs,
             runs (k (release_of (VDict d))) s [] r s' evs ->
             runs (has_release <- lift (py_in "release" (VDict d)) ;;
                   (if negb has_release then
                      logger_error (loglevel args)
                        "YAML file must contain a top-level 'release' key" ;;;
                      sys_exit 1
                    else ret tt) ;;;
                   reldata <- lift (py_getitem (VDict d) "release") ;; k reldata)
                  s [] r s' evs).
  { intros k r s' evs Hk. rewrite py_in_dict, Hrel.
    eapply runs_bind_silent; [apply runs_lift|]. cbn [negb].
    eapply runs_bind_silent; [apply runs_ret|].
    rewrite (py_getitem_field _ _ Hrel).
    eapply runs_bind_silent; [apply runs_lift | exact Hk]. }
  split.
  - intros before f after Hsplit Hbefore.
    pose proof (runs_test_fields (loglevel args) (release_of (VDict d)) release_message
                  release_fields s []) as Hrun.
    assert (Htest : test_fields release_fields (release_of (VDict d))
                    = match py_in f (release_of (VDict d)) with
                      | Ok true => test_fields after (release_of (VDict d))
                      | Ok false => Absent f
                      | Raise e => TestRaises e
                      end)
      by (rewrite Hsplit; now apply test_fields_first).
    rewrite Htest in Hrun. split.
    + intros Hin. rewrite Hin in Hrun.
      assert (Hmain : runs (main args (VDict d)) s [] (Raise (SystemExit 1)) s
                        [EvLog ERROR (release_message f)]).
      { unfold main. apply runs_bind_raise. unfold validate. apply Hstart.
        apply runs_bind_raise. rewrite logged_error_always in Hrun. exact Hrun. }
      now rewrite (run_of_runs _ _ _ _ _ _ Hmain).
    + intros e Hin. rewrite Hin in Hrun. apply py_in_raises in Hin. subst e.
      assert (Hmain : runs (main args (VDict d)) s [] (Raise TypeError) s []).
      { unfold main. apply runs_bind_raise. unfold validate. apply Hstart.
        apply runs_bind_raise. exact Hrun. }
      now rewrite (run_of_runs _ _ _ _ _ _ Hmain).
  - intros good b rest before f after Hfields Hitems Hgood Hsplit Hbefore.
    assert (Hdict : exists r, release_of (VDict d) = VDict r).
    { unfold has_fields in Hfields. cbn [release_fields forallb] in Hfields.
      apply andb_true_iff in Hfields as [Hplan _]. now apply has_field_dict in Hplan. }
    destruct Hdict as [r Hr].
    assert (Htest : test_fields milestone_fields b
                    = match py_in f b with
                      | Ok true => test_fields after b
                      | Ok false => Absent f
                      | Raise e => TestRaises e
                      end)
      by (rewrite Hsplit; now apply test_fields_first).
    assert (Hloop : forall res evs,
              runs (for_each_enumerate 0 (good ++ b :: rest)%list
                      (fun j ms => for_each milestone_fields
                                     (check_field (loglevel args) ms (milestone_message j))))
                   s [] (Raise res) s evs ->
              runs (main args (VDict d)) s [] (Raise res) s evs).
    { intros res evs Hrun.
      unfold main. apply runs_bind_raise. unfold validate. apply Hstart.
      eapply runs_bind_silent.
      { rewrite Hr.
        pose proof (runs_check_fields (loglevel args) r release_message release_fields s [])
          as Hrel_run.
        rewrite <- Hr, (has_fields_first_missing _ _ Hfields), Hr in Hrel_run.
        exact Hrel_run. }
      rewrite (py_get_milestones _ Hfields).
      eapply runs_bind_silent; [apply runs_lift|].
      rewrite Hitems.
      eapply runs_bind_silent; [apply runs_lift|].
      apply runs_bind_raise. exact Hrun. }
    split.
    + intros Hin.
      assert (Hbad : test_fields milestone_fields b <> AllPresent)
        by (rewrite Htest, Hin; discriminate).
      pose proof (runs_check_entries_first (loglevel args) good b rest 0 s [] Hgood Hbad)
        as Hrun.
      rewrite Htest, Hin, logged_error_always in Hrun.
      now rewrite (run_of_runs _ _ _ _ _ _ (Hloop _ _ Hrun)).
    + intros e Hin.
      assert (Hbad : test_fields milestone_fields b <> AllPresent)
        by (rewrite Htest, Hin; discriminate).
      pose proof (runs_check_entries_first (loglevel args) good b rest 0 s [] Hgood Hbad)
        as Hrun.
      rewrite Htest, Hin in Hrun. apply py_in_raises in Hin. subst e.
      now rewrite (run_of_runs _ _ _ _ _ _ (Hloop _ _ Hrun)).
Qed.

(** C4: when no plan has the name the document gives, the script logs an
    error that lists the names of all plans and exits with code 1; it
    has read the plan table twice and done nothing else with the store:
    no transaction was entered, no row was written. *)
Theorem unknown_plan_exits args data s :
  well_formed data = true ->
  find_plan s (plan_name_of data) = None ->
  run args data s =
  (Exit 1,
   {| db := s;
      trace := [EvSetupDjango; EvSelect TMaintenancePlan; EvSelect TMaintenancePlan;
                EvLog ERROR ("Maintenance plan '" ++ plan_name_of data
                             ++ "' does not exist. Available plans: "
                             ++ String.concat ", " (map plan_name (plans s)))] |}).
Proof.
  intros Hwf Hnone.
  assert (Hmain : runs (main args data) s [] (Raise (SystemExit 1)) s
            ([EvSetupDjango; EvSelect TMaintenancePlan]
             ++ [EvSelect TMaintenancePlan]
                  ++ [EvLog ERROR ("Maintenance plan '" ++ plan_name_of data
                                   ++ "' does not exist. Available plans: "
                                   ++ String.concat ", " (map plan_name (plans s)))])%list).
  { apply (runs_main_plan args data s None); [exact Hwf | now rewrite Hnone|].
    eapply runs_bind; [apply runs_plan_names|].
    eapply runs_bind_then_silent; [|apply runs_raise].
    rewrite <- logged_error_always with (args := args). apply runs_logger_log. }
  now rewrite (run_of_runs _ _ _ _ _ _ Hmain).
Qed.

End checks.

End importer_checks.

(** ** The importer: the transaction *)

Module importer_transaction.
Import DjangoDb create_release commands validation importer_checks.
Open Scope string_scope.

(** *** Keys and lookups *)

Lemma fold_max_ge ids x : List.In x ids -> x <= fold_right Z.max 0 ids.
Proof.
  induction ids as [|y ids IH]; simpl; [tauto|].
  intros [->|Hin]; [lia|]. specialize (IH Hin). lia.
Qed.

Lemma next_pk_fresh ids : ~ List.In (next_pk ids) ids.
Proof.
  intros Hin. apply fold_max_ge in Hin. unfold next_pk in Hin. lia.
Qed.

Lemma find_app_some {A : Type} (p : A -> bool) l1 l2 x :
  find p l1 = Some x -> find p (l1 ++ l2) = Some x.
Proof.
  induction l1 as [|y l1 IH]; simpl; [discriminate|].
  destruct (p y); [trivial | exact IH].
Qed.

Lemma find_app_none {A : Type} (p : A -> bool) l1 l2 :
  find p l1 = None -> find p (l1 ++ l2) = find p l2.
Proof.
  induction l1 as [|y l1 IH]; simpl; [trivial|].
  destruct (p y); [discriminate | exact IH].
Qed.

Lemma find_none_iff {A : Type} (p : A -> bool) l :
  find p l = None <-> forall x, List.In x l -> p x = false.
Proof.
  induction l as [|y l IH]; simpl.
  - split; [tauto | trivial].
  - destruct (p y) eqn:Hy.
    + split; [discriminate|]. intros Hall. rewrite (Hall y) in Hy; [discriminate | auto].
    + rewrite IH. split.
      * intros Hall x [<-|Hin]; auto.
      * intros Hall x Hin. apply Hall. auto.
Qed.

Lemma find_map_same {A : Type} (p : A -> bool) (f : A -> A) l :
  (forall x, List.In x l -> p (f x) = p x) ->
  find p (map f l) = option_map f (find p l).
Proof.
  induction l as [|y l IH]; simpl; [trivial|].
  intros Hp. rewrite (Hp y) by auto.
  destruct (p y); [reflexivity|]. apply IH. intros x Hin. apply Hp. auto.
Qed.

Lemma map_id_on {A : Type} (f : A -> A) l :
  (forall x, List.In x l -> f x = x) -> map f l = l.
Proof.
  induction l as [|y l IH]; simpl; [trivial|].
  intros Hf. rewrite (Hf y) by auto. f_equal. apply IH. intros x Hin. apply Hf. auto.
Qed.

Lemma NoDup_map_same_id {A : Type} (id : A -> Z) (x y : A) l :
  List.NoDup (map id l) -> List.In x l -> List.In y l -> id x = id y -> x = y.
Proof.
  induction l as [|z l IH]; simpl; [tauto|].
  intros Hnd. inversion Hnd as [|? ? Hnotin Hnd']; subst.
  intros [<-|Hx] [<-|Hy] Heq; trivial.
  - exfalso. apply Hnotin. rewrite Heq. now apply in_map.
  - exfalso. apply Hnotin. rewrite <- Heq. now apply in_map.
  - now apply IH.
Qed.

Section transaction.
Context `{Environment}.

(** *** Entries of a well-formed document *)

Lemma entry_fields ms :
  has_fields milestone_fields ms = true ->
  py_getitem ms "name" = Ok (field "name" ms) /\
  py_getitem ms "start_date" = Ok (field "start_date" ms) /\
  py_getitem ms "end_date" = Ok (field "end_date" ms).
Proof.
  intros Hfields. unfold has_fields in Hfields.
  cbn [milestone_fields forallb] in Hfields.
  repeat (apply andb_true_iff in Hfields as [?Hf Hfields]).
  repeat split; now apply py_getitem_field.
Qed.

Lemma dates_valid_stored v :
  dates_valid v = true ->
  DateField_to_python (field "start_date" v) = Ok (stored_date (field "start_date" v)) /\
  DateField_to_python (field "end_date" v) = Ok (stored_date (field "end_date" v)).
Proof.
  unfold dates_valid, stored_date. intros Hv.
  apply andb_true_iff in Hv as [Hs He].
  destruct (DateField_to_python (field "start_date" v)); [|discriminate].
  destruct (DateField_to_python (field "end_date" v)); [|discriminate].
  split; reflexivity.
Qed.

Lemma dates_valid_prepared v :
  dates_valid v = true ->
  DateField_get_prep_value (field "start_date" v)
  = Ok (Some (stored_date (field "start_date" v))) /\
  DateField_get_prep_value (field "end_date" v)
  = Ok (Some (stored_date (field "end_date" v))).
Proof.
  unfold dates_valid, stored_date, DateField_to_python, DateField_get_prep_value.
  intros Hv. apply andb_true_iff in Hv as [Hs He].
  destruct (field "start_date" v) as [| | | |a|a| |]; try discriminate;
    destruct (field "end_date" v) as [| | | |b|b| |]; try discriminate;
    try destruct (parse_date a); try destruct (parse_date b);
    try discriminate; split; reflexivity.
Qed.

(** *** The commands of the ORM *)

Lemma runs_release_filter plan name s t :
  runs (Release_filter_first plan name) s t
       (Ok (option_map release_of_row (find_release s (mp_pk plan) name))) s
       [EvSelect TRelease].
Proof. reflexivity. Qed.

Lemma runs_milestone_filter release name s t :
  runs (Milestone_filter_first release name) s t
       (Ok (option_map milestone_of_row (find_milestone s (r_pk release) name))) s
       [EvSelect TMilestone].
Proof. reflexivity. Qed.

Lemma runs_release_create plan name v s t :
  dates_valid v = true ->
  runs (Release_create plan name (field "start_date" v) (field "end_date" v)) s t
       (Ok (release_instance (next_pk (map release_id (releases s))) (mp_pk plan) name v))
       (insert_release s
          (release_row_of (next_pk (map release_id (releases s))) (mp_pk plan) name v))
       [EvInsert TRelease (next_pk (map release_id (releases s)))].
Proof.
  intros Hv. destruct (dates_valid_prepared v Hv) as [Hs He].
  unfold runs, Release_create, bind, lift. rewrite Hs, He. reflexivity.
Qed.

Lemma runs_release_save pk plan name v s t :
  dates_valid v = true ->
  runs (Release_save (release_instance pk plan name v)) s t
       (Ok tt) (update_release s (release_row_of pk plan name v))
       [EvUpdate TRelease pk].
Proof.
  intros Hv. destruct (dates_valid_prepared v Hv) as [Hs He].
  unfold runs, Release_save, bind, lift. cbn [release_instance r_start_date r_end_date].
  rewrite Hs, He. reflexivity.
Qed.

Lemma runs_milestone_create release name v s t :
  dates_valid v = true ->
  runs (Milestone_create release name (field "start_date" v) (field "end_date" v)) s t
       (Ok {| m_pk := next_pk (map milestone_id (milestones s));
              m_release := r_pk release; m_name := name;
              m_start_date := field "start_date" v;
              m_end_date := field "end_date" v |})
       (insert_milestone s
          (milestone_row_of (next_pk (map milestone_id (milestones s)))
             (r_pk release) name v))
       [EvInsert TMilestone (next_pk (map milestone_id (milestones s)))].
Proof.
  intros Hv. destruct (dates_valid_prepared v Hv) as [Hs He].
  unfold runs, Milestone_create, bind, lift. rewrite Hs, He. reflexivity.
Qed.

Lemma runs_milestone_save pk release name v s t :
  dates_valid v = true ->
  runs (Milestone_save {| m_pk := pk; m_release := release; m_name := name;
                          m_start_date := field "start_date" v;
                          m_end_date := field "end_date" v |}) s t
       (Ok tt) (update_milestone s (milestone_row_of pk release name v))
       [EvUpdate TMilestone pk].
Proof.
  intros Hv. destruct (dates_valid_prepared v Hv) as [Hs He].
  unfold runs, Milestone_save, bind, lift. cbn [m_start_date m_end_date].
  rewrite Hs, He. reflexivity.
Qed.

Lemma runs_str_release release s t :
  runs (str_release release) s t (Ok (Release_str s release)) s [].
Proof. unfold runs, str_release, bind, get_db, ret. simpl. now rewrite app_nil_r. Qed.

Lemma runs_str_milestone milestone s t :
  runs (str_milestone milestone) s t (Ok (Milestone_str s milestone)) s [].
Proof. unfold runs, str_milestone, bind, get_db, ret. simpl. now rewrite app_nil_r. Qed.

(** *** One milestone *)

(** No milestone of the release has the entry's name: it is created. *)
Lemma runs_upsert_milestone_create args lvl release ms s t :
  has_fields milestone_fields ms = true ->
  dates_valid ms = true ->
  find_milestone s (r_pk release) (milestone_name_of ms) = None ->
  exists text,
    runs (upsert_milestone args lvl release ms) s t (Ok tt)
         (insert_milestone s
            (milestone_row_of (next_pk (map milestone_id (milestones s)))
               (r_pk release) (milestone_name_of ms) ms))
         ([EvSelect TMilestone;
           EvInsert TMilestone (next_pk (map milestone_id (milestones s)))]
          ++ logged lvl INFO ("Created milestone '" ++ text ++ "'")).
Proof.
  intros Hfields Hdates Hnone.
  destruct (entry_fields ms Hfields) as (Hn & Hs & He).
  eexists. unfold upsert_milestone. rewrite Hn, Hs, He.
  eapply runs_bind_silent; [apply runs_lift|].
  change [EvSelect TMilestone; EvInsert TMilestone (next_pk (map milestone_id (milestones s)))]
    with ([EvSelect TMilestone]
          ++ [EvInsert TMilestone (next_pk (map milestone_id (milestones s)))])%list.
  rewrite <- app_assoc.
  eapply runs_bind; [apply runs_milestone_filter|].
  fold (milestone_name_of ms). rewrite Hnone. cbn [option_map].
  eapply runs_bind_silent; [apply runs_lift|].
  eapply runs_bind_silent; [apply runs_lift|].
  eapply runs_bind; [now apply runs_milestone_create|].
  eapply runs_bind_silent; [apply runs_str_milestone|].
  apply runs_logger_log.
Qed.

(** A milestone of the release has the entry's name and [--update] was
    given: its row is rewritten with the entry's dates. *)
Lemma runs_upsert_milestone_update args lvl release ms row s t :
  has_fields milestone_fields ms = true ->
  dates_valid ms = true ->
  update args = true ->
  find_milestone s (r_pk release) (milestone_name_of ms) = Some row ->
  exists text,
    runs (upsert_milestone args lvl release ms) s t (Ok tt)
         (update_milestone s
            (milestone_row_of (milestone_id row) (milestone_release_id row)
               (milestone_name row) ms))
         ([EvSelect TMilestone; EvUpdate TMilestone (milestone_id row)]
          ++ logged lvl INFO ("Updated milestone '" ++ text ++ "'")).
Proof.
  intros Hfields Hdates Hupdate Hfound.
  destruct (entry_fields ms Hfields) as (Hn & Hs & He).
  eexists. unfold upsert_milestone. rewrite Hn, Hs, He, Hupdate.
  eapply runs_bind_silent; [apply runs_lift|].
  change [EvSelect TMilestone; EvUpdate TMilestone (milestone_id row)]
    with ([EvSelect TMilestone] ++ [EvUpdate TMilestone (milestone_id row)])%list.
  rewrite <- app_assoc.
  eapply runs_bind; [apply runs_milestone_filter|].
  fold (milestone_name_of ms). rewrite Hfound. cbn [option_map negb].
  eapply runs_bind_silent; [apply runs_ret|].
  eapply runs_bind_silent; [apply runs_lift|].
  eapply runs_bind_silent; [apply runs_lift|].
  eapply runs_bind; [now apply runs_milestone_save|].
  eapply runs_bind_silent; [apply runs_str_milestone|].
  apply runs_logger_log.
Qed.

(** A milestone of the release has the entry's name and [--update] was
    not given: the error names the milestone and the script exits with
    code 1. *)
Lemma runs_upsert_milestone_conflict args lvl release ms row s t :
  has_fields milestone_fields ms = true ->
  update args = false ->
  find_milestone s (r_pk release) (milestone_name_of ms) = Some row ->
  runs (upsert_milestone args lvl release ms) s t (Raise (SystemExit 1)) s
       ([EvSelect TMilestone]
        ++ logged lvl ERROR ("Milestone '" ++ milestone_name_of ms
                             ++ "' already exists for release '"
                             ++ Release_str s release
                             ++ "' (use --update to update it)")).
Proof.
  intros Hfields Hupdate Hfound.
  destruct (entry_fields ms Hfields) as (Hn & Hs & He).
  unfold upsert_milestone. rewrite Hn, Hupdate.
  eapply runs_bind_silent; [apply runs_lift|].
  eapply runs_bind; [apply runs_milestone_filter|].
  fold (milestone_name_of ms). rewrite Hfound. cbn [option_map negb].
  apply runs_bind_raise.
  eapply runs_bind_silent; [apply runs_str_release|].
  eapply runs_bind_then_silent; [apply runs_logger_log | apply runs_raise].
Qed.

(** *** The loop over the milestones *)

Lemma find_milestone_insert s row release n :
  find_milestone (insert_milestone s row) release n =
  match find_milestone s release n with
  | Some r => Some r
  | None =>
      if (milestone_release_id row =? release)%Z && String.eqb (milestone_name row) n
      then Some row else None
  end.
Proof.
  unfold find_milestone, insert_milestone. cbn [milestones].
  destruct (find _ (milestones s)) as [r|] eqn:Hfind.
  - now apply find_app_some.
  - rewrite find_app_none by exact Hfind. reflexivity.
Qed.

(** With [--update], or when the names are distinct and none of them is
    taken, the loop goes through all entries. *)
Lemma runs_milestones_succeed args lvl release l s t :
  forallb (has_fields milestone_fields) l = true ->
  forallb dates_valid l = true ->
  update args = true \/
  (List.NoDup (map milestone_name_of l) /\
   forall n, List.In n (map milestone_name_of l) ->
             find_milestone s (r_pk release) n = None) ->
  exists s' evs,
    runs (for_each l (upsert_milestone args lvl release)) s t (Ok tt) s' evs /\
    plans s' = plans s /\ releases s' = releases s.
Proof.
  revert s t. induction l as [|ms l IH]; intros s t Hfields Hdates Hfree.
  - exists s, []. split; [apply runs_ret | split; reflexivity].
  - cbn [forallb] in Hfields, Hdates.
    apply andb_true_iff in Hfields as [Hms Hfields].
    apply andb_true_iff in Hdates as [Hd Hdates].
    cbn [for_each].
    destruct (find_milestone s (r_pk release) (milestone_name_of ms)) as [row|] eqn:Hfind.
    + assert (Hupdate : update args = true).
      { destruct Hfree as [Hu|[_ Hnone]]; [exact Hu|].
        rewrite Hnone in Hfind; [discriminate | now left]. }
      destruct (runs_upsert_milestone_update args lvl release ms row s t
                  Hms Hd Hupdate Hfind) as [text Hstep].
      lazymatch type of Hstep with
      | runs _ _ _ _ ?s1 ?e1 =>
          destruct (IH s1 (t ++ e1)%list Hfields Hdates (or_introl Hupdate))
            as (s' & evs & Hrest & Hp & Hr)
      end.
      eexists _, _. split; [exact (runs_bind _ _ _ _ _ _ _ _ _ _ Hstep Hrest)|].
      split; [exact Hp | exact Hr].
    + destruct (runs_upsert_milestone_create args lvl release ms s t Hms Hd Hfind)
        as [text Hstep].
      lazymatch type of Hstep with
      | runs _ _ _ _ ?s1 ?e1 =>
          assert (Hfree1 : update args = true \/
                    (List.NoDup (map milestone_name_of l) /\
                     forall n, List.In n (map milestone_name_of l) ->
                               find_milestone s1 (r_pk release) n = None));
          [|destruct (IH s1 (t ++ e1)%list Hfields Hdates Hfree1)
              as (s' & evs & Hrest & Hp & Hr)]
      end.
      { destruct Hfree as [Hu|[Hnd Hnone]]; [now left | right].
        cbn [map] in Hnd. inversion Hnd as [|? ? Hnotin Hnd']; subst.
        split; [exact Hnd'|]. intros n Hin.
        rewrite find_milestone_insert, Hnone by now right.
        cbn [milestone_row_of milestone_name milestone_release_id].
        destruct (String.eqb_spec (milestone_name_of ms) n) as [Heq|Hne];
          [exfalso; apply Hnotin; rewrite Heq; exact Hin | now rewrite andb_false_r]. }
      eexists _, _. split; [exact (runs_bind _ _ _ _ _ _ _ _ _ _ Hstep Hrest)|].
      split; [exact Hp | exact Hr].
Qed.

(** Without [--update], a name that is taken or that comes twice stops
    the loop: the error names a milestone of the list and the script
    exits with code 1. *)
Lemma runs_milestones_conflict args lvl release l s t :
  update args = false ->
  forallb (has_fields milestone_fields) l = true ->
  forallb dates_valid l = true ->
  ~ List.NoDup (map milestone_name_of l) \/
  (exists n, List.In n (map milestone_name_of l) /\
             find_milestone s (r_pk release) n <> None) ->
  exists s' pre text n,
    List.In n (map milestone_name_of l) /\
    runs (for_each l (upsert_milestone args lvl release)) s t
         (Raise (SystemExit 1)) s'
         (pre ++ [EvSelect TMilestone]
          ++ logged lvl ERROR ("Milestone '" ++ n ++ "' already exists for release '"
                               ++ text ++ "' (use --update to update it)")).
Proof.
  intros Hupdate. revert s t.
  induction l as [|ms l IH]; intros s t Hfields Hdates Hbad.
  - exfalso. destruct Hbad as [Hnd|(n & [] & _)]. apply Hnd. constructor.
  - cbn [forallb] in Hfields, Hdates.
    apply andb_true_iff in Hfields as [Hms Hfields].
    apply andb_true_iff in Hdates as [Hd Hdates].
    cbn [for_each].
    destruct (find_milestone s (r_pk release) (milestone_name_of ms)) as [row|] eqn:Hfind.
    + exists s, [], (Release_str s release), (milestone_name_of ms).
      split; [now left|]. apply runs_bind_raise.
      now apply (runs_upsert_milestone_conflict args lvl release ms row).
    + destruct (runs_upsert_milestone_create args lvl release ms s t Hms Hd Hfind)
        as [created Hstep].
      lazymatch type of Hstep with
      | runs _ _ _ _ ?s1 ?e1 =>
          assert (Hbad1 : ~ List.NoDup (map milestone_name_of l) \/
                    (exists n, List.In n (map milestone_name_of l) /\
                               find_milestone s1 (r_pk release) n <> None));
          [|destruct (IH s1 (t ++ e1)%list Hfields Hdates Hbad1)
              as (s' & pre & text & n & Hin & Hrest)]
      end.
      { destruct (in_dec string_dec (milestone_name_of ms) (map milestone_name_of l))
          as [Hdup|Hnodup].
        - right. exists (milestone_name_of ms). split; [exact Hdup|].
          rewrite find_milestone_insert, Hfind.
          cbn [milestone_row_of milestone_name milestone_release_id].
          now rewrite Z.eqb_refl, String.eqb_refl.
        - destruct Hbad as [Hnd|(n & Hin & Hn)].
          + left. intros Hnd'. apply Hnd. cbn [map]. now constructor.
          + right. exists n. destruct Hin as [<-|Hin]; [congruence|].
            split; [exact Hin|]. rewrite find_milestone_insert.
            destruct (find_milestone s (r_pk release) n); [discriminate | congruence]. }
      eexists s', (_ ++ pre)%list, text, n. split; [now right|].
      rewrite <- app_assoc.
      exact (runs_bind _ _ _ _ _ _ _ _ _ _ Hstep Hrest).
Qed.

(** *** The release *)

Lemma release_dates_fields data :
  well_formed data = true ->
  py_getitem (release_of data) "start_date" = Ok (field "start_date" (release_of data)) /\
  py_getitem (release_of data) "end_date" = Ok (field "end_date" (release_of data)).
Proof.
  intros Hwf. destruct (well_formed_fields data Hwf) as (_ & _ & Hs & He). now split.
Qed.

(** No release of the plan has the name: it is created. *)
Lemma runs_upsert_release_create args lvl plan pname rname data s t :
  well_formed data = true ->
  dates_valid (release_of data) = true ->
  find_release s (mp_pk plan) rname = None ->
  exists text,
    runs (upsert_release args lvl plan pname rname (release_of data)) s t
         (Ok (release_instance (next_pk (map release_id (releases s)))
                (mp_pk plan) rname (release_of data)))
         (insert_release s
            (release_row_of (next_pk (map release_id (releases s)))
               (mp_pk plan) rname (release_of data)))
         ([EvSelect TRelease; EvInsert TRelease (next_pk (map release_id (releases s)))]
          ++ logged lvl INFO ("Created release '" ++ text ++ "'")).
Proof.
  intros Hwf Hdates Hnone. destruct (release_dates_fields data Hwf) as [Hs He].
  eexists. unfold upsert_release. rewrite Hs, He.
  change [EvSelect TRelease; EvInsert TRelease (next_pk (map release_id (releases s)))]
    with ([EvSelect TRelease]
          ++ [EvInsert TRelease (next_pk (map release_id (releases s)))])%list.
  rewrite <- app_assoc.
  eapply runs_bind; [apply runs_release_filter|].
  rewrite Hnone. cbn [option_map].
  eapply runs_bind_silent; [apply runs_lift|].
  eapply runs_bind_silent; [apply runs_lift|].
  eapply runs_bind; [now apply runs_release_create|].
  eapply runs_bind_silent; [apply runs_str_release|].
  eapply runs_bind_then_silent; [apply runs_logger_log | apply runs_ret].
Qed.

(** A release of the plan has the name and [--update] was given: its row
    is rewritten with the document's dates. *)
Lemma runs_upsert_release_update args lvl plan pname rname data row s t :
  well_formed data = true ->
  dates_valid (release_of data) = true ->
  update args = true ->
  find_release s (mp_pk plan) rname = Some row ->
  exists text,
    runs (upsert_release args lvl plan pname rname (release_of data)) s t
         (Ok (release_instance (release_id row) (release_plan_id row)
                (release_name row) (release_of data)))
         (update_release s
            (release_row_of (release_id row) (release_plan_id row)
               (release_name row) (release_of data)))
         ([EvSelect TRelease; EvUpdate TRelease (release_id row)]
          ++ logged lvl INFO ("Updated release '" ++ text ++ "'")).
Proof.
  intros Hwf Hdates Hupdate Hfound. destruct (release_dates_fields data Hwf) as [Hs He].
  eexists. unfold upsert_release. rewrite Hs, He, Hupdate.
  change [EvSelect TRelease; EvUpdate TRelease (release_id row)]
    with ([EvSelect TRelease] ++ [EvUpdate TRelease (release_id row)])%list.
  rewrite <- app_assoc.
  eapply runs_bind; [apply runs_release_filter|].
  rewrite Hfound. cbn [option_map negb].
  eapply runs_bind_silent; [apply runs_ret|].
  eapply runs_bind_silent; [apply runs_lift|].
  eapply runs_bind_silent; [apply runs_lift|].
  eapply runs_bind.
  { apply (runs_release_save (release_id row) (release_plan_id row) (release_name row)).
    exact Hdates. }
  eapply runs_bind_silent; [apply runs_str_release|].
  eapply runs_bind_then_silent; [apply runs_logger_log | apply runs_ret].
Qed.

(** A release of the plan has the name and [--update] was not given: the
    error names the release and the script exits with code 1. *)
Lemma runs_upsert_release_conflict args lvl plan pname rname reldata row s t :
  update args = false ->
  find_release s (mp_pk plan) rname = Some row ->
  runs (upsert_release args lvl plan pname rname reldata) s t
       (Raise (SystemExit 1)) s
       ([EvSelect TRelease]
        ++ logged lvl ERROR ("Release '" ++ rname ++ "' already exists for plan '"
                             ++ pname ++ "' (use --update to update it)")).
Proof.
  intros Hupdate Hfound. unfold upsert_release. rewrite Hupdate.
  eapply runs_bind; [apply runs_release_filter|].
  rewrite Hfound. cbn [option_map negb].
  apply runs_bind_raise.
  eapply runs_bind_then_silent; [apply runs_logger_log | apply runs_raise].
Qed.

(** *** The atomic block and the [try] statement *)

Lemma runs_atomic {A : Type} (body : M A) s t r s' evs :
  runs body s (t ++ [EvAtomicEnter]) r s' evs ->
  runs (atomic body) s t r
       (match r with Ok _ => s' | Raise _ => s end)
       ([EvAtomicEnter] ++ evs
        ++ [match r with Ok _ => EvCommit | Raise _ => EvRollback end]).
Proof.
  unfold runs, atomic, bind, emit. cbn [db trace]. intros ->.
  destruct r; cbn [db trace]; now rewrite <- !app_assoc.
Qed.

Lemma runs_try_except {A : Type} (body : M A) handler s t r s' evs :
  runs body s t r s' evs ->
  match r with
  | Ok _ => True
  | Raise e => handler e = None
  end ->
  runs (try_except body handler) s t r s' evs.
Proof.
  unfold runs, try_except. intros -> Hr. destruct r as [a|e]; [reflexivity|].
  now rewrite Hr.
Qed.

Lemma runs_try_except_caught {A : Type} (body : M A) handler h s t e s1 e1 r s2 e2 :
  runs body s t (Raise e) s1 e1 ->
  handler e = Some h ->
  runs h s1 (t ++ e1) r s2 e2 ->
  runs (try_except body handler) s t r s2 (e1 ++ e2).
Proof.
  unfold runs, try_except. intros -> -> ->. now rewrite app_assoc.
Qed.

(** How the script ends once the plan is found, from how the block under
    [transaction.atomic()] ran: a normal end is committed and exits with
    code 0; the dry-run exception is rolled back, caught and logged, and
    the script exits with code 0; any other exception is rolled back and
    leaves [main]. *)
Lemma run_transaction args data s prow r s' evs :
  well_formed data = true ->
  find_plan s (plan_name_of data) = Some prow ->
  runs (upsert args (loglevel args) (plan_of_row prow) (plan_name_of data)
          (release_name_of data) (release_of data) (VList (milestones_of data)))
       s [EvSetupDjango; EvSelect TMaintenancePlan; EvAtomicEnter] r s' evs ->
  run args data s =
  match r with
  | Ok _ =>
      (Exit 0,
       {| db := s';
          trace := [EvSetupDjango; EvSelect TMaintenancePlan; EvAtomicEnter]
                   ++ evs ++ [EvCommit] |})
  | Raise DryRunRollbackException =>
      (Exit 0,
       {| db := s;
          trace := [EvSetupDjango; EvSelect TMaintenancePlan; EvAtomicEnter]
                   ++ evs ++ [EvRollback]
                   ++ logged (loglevel args) INFO "Dry run; changes not saved" |})
  | Raise (SystemExit code) =>
      (Exit code,
       {| db := s;
          trace := [EvSetupDjango; EvSelect TMaintenancePlan; EvAtomicEnter]
                   ++ evs ++ [EvRollback] |})
  | Raise e =>
      (Traceback e,
       {| db := s;
          trace := [EvSetupDjango; EvSelect TMaintenancePlan; EvAtomicEnter]
                   ++ evs ++ [EvRollback] |})
  end.
Proof.
  intros Hwf Hplan Hbody.
  destruct (well_formed_fields data Hwf) as (_ & Hname & _).
  apply (runs_atomic _ s [EvSetupDjango; EvSelect TMaintenancePlan]) in Hbody.
  assert (Hmain : forall r' s2 e2,
             runs (transaction args (loglevel args) (plan_of_row prow) (plan_name_of data)
                     (release_name_of data) (release_of data) (VList (milestones_of data)) ;;;
                   @sys_exit unit 0)
                  s [EvSetupDjango; EvSelect TMaintenancePlan] r' s2 e2 ->
             run args data s =
             (match r' with
              | Ok _ => Exit 0
              | Raise (SystemExit code) => Exit code
              | Raise e => Traceback e
              end,
              {| db := s2;
                 trace := [EvSetupDjango; EvSelect TMaintenancePlan] ++ e2 |})).
  { intros r' s2 e2 Hrest. apply run_of_runs.
    apply (runs_main_plan args data s (Some (plan_of_row prow)));
      [exact Hwf | now rewrite Hplan|].
    rewrite Hname. eapply runs_bind_silent; [apply runs_lift | exact Hrest]. }
  destruct r as [a|e].
  - erewrite Hmain.
    2:{ eapply runs_bind_then_silent; [|apply runs_raise].
        unfold transaction. apply runs_try_except; [exact Hbody | exact I]. }
    reflexivity.
  - destruct e.
    2:{ erewrite Hmain.
        2:{ eapply runs_bind_then_silent; [|apply runs_raise].
            unfold transaction.
            eapply runs_try_except_caught; [exact Hbody | reflexivity|].
            apply runs_logger_log. }
        cbn [app]. now rewrite <- !app_assoc. }
    all: erewrite Hmain;
      [|apply runs_bind_raise; unfold transaction;
        apply runs_try_except; [exact Hbody | reflexivity]];
      reflexivity.
Qed.

(** *** The block under [transaction.atomic()] *)

Lemma runs_upsert args lvl plan pname rname reldata l s t release s1 e1 r s2 e2 :
  runs (upsert_release args lvl plan pname rname reldata) s t (Ok release) s1 e1 ->
  runs (for_each l (upsert_milestone args lvl release)) s1 (t ++ e1) r s2 e2 ->
  runs (upsert args lvl plan pname rname reldata (VList l)) s t
       (match r with
        | Ok _ => if dry_run args then Raise DryRunRollbackException else Ok tt
        | Raise e => Raise e
        end) s2 (e1 ++ e2).
Proof.
  intros Hrelease Hloop. unfold upsert.
  eapply runs_bind; [exact Hrelease|]. cbn [py_iter].
  eapply runs_bind_silent; [apply runs_lift|].
  destruct r as [[]|e].
  - eapply runs_bind_then_silent; [exact Hloop|].
    destruct (dry_run args); [apply runs_raise | apply runs_ret].
  - now apply runs_bind_raise.
Qed.

Lemma runs_upsert_raise args lvl plan pname rname reldata milestones s t e s1 e1 :
  runs (upsert_release args lvl plan pname rname reldata) s t (Raise e) s1 e1 ->
  runs (upsert args lvl plan pname rname reldata milestones) s t (Raise e) s1 e1.
Proof. intros Hrelease. unfold upsert. now apply runs_bind_raise. Qed.

Lemma find_release_present s plan name row :
  List.In row (releases s) ->
  release_plan_id row = plan -> release_name row = name ->
  exists found, find_release s plan name = Some found.
Proof.
  intros Hin Hplan Hname. unfold find_release.
  destruct (find _ (releases s)) as [found|] eqn:Hfind; [eauto|].
  exfalso. rewrite find_none_iff in Hfind. specialize (Hfind row Hin).
  cbn beta in Hfind. now rewrite Hplan, Hname, Z.eqb_refl, String.eqb_refl in Hfind.
Qed.

Lemma find_milestone_unreferenced s n :
  referential s ->
  find_milestone s (next_pk (map release_id (releases s))) n = None.
Proof.
  intros Href. unfold find_milestone. apply find_none_iff. intros m Hin.
  destruct (Z.eqb_spec (milestone_release_id m) (next_pk (map release_id (releases s))))
    as [Heq|Hne]; [|reflexivity].
  exfalso. apply (next_pk_fresh (map release_id (releases s))).
  rewrite <- Heq. now apply Href.
Qed.

(** *** Conflicts *)

(** The release of the document is in the store and [--update] was not
    given. *)
Lemma run_release_conflict args data s prow row :
  well_formed data = true ->
  update args = false ->
  find_plan s (plan_name_of data) = Some prow ->
  find_release s (plan_id prow) (release_name_of data) = Some row ->
  run args data s =
  (Exit 1,
   {| db := s;
      trace := [EvSetupDjango; EvSelect TMaintenancePlan; EvAtomicEnter;
                EvSelect TRelease;
                EvLog ERROR ("Release '" ++ release_name_of data
                             ++ "' already exists for plan '" ++ plan_name_of data
                             ++ "' (use --update to update it)");
                EvRollback] |}).
Proof.
  intros Hwf Hupdate Hplan Hfound.
  pose proof (runs_upsert_release_conflict args (loglevel args) (plan_of_row prow)
                (plan_name_of data) (release_name_of data) (release_of data) row s
                [EvSetupDjango; EvSelect TMaintenancePlan; EvAtomicEnter]
                Hupdate Hfound) as Hrelease.
  apply (runs_upsert_raise _ _ _ _ _ _ (VList (milestones_of data))) in Hrelease.
  rewrite (run_transaction args data s prow _ _ _ Hwf Hplan Hrelease).
  now rewrite logged_error_always.
Qed.

(** The release of the document is new, [--update] was not given and two
    entries of the document have the same name (or a milestone row
    already points at the key the new release gets). *)
Lemma run_milestone_conflict args data s prow :
  well_formed data = true ->
  all_dates_valid data = true ->
  update args = false ->
  find_plan s (plan_name_of data) = Some prow ->
  find_release s (plan_id prow) (release_name_of data) = None ->
  ~ List.NoDup (milestone_names data) \/
  (exists n, List.In n (milestone_names data) /\
             find_milestone s (next_pk (map release_id (releases s))) n <> None) ->
  exists pre text n,
    List.In n (milestone_names data) /\
    run args data s =
    (Exit 1,
     {| db := s;
        trace := pre ++ [EvLog ERROR ("Milestone '" ++ n
                                      ++ "' already exists for release '" ++ text
                                      ++ "' (use --update to update it)");
                         EvRollback] |}).
Proof.
  intros Hwf Hdates Hupdate Hplan Hnone Hdup.
  destruct (well_formed_inv data Hwf) as (_ & _ & Hentries & _).
  unfold all_dates_valid in Hdates. apply andb_true_iff in Hdates as [Hrd Hmd].
  destruct (runs_upsert_release_create args (loglevel args) (plan_of_row prow)
              (plan_name_of data) (release_name_of data) data s
              [EvSetupDjango; EvSelect TMaintenancePlan; EvAtomicEnter]
              Hwf Hrd Hnone) as [created Hrelease].
  lazymatch type of Hrelease with
  | runs _ _ ?t (Ok ?release) ?s1 ?e1 =>
      destruct (runs_milestones_conflict args (loglevel args) release
                  (milestones_of data) s1 (t ++ e1)%list Hupdate Hentries Hmd Hdup)
        as (s' & pre & text & n & Hin & Hloop);
      exists (t ++ e1 ++ pre ++ [EvSelect TMilestone])%list, text, n
  end.
  pose proof (runs_upsert _ _ _ _ _ _ _ _ _ _ _ _ _ _ _ Hrelease Hloop) as Hblock.
  split; [exact Hin|].
  rewrite (run_transaction args data s prow _ _ _ Hwf Hplan Hblock).
  rewrite logged_error_always. f_equal. f_equal.
  rewrite <- !app_assoc. reflexivity.
Qed.

(** C2: without [--update], a release that is already in the store, a
    milestone of it that is already in the store, or a milestone name that
    the document gives twice for a new release, ends the script with exit
    code 1; the error logged names the release or the milestone, the
    transaction is rolled back, and the store is the one before the run. *)
Theorem conflict_without_update args data s prow :
  well_formed data = true ->
  update args = false ->
  find_plan s (plan_name_of data) = Some prow ->
  (forall row,
     List.In row (releases s) ->
     release_plan_id row = plan_id prow ->
     release_name row = release_name_of data ->
     run args data s =
     (Exit 1,
      {| db := s;
         trace := [EvSetupDjango; EvSelect TMaintenancePlan; EvAtomicEnter;
                   EvSelect TRelease;
                   EvLog ERROR ("Release '" ++ release_name_of data
                                ++ "' already exists for plan '" ++ plan_name_of data
                                ++ "' (use --update to update it)");
                   EvRollback] |})) /\
  (forall row m,
     List.In row (releases s) ->
     release_plan_id row = plan_id prow ->
     release_name row = release_name_of data ->
     List.In m (milestones s) ->
     milestone_release_id m = release_id row ->
     List.In (milestone_name m) (milestone_names data) ->
     fst (run args data s) = Exit 1 /\ db (snd (run args data s)) = s) /\
  (all_dates_valid data = true ->
   find_release s (plan_id prow) (release_name_of data) = None ->
   ~ List.NoDup (milestone_names data) ->
   exists pre text n,
     List.In n (milestone_names data) /\
     run args data s =
     (Exit 1,
      {| db := s;
         trace := pre ++ [EvLog ERROR ("Milestone '" ++ n
                                       ++ "' already exists for release '" ++ text
                                       ++ "' (use --update to update it)");
                          EvRollback] |})).
Proof.
  intros Hwf Hupdate Hplan. split; [|split].
  - intros row Hin Hp Hn.
    destruct (find_release_present s _ _ row Hin Hp Hn) as [found Hfound].
    now apply (run_release_conflict args data s prow found).
  - intros row m Hin Hp Hn _ _ _.
    destruct (find_release_present s _ _ row Hin Hp Hn) as [found Hfound].
    now rewrite (run_release_conflict args data s prow found).
  - intros Hdates Hnone Hdup.
    apply (run_milestone_conflict args data s prow); auto.
Qed.

(** C10: with [--dry-run] and without [--update], a release that is
    already in the store, or a milestone name given twice for a new
    release, still ends the script with exit code 1 and not 0: the last
    events are the error and the rollback, so the dry-run exception was
    not raised; the store is the one before the run. *)
Theorem dry_run_keeps_conflicts args data s prow :
  well_formed data = true ->
  dry_run args = true ->
  update args = false ->
  find_plan s (plan_name_of data) = Some prow ->
  (exists row, List.In row (releases s) /\
               release_plan_id row = plan_id prow /\
               release_name row = release_name_of data) \/
  (all_dates_valid data = true /\
   find_release s (plan_id prow) (release_name_of data) = None /\
   ~ List.NoDup (milestone_names data)) ->
  fst (run args data s) = Exit 1 /\
  fst (run args data s) <> Exit 0 /\
  db (snd (run args data s)) = s /\
  exists pre msg,
    trace (snd (run args data s)) = (pre ++ [EvLog ERROR msg; EvRollback])%list.
Proof.
  intros Hwf _ Hupdate Hplan [(row & Hin & Hp & Hn)|(Hdates & Hnone & Hdup)].
  - destruct (find_release_present s _ _ row Hin Hp Hn) as [found Hfound].
    rewrite (run_release_conflict args data s prow found Hwf Hupdate Hplan Hfound).
    cbn [fst snd db trace]. repeat split; try discriminate.
    now exists [EvSetupDjango; EvSelect TMaintenancePlan; EvAtomicEnter; EvSelect TRelease],
               ("Release '" ++ release_name_of data ++ "' already exists for plan '"
                ++ plan_name_of data ++ "' (use --update to update it)").
  - destruct (run_milestone_conflict args data s prow Hwf Hdates Hupdate Hplan Hnone
                (or_introl Hdup)) as (pre & text & n & _ & Hrun).
    rewrite Hrun. cbn [fst snd db trace]. repeat split; try discriminate. eauto.
Qed.

(** C1: a dry run on a well-formed document with valid dates, an existing
    plan and no conflict (with [--update], or for a new release with
    distinct milestone names) exits with code 0 and leaves the store as
    it was: the block is rolled back and the dry run is logged.  The
    [except] clause catches the dry-run exception and no other: any other
    exception that leaves the atomic block leaves the [try] statement. *)
Theorem dry_run_leaves_store args data s prow :
  well_formed data = true ->
  all_dates_valid data = true ->
  dry_run args = true ->
  find_plan s (plan_name_of data) = Some prow ->
  update args = true \/
  (find_release s (plan_id prow) (release_name_of data) = None /\
   List.NoDup (milestone_names data) /\ referential s) ->
  (exists evs,
     run args data s =
     (Exit 0,
      {| db := s;
         trace := [EvSetupDjango; EvSelect TMaintenancePlan; EvAtomicEnter]
                  ++ evs ++ [EvRollback]
                  ++ logged (loglevel args) INFO "Dry run; changes not saved" |})) /\
  (forall e, e <> DryRunRollbackException -> except_dry_run (loglevel args) e = None) /\
  (forall maintplan reldata milestones e w w',
     atomic (upsert args (loglevel args) maintplan (plan_name_of data)
               (release_name_of data) reldata milestones) w = (Raise e, w') ->
     e <> DryRunRollbackException ->
     transaction args (loglevel args) maintplan (plan_name_of data)
       (release_name_of data) reldata milestones w = (Raise e, w')).
Proof.
  intros Hwf Hdates Hdry Hplan Hfree. split; [|split].
  - destruct (well_formed_inv data Hwf) as (_ & _ & Hentries & _).
    unfold all_dates_valid in Hdates. apply andb_true_iff in Hdates as [Hrd Hmd].
    assert (Hrelease : exists release s1 e1,
               runs (upsert_release args (loglevel args) (plan_of_row prow)
                       (plan_name_of data) (release_name_of data) (release_of data))
                    s [EvSetupDjango; EvSelect TMaintenancePlan; EvAtomicEnter]
                    (Ok release) s1 e1 /\
               (update args = true \/
                (List.NoDup (map milestone_name_of (milestones_of data)) /\
                 forall n, List.In n (map milestone_name_of (milestones_of data)) ->
                           find_milestone s1 (r_pk release) n = None))).
    { destruct (find_release s (plan_id prow) (release_name_of data)) as [row|] eqn:Hfind.
      - assert (Hupdate : update args = true).
        { destruct Hfree as [Hu|[Hnone _]]; [exact Hu | discriminate]. }
        destruct (runs_upsert_release_update args (loglevel args) (plan_of_row prow)
                    (plan_name_of data) (release_name_of data) data row s
                    [EvSetupDjango; EvSelect TMaintenancePlan; EvAtomicEnter]
                    Hwf Hrd Hupdate Hfind) as [text Hrun].
        eexists _, _, _. split; [exact Hrun | now left].
      - destruct (runs_upsert_release_create args (loglevel args) (plan_of_row prow)
                    (plan_name_of data) (release_name_of data) data s
                    [EvSetupDjango; EvSelect TMaintenancePlan; EvAtomicEnter]
                    Hwf Hrd Hfind) as [text Hrun].
        eexists _, _, _. split; [exact Hrun|].
        destruct Hfree as [Hu|(_ & Hnd & Href)]; [now left | right].
        split; [exact Hnd|]. intros n _.
        now apply (find_milestone_unreferenced s n). }
    destruct Hrelease as (release & s1 & e1 & Hrun & Hfree1).
    destruct (runs_milestones_succeed args (loglevel args) release (milestones_of data)
                s1 ([EvSetupDjango; EvSelect TMaintenancePlan; EvAtomicEnter] ++ e1)%list
                Hentries Hmd Hfree1) as (s2 & e2 & Hloop & _).
    pose proof (runs_upsert _ _ _ _ _ _ _ _ _ _ _ _ _ _ _ Hrun Hloop) as Hblock.
    cbn match in Hblock. rewrite Hdry in Hblock.
    exists (e1 ++ e2)%list.
    exact (run_transaction args data s prow _ _ _ Hwf Hplan Hblock).
  - intros e He. destruct e; try reflexivity. contradiction.
  - intros maintplan reldata milestones e w w' Hatomic He.
    unfold transaction, try_except. rewrite Hatomic.
    destruct e; try reflexivity. contradiction.
Qed.

End transaction.

End importer_transaction.

(** ** The importer: importing a document again *)

Module importer_reimport.
Import DjangoDb create_release commands validation importer_checks importer_transaction.
Open Scope string_scope.

Section reimport.
Context `{Environment}.

(** *** Rewriting a row *)

Lemma find_milestone_update s row ms release n :
  List.NoDup (map milestone_id (milestones s)) ->
  List.In row (milestones s) ->
  find_milestone
    (update_milestone s
       (milestone_row_of (milestone_id row) (milestone_release_id row)
          (milestone_name row) ms)) release n =
  option_map
    (fun r => if (milestone_id r =? milestone_id row)%Z
              then milestone_row_of (milestone_id row) (milestone_release_id row)
                     (milestone_name row) ms
              else r)
    (find_milestone s release n).
Proof.
  intros Hnd Hin. unfold find_milestone, update_milestone.
  cbn [milestones milestone_row_of milestone_id].
  apply find_map_same. intros x Hx.
  destruct (Z.eqb_spec (milestone_id x) (milestone_id row)) as [Heq|Hne]; [|reflexivity].
  rewrite (NoDup_map_same_id milestone_id x row _ Hnd Hx Hin Heq). reflexivity.
Qed.

Lemma update_milestone_ids s row :
  map milestone_id (milestones (update_milestone s row)) = map milestone_id (milestones s).
Proof.
  unfold update_milestone. cbn [milestones]. rewrite map_map.
  apply map_ext. intros x.
  destruct (Z.eqb_spec (milestone_id x) (milestone_id row)); congruence.
Qed.

Lemma update_milestone_same s row :
  List.NoDup (map milestone_id (milestones s)) ->
  List.In row (milestones s) ->
  update_milestone s row = s.
Proof.
  intros Hnd Hin. destruct s as [ps rs ms]. unfold update_milestone. cbn [plans releases milestones] in *.
  f_equal. apply map_id_on. intros x Hx.
  destruct (Z.eqb_spec (milestone_id x) (milestone_id row)) as [Heq|Hne]; [|reflexivity].
  symmetry. exact (NoDup_map_same_id milestone_id x row _ Hnd Hx Hin Heq).
Qed.

Lemma find_release_update s row v plan n :
  List.NoDup (map release_id (releases s)) ->
  List.In row (releases s) ->
  find_release
    (update_release s
       (release_row_of (release_id row) (release_plan_id row) (release_name row) v))
    plan n =
  option_map
    (fun r => if (release_id r =? release_id row)%Z
              then release_row_of (release_id row) (release_plan_id row)
                     (release_name row) v
              else r)
    (find_release s plan n).
Proof.
  intros Hnd Hin. unfold find_release, update_release.
  cbn [releases release_row_of release_id].
  apply find_map_same. intros x Hx.
  destruct (Z.eqb_spec (release_id x) (release_id row)) as [Heq|Hne]; [|reflexivity].
  rewrite (NoDup_map_same_id release_id x row _ Hnd Hx Hin Heq). reflexivity.
Qed.

Lemma update_release_ids s row :
  map release_id (releases (update_release s row)) = map release_id (releases s).
Proof.
  unfold update_release. cbn [releases]. rewrite map_map.
  apply map_ext. intros x.
  destruct (Z.eqb_spec (release_id x) (release_id row)); congruence.
Qed.

Lemma update_release_same s row :
  List.NoDup (map release_id (releases s)) ->
  List.In row (releases s) ->
  update_release s row = s.
Proof.
  intros Hnd Hin. destruct s as [ps rs ms]. unfold update_release. cbn [plans releases milestones] in *.
  f_equal. apply map_id_on. intros x Hx.
  destruct (Z.eqb_spec (release_id x) (release_id row)) as [Heq|Hne]; [|reflexivity].
  symmetry. exact (NoDup_map_same_id release_id x row _ Hnd Hx Hin Heq).
Qed.

Lemma NoDup_insert_key ids : List.NoDup ids -> List.NoDup (ids ++ [next_pk ids]).
Proof.
  intros Hnd. apply List.NoDup_app; [exact Hnd | |].
  - constructor; [intros [] | constructor].
  - intros x Hin [<-|[]]. now apply (next_pk_fresh ids).
Qed.

Lemma find_milestone_found s release n row :
  find_milestone s release n = Some row ->
  List.In row (milestones s) /\ milestone_release_id row = release /\ milestone_name row = n.
Proof.
  unfold find_milestone. intros Hfind. apply find_some in Hfind as [Hin Hp].
  apply andb_true_iff in Hp as [Hr Hn].
  apply Z.eqb_eq in Hr. apply String.eqb_eq in Hn. auto.
Qed.

Lemma find_release_found s plan n row :
  find_release s plan n = Some row ->
  List.In row (releases s) /\ release_plan_id row = plan /\ release_name row = n.
Proof.
  unfold find_release. intros Hfind. apply find_some in Hfind as [Hin Hp].
  apply andb_true_iff in Hp as [Hr Hn].
  apply Z.eqb_eq in Hr. apply String.eqb_eq in Hn. auto.
Qed.

(** *** One milestone, with what the store then holds *)

Lemma upsert_milestone_stored args lvl release ms s t :
  has_fields milestone_fields ms = true ->
  dates_valid ms = true ->
  List.NoDup (map milestone_id (milestones s)) ->
  update args = true \/ find_milestone s (r_pk release) (milestone_name_of ms) = None ->
  exists s1 e1,
    runs (upsert_milestone args lvl release ms) s t (Ok tt) s1 e1 /\
    plans s1 = plans s /\ releases s1 = releases s /\
    List.NoDup (map milestone_id (milestones s1)) /\
    (exists row,
       find_milestone s1 (r_pk release) (milestone_name_of ms) = Some row /\
       row = milestone_row_of (milestone_id row) (r_pk release) (milestone_name_of ms) ms) /\
    (forall n row, n <> milestone_name_of ms ->
       find_milestone s (r_pk release) n = Some row ->
       find_milestone s1 (r_pk release) n = Some row) /\
    (forall n, n <> milestone_name_of ms ->
       find_milestone s (r_pk release) n = None ->
       find_milestone s1 (r_pk release) n = None).
Proof.
  intros Hfields Hdates Hnd Hfree.
  destruct (find_milestone s (r_pk release) (milestone_name_of ms)) as [row|] eqn:Hfind.
  - assert (Hupdate : update args = true) by (destruct Hfree; congruence).
    destruct (runs_upsert_milestone_update args lvl release ms row s t
                Hfields Hdates Hupdate Hfind) as [text Hstep].
    destruct (find_milestone_found _ _ _ _ Hfind) as (Hin & Hrel & Hname).
    eexists _, _. split; [exact Hstep|].
    split; [reflexivity|]. split; [reflexivity|].
    split; [now rewrite update_milestone_ids|].
    split; [|split].
    + eexists. rewrite (find_milestone_update s row ms _ _ Hnd Hin), Hfind.
      cbn [option_map]. rewrite Z.eqb_refl. split; [reflexivity|].
      now rewrite Hrel, Hname.
    + intros n row' Hne Hfind'.
      rewrite (find_milestone_update s row ms _ _ Hnd Hin), Hfind'. cbn [option_map].
      destruct (find_milestone_found _ _ _ _ Hfind') as (Hin' & _ & Hname').
      destruct (Z.eqb_spec (milestone_id row') (milestone_id row)) as [Heq|]; [|reflexivity].
      exfalso. apply Hne.
      rewrite <- Hname', <- Hname.
      now rewrite (NoDup_map_same_id milestone_id row' row _ Hnd Hin' Hin Heq).
    + intros n Hne Hnone.
      now rewrite (find_milestone_update s row ms _ _ Hnd Hin), Hnone.
  - destruct (runs_upsert_milestone_create args lvl release ms s t Hfields Hdates Hfind)
      as [text Hstep].
    eexists _, _. split; [exact Hstep|].
    split; [reflexivity|]. split; [reflexivity|].
    split.
    { unfold insert_milestone. cbn [milestones]. rewrite map_app.
      now apply NoDup_insert_key. }
    split; [|split].
    + eexists. rewrite find_milestone_insert, Hfind.
      cbn [milestone_row_of milestone_release_id milestone_name].
      rewrite Z.eqb_refl, String.eqb_refl. split; reflexivity.
    + intros n row' Hne Hfind'. now rewrite find_milestone_insert, Hfind'.
    + intros n Hne Hnone. rewrite find_milestone_insert, Hnone.
      cbn [milestone_row_of milestone_release_id milestone_name].
      destruct (String.eqb_spec (milestone_name_of ms) n); [congruence|].
      now rewrite andb_false_r.
Qed.

(** The loop over the entries, with what the store then holds: for every
    entry that is the last one of its name, a row of the release with the
    entry's name and dates. *)
Lemma runs_milestones_stored args lvl release l s t :
  forallb (has_fields milestone_fields) l = true ->
  forallb dates_valid l = true ->
  List.NoDup (map milestone_id (milestones s)) ->
  update args = true \/
  (List.NoDup (map milestone_name_of l) /\
   forall n, List.In n (map milestone_name_of l) ->
             find_milestone s (r_pk release) n = None) ->
  exists s' evs,
    runs (for_each l (upsert_milestone args lvl release)) s t (Ok tt) s' evs /\
    plans s' = plans s /\ releases s' = releases s /\
    List.NoDup (map milestone_id (milestones s')) /\
    (forall before ms after,
       l = (before ++ ms :: after)%list ->
       ~ List.In (milestone_name_of ms) (map milestone_name_of after) ->
       exists row,
         find_milestone s' (r_pk release) (milestone_name_of ms) = Some row /\
         row = milestone_row_of (milestone_id row) (r_pk release) (milestone_name_of ms) ms) /\
    (forall n row, ~ List.In n (map milestone_name_of l) ->
       find_milestone s (r_pk release) n = Some row ->
       find_milestone s' (r_pk release) n = Some row).
Proof.
  revert s t. induction l as [|ms l IH]; intros s t Hfields Hdates Hnd Hfree.
  - exists s, []. split; [apply runs_ret|]. repeat split; auto.
    intros [|? ?] ? ? Heq; discriminate.
  - cbn [forallb] in Hfields, Hdates.
    apply andb_true_iff in Hfields as [Hms Hfields].
    apply andb_true_iff in Hdates as [Hd Hdates].
    destruct (upsert_milestone_stored args lvl release ms s t Hms Hd Hnd)
      as (s1 & e1 & Hstep & Hp1 & Hr1 & Hnd1 & (row & Hrow & Hrow_eq) & Hkeep1 & Hfree1).
    { destruct Hfree as [Hu|[_ Hnone]]; [now left | right]. apply Hnone. now left. }
    destruct (IH s1 (t ++ e1)%list Hfields Hdates Hnd1)
      as (s' & e2 & Hrest & Hp & Hr & Hnd' & Hrows & Hkeep).
    { destruct Hfree as [Hu|[Hnames Hnone]]; [now left | right].
      cbn [map] in Hnames. inversion Hnames as [|? ? Hnotin Hnames']; subst.
      split; [exact Hnames'|].
      intros n Hin. apply Hfree1; [congruence|]. apply Hnone. now right. }
    exists s', (e1 ++ e2)%list. cbn [for_each].
    split; [exact (runs_bind _ _ _ _ _ _ _ _ _ _ Hstep Hrest)|].
    split; [congruence|]. split; [congruence|]. split; [exact Hnd'|].
    split.
    + intros [|first before] ms' after Heq Hlast; cbn [app] in Heq.
      * injection Heq as <- <-. exists row. split; [|exact Hrow_eq]. now apply Hkeep.
      * injection Heq as _ ->. now apply (Hrows before ms' after).
    + intros n row' Hnotin' Hfind. cbn [map] in Hnotin'.
      apply Hkeep; [intros Hc; apply Hnotin'; now right|].
      apply Hkeep1; [|exact Hfind].
      intros ->. apply Hnotin'. now left.
Qed.

(** With [--update], on a store that has a row for every name, the loop
    inserts no row and leaves the key, the release and the name of every
    row as they are. *)
Lemma runs_milestones_in_place args lvl release l s t :
  update args = true ->
  forallb (has_fields milestone_fields) l = true ->
  forallb dates_valid l = true ->
  List.NoDup (map milestone_id (milestones s)) ->
  (forall n, List.In n (map milestone_name_of l) ->
             find_milestone s (r_pk release) n <> None) ->
  exists s' evs,
    runs (for_each l (upsert_milestone args lvl release)) s t (Ok tt) s' evs /\
    forallb (fun e => negb (is_insert e)) evs = true /\
    map milestone_key (milestones s') = map milestone_key (milestones s).
Proof.
  intros Hupdate. revert s t.
  induction l as [|ms l IH]; intros s t Hfields Hdates Hnd Hthere.
  - exists s, []. split; [apply runs_ret|]. split; reflexivity.
  - cbn [forallb] in Hfields, Hdates.
    apply andb_true_iff in Hfields as [Hms Hfields].
    apply andb_true_iff in Hdates as [Hd Hdates].
    destruct (find_milestone s (r_pk release) (milestone_name_of ms)) as [row|] eqn:Hfind;
      [|exfalso; apply (Hthere (milestone_name_of ms)); [now left | exact Hfind]].
    destruct (runs_upsert_milestone_update args lvl release ms row s t
                Hms Hd Hupdate Hfind) as [text Hstep].
    destruct (find_milestone_found _ _ _ _ Hfind) as (Hin & Hrel & Hname).
    lazymatch type of Hstep with
    | runs _ _ _ _ ?s1 ?e1 =>
        assert (Hnd1 : List.NoDup (map milestone_id (milestones s1)))
          by (now rewrite update_milestone_ids);
        assert (Hthere1 : forall n, List.In n (map milestone_name_of l) ->
                                    find_milestone s1 (r_pk release) n <> None);
        [|destruct (IH s1 (t ++ e1)%list Hfields Hdates Hnd1 Hthere1)
            as (s' & e2 & Hrest & Hnone & Hkeys);
          exists s', (e1 ++ e2)%list]
    end.
    { intros n Hn. rewrite (find_milestone_update s row ms _ _ Hnd Hin).
      specialize (Hthere n (or_intror Hn)).
      destruct (find_milestone s (r_pk release) n); [discriminate | congruence]. }
    cbn [for_each]. split; [exact (runs_bind _ _ _ _ _ _ _ _ _ _ Hstep Hrest)|].
    split.
    + rewrite forallb_app, Hnone, andb_true_r.
      unfold logged. destruct (INFO >=? lvl); reflexivity.
    + rewrite Hkeys. unfold update_milestone. cbn [milestones]. rewrite map_map.
      apply map_ext_in. intros x Hx. cbn [milestone_row_of milestone_id].
      destruct (Z.eqb_spec (milestone_id x) (milestone_id row)) as [Heq|]; [|reflexivity].
      now rewrite (NoDup_map_same_id milestone_id x row _ Hnd Hx Hin Heq).
Qed.

Lemma last_occurrence {A : Type} (f : A -> string) l n :
  List.In n (map f l) ->
  exists before x after,
    l = (before ++ x :: after)%list /\ f x = n /\ ~ List.In n (map f after).
Proof.
  induction l as [|y l IH]; cbn [map]; [intros []|].
  intros Hin.
  destruct (in_dec string_dec n (map f l)) as [Hlater|Hlast].
  - destruct (IH Hlater) as (before & x & after & -> & Hx & Hafter).
    now exists (y :: before), x, after.
  - destruct Hin as [Hy|Hin]; [|contradiction].
    now exists [], y, l.
Qed.

Lemma distinct_last {A : Type} (f : A -> string) before x after :
  List.NoDup (map f (before ++ x :: after)) -> ~ List.In (f x) (map f after).
Proof.
  rewrite map_app. cbn [map]. intros Hnd Hin.
  apply List.NoDup_remove_2 in Hnd. apply Hnd. apply in_or_app. now right.
Qed.

(** With [--update], on a store that holds for every entry a row with the
    entry's dates, the loop rewrites rows with what they hold: the store
    stays as it is and no row is inserted. *)
Lemma runs_milestones_again args lvl release l s t :
  update args = true ->
  forallb (has_fields milestone_fields) l = true ->
  forallb dates_valid l = true ->
  List.NoDup (map milestone_id (milestones s)) ->
  (forall ms, List.In ms l ->
     exists row,
       find_milestone s (r_pk release) (milestone_name_of ms) = Some row /\
       row = milestone_row_of (milestone_id row) (r_pk release) (milestone_name_of ms) ms) ->
  exists evs,
    runs (for_each l (upsert_milestone args lvl release)) s t (Ok tt) s evs /\
    forallb (fun e => negb (is_insert e)) evs = true.
Proof.
  intros Hupdate. revert t.
  induction l as [|ms l IH]; intros t Hfields Hdates Hnd Hrows.
  - exists []. split; [apply runs_ret | reflexivity].
  - cbn [forallb] in Hfields, Hdates.
    apply andb_true_iff in Hfields as [Hms Hfields].
    apply andb_true_iff in Hdates as [Hd Hdates].
    destruct (Hrows ms (or_introl eq_refl)) as (row & Hfind & Hrow).
    destruct (runs_upsert_milestone_update args lvl release ms row s t
                Hms Hd Hupdate Hfind) as [text Hstep].
    destruct (find_milestone_found _ _ _ _ Hfind) as (Hin & Hrel & Hname).
    rewrite Hrel, Hname, <- Hrow in Hstep.
    rewrite (update_milestone_same s row Hnd Hin) in Hstep.
    lazymatch type of Hstep with
    | runs _ _ _ _ _ ?e1 =>
        destruct (IH (t ++ e1)%list Hfields Hdates Hnd) as (e2 & Hrest & Hnone);
        [intros ms' Hin'; apply Hrows; now right|];
        exists (e1 ++ e2)%list
    end.
    cbn [for_each]. split; [exact (runs_bind _ _ _ _ _ _ _ _ _ _ Hstep Hrest)|].
    rewrite forallb_app, Hnone, andb_true_r.
    unfold logged. destruct (INFO >=? lvl); reflexivity.
Qed.

(** *** The release, with what the store then holds *)

Lemma upsert_release_stored args lvl prow data s t :
  well_formed data = true ->
  dates_valid (release_of data) = true ->
  List.NoDup (map release_id (releases s)) ->
  update args = true \/
  find_release s (plan_id prow) (release_name_of data) = None ->
  exists release s1 e1,
    runs (upsert_release args lvl (plan_of_row prow) (plan_name_of data)
            (release_name_of data) (release_of data)) s t (Ok release) s1 e1 /\
    plans s1 = plans s /\ milestones s1 = milestones s /\
    List.NoDup (map release_id (releases s1)) /\
    (exists row,
       find_release s1 (plan_id prow) (release_name_of data) = Some row /\
       row = release_row_of (r_pk release) (plan_id prow) (release_name_of data)
               (release_of data)) /\
    (find_release s (plan_id prow) (release_name_of data) = None ->
     r_pk release = next_pk (map release_id (releases s))).
Proof.
  intros Hwf Hdates Hnd Hfree.
  destruct (find_release s (plan_id prow) (release_name_of data)) as [row|] eqn:Hfind.
  - assert (Hupdate : update args = true) by (destruct Hfree; congruence).
    destruct (runs_upsert_release_update args lvl (plan_of_row prow) (plan_name_of data)
                (release_name_of data) data row s t Hwf Hdates Hupdate Hfind)
      as [text Hstep].
    destruct (find_release_found _ _ _ _ Hfind) as (Hin & Hplan & Hname).
    eexists _, _, _. split; [exact Hstep|].
    split; [reflexivity|]. split; [reflexivity|].
    split; [now rewrite update_release_ids|].
    split; [|discriminate].
    eexists. rewrite (find_release_update s row _ _ _ Hnd Hin), Hfind.
    cbn [option_map]. rewrite Z.eqb_refl. split; [reflexivity|].
    cbn [release_instance r_pk]. now rewrite Hplan, Hname.
  - destruct (runs_upsert_release_create args lvl (plan_of_row prow) (plan_name_of data)
                (release_name_of data) data s t Hwf Hdates Hfind) as [text Hstep].
    eexists _, _, _. split; [exact Hstep|].
    split; [reflexivity|]. split; [reflexivity|].
    split.
    { unfold insert_release. cbn [releases]. rewrite map_app. now apply NoDup_insert_key. }
    split; [|reflexivity].
    eexists. unfold find_release, insert_release. cbn [releases].
    unfold find_release in Hfind. rewrite (find_app_none _ _ _ Hfind).
    cbn [find release_row_of release_plan_id release_name plan_of_row mp_pk].
    rewrite Z.eqb_refl, String.eqb_refl. split; reflexivity.
Qed.

(** With [--update], on a store that holds the release with the
    document's dates, the release step rewrites the row with what it
    holds. *)
Lemma upsert_release_again args lvl prow data row s t :
  well_formed data = true ->
  dates_valid (release_of data) = true ->
  update args = true ->
  List.NoDup (map release_id (releases s)) ->
  find_release s (plan_id prow) (release_name_of data) = Some row ->
  row = release_row_of (release_id row) (plan_id prow) (release_name_of data)
          (release_of data) ->
  exists e1,
    runs (upsert_release args lvl (plan_of_row prow) (plan_name_of data)
            (release_name_of data) (release_of data)) s t
         (Ok (release_instance (release_id row) (plan_id prow) (release_name_of data)
                (release_of data))) s e1 /\
    forallb (fun e => negb (is_insert e)) e1 = true.
Proof.
  intros Hwf Hdates Hupdate Hnd Hfind Hrow.
  destruct (runs_upsert_release_update args lvl (plan_of_row prow) (plan_name_of data)
              (release_name_of data) data row s t Hwf Hdates Hupdate Hfind)
    as [text Hstep].
  destruct (find_release_found _ _ _ _ Hfind) as (Hin & Hplan & Hname).
  rewrite Hplan, Hname, <- Hrow in Hstep.
  rewrite (update_release_same s row Hnd Hin) in Hstep.
  eexists. split; [exact Hstep|].
  unfold logged. destruct (INFO >=? lvl); reflexivity.
Qed.

Lemma forallb_false_exists {A : Type} (f : A -> bool) l :
  forallb f l = false -> exists x, List.In x l /\ f x = false.
Proof.
  induction l as [|y l IH]; simpl; [discriminate|].
  destruct (f y) eqn:Hy; simpl.
  - intros Hl. destruct (IH Hl) as (x & Hin & Hx). eauto.
  - intros _. eauto.
Qed.

Lemma find_milestone_same_table s s' release n :
  milestones s' = milestones s ->
  find_milestone s' release n = find_milestone s release n.
Proof. unfold find_milestone. now intros ->. Qed.

Lemma find_release_same_table s s' plan n :
  releases s' = releases s ->
  find_release s' plan n = find_release s plan n.
Proof. unfold find_release. now intros ->. Qed.

Lemma find_plan_same_table s s' n :
  plans s' = plans s -> find_plan s' n = find_plan s n.
Proof. unfold find_plan. now intros ->. Qed.

(** C6: take a well-formed document with valid dates and a store with
    unique keys into which it was imported (exit code 0, no dry run).
    Importing it again with [--update] exits with code 0 and commits.  It
    inserts no row; the plans and the releases are the ones before it, and
    so are the key, the release and the name of every milestone row, in
    the same order: no record was added and none has gone.  The release
    holds the document's dates and so does the milestone of every entry
    (of the last entry of a name, should a name come twice).  When the
    names are distinct the whole store is the one before the import. *)
Theorem reimport_with_update args1 args2 data s w1 :
  well_formed data = true ->
  all_dates_valid data = true ->
  keys_unique s ->
  dry_run args1 = false ->
  run args1 data s = (Exit 0, w1) ->
  update args2 = true ->
  dry_run args2 = false ->
  exists evs w2 prow row,
    run args2 data (db w1) = (Exit 0, w2) /\
    trace w2 = ([EvSetupDjango; EvSelect TMaintenancePlan; EvAtomicEnter]
                ++ evs ++ [EvCommit])%list /\
    forallb (fun e => negb (is_insert e)) evs = true /\
    keys_unique (db w2) /\
    plans (db w2) = plans (db w1) /\
    releases (db w2) = releases (db w1) /\
    map milestone_key (milestones (db w2)) = map milestone_key (milestones (db w1)) /\
    find_plan (db w2) (plan_name_of data) = Some prow /\
    find_release (db w2) (plan_id prow) (release_name_of data) = Some row /\
    release_start row = stored_date (field "start_date" (release_of data)) /\
    release_end row = stored_date (field "end_date" (release_of data)) /\
    (forall before ms after,
       milestones_of data = (before ++ ms :: after)%list ->
       ~ List.In (milestone_name_of ms) (map milestone_name_of after) ->
       exists mrow,
         find_milestone (db w2) (release_id row) (milestone_name_of ms) = Some mrow /\
         milestone_start mrow = stored_date (field "start_date" ms) /\
         milestone_end mrow = stored_date (field "end_date" ms)) /\
    (List.NoDup (milestone_names data) -> db w2 = db w1).
Proof.
  intros Hwf Hdates [HndR HndM] Hdry1 Hrun1 Hupdate2 Hdry2.
  destruct (well_formed_inv data Hwf) as (_ & _ & Hentries & _).
  pose proof Hdates as Hall.
  unfold all_dates_valid in Hdates. apply andb_true_iff in Hdates as [Hrd Hmd].
  (* the plan was found *)
  destruct (find_plan s (plan_name_of data)) as [prow|] eqn:Hplan;
    [|rewrite (unknown_plan_exits args1 data s Hwf Hplan) in Hrun1; discriminate].
  (* the release was new or was updated *)
  assert (HfreeR : update args1 = true \/
                   find_release s (plan_id prow) (release_name_of data) = None).
  { destruct (update args1) eqn:Hu; [now left | right].
    destruct (find_release s (plan_id prow) (release_name_of data)) as [found|] eqn:Hfind;
      [|reflexivity].
    rewrite (run_release_conflict args1 data s prow found Hwf Hu Hplan Hfind) in Hrun1.
    discriminate. }
  destruct (upsert_release_stored args1 (loglevel args1) prow data s
              [EvSetupDjango; EvSelect TMaintenancePlan; EvAtomicEnter]
              Hwf Hrd HndR HfreeR)
    as (release & s1 & e1 & Hrelease & Hp1 & Hm1 & HndR1 & (row & Hrow & Hrow_eq) & Hpk).
  (* every milestone was new or was updated *)
  assert (HfreeM : update args1 = true \/
                   (List.NoDup (map milestone_name_of (milestones_of data)) /\
                    forall n, List.In n (map milestone_name_of (milestones_of data)) ->
                              find_milestone s1 (r_pk release) n = None)).
  { destruct (update args1) eqn:Hu; [now left | right].
    destruct HfreeR as [|Hnone]; [discriminate|].
    assert (Hconflict :
              ~ List.NoDup (milestone_names data) \/
              (exists n, List.In n (milestone_names data) /\
                         find_milestone s (next_pk (map release_id (releases s))) n <> None)
              -> False).
    { intros Hbad.
      destruct (run_milestone_conflict args1 data s prow Hwf Hall Hu Hplan Hnone Hbad)
        as (pre & text & n' & _ & Hexit).
      rewrite Hexit in Hrun1. discriminate. }
    split.
    - destruct (ListDec.NoDup_dec string_dec (map milestone_name_of (milestones_of data)))
        as [Hnd|Hdup]; [exact Hnd|]. exfalso. apply Hconflict. now left.
    - intros n Hin.
      destruct (find_milestone s1 (r_pk release) n) as [found|] eqn:Hfound; [|reflexivity].
      exfalso. apply Hconflict. right. exists n. split; [exact Hin|].
      rewrite <- (Hpk Hnone), <- (find_milestone_same_table s s1 _ _ Hm1). congruence. }
  assert (HndM1 : List.NoDup (map milestone_id (milestones s1))) by now rewrite Hm1.
  destruct (runs_milestones_stored args1 (loglevel args1) release (milestones_of data) s1
              ([EvSetupDjango; EvSelect TMaintenancePlan; EvAtomicEnter] ++ e1)%list
              Hentries Hmd HndM1 HfreeM)
    as (s' & e2 & Hloop & Hp' & Hr' & HndM' & Hrows & _).
  (* the store after the first import *)
  pose proof (runs_upsert _ _ _ _ _ _ _ _ _ _ _ _ _ _ _ Hrelease Hloop) as Hblock.
  cbn match in Hblock. rewrite Hdry1 in Hblock.
  rewrite (run_transaction args1 data s prow _ _ _ Hwf Hplan Hblock) in Hrun1.
  assert (Hdb : db w1 = s') by (injection Hrun1 as <-; reflexivity).
  rewrite Hdb. clear Hrun1 Hblock Hloop Hrelease Hdb w1.
  assert (Hplan' : find_plan s' (plan_name_of data) = Some prow).
  { rewrite (find_plan_same_table s1 s') by exact Hp'.
    now rewrite (find_plan_same_table s s1) by exact Hp1. }
  assert (Hrow' : find_release s' (plan_id prow) (release_name_of data) = Some row).
  { now rewrite (find_release_same_table s1 s') by exact Hr'. }
  assert (HndR' : List.NoDup (map release_id (releases s'))) by now rewrite Hr'.
  assert (Hid : release_id row = r_pk release) by now rewrite Hrow_eq.
  (* the second import: the release *)
  rewrite <- Hid in Hrow_eq, Hrows.
  destruct (upsert_release_again args2 (loglevel args2) prow data row s'
              [EvSetupDjango; EvSelect TMaintenancePlan; EvAtomicEnter]
              Hwf Hrd Hupdate2 HndR' Hrow' Hrow_eq) as (e3 & Hrelease2 & Hnone3).
  set (release2 := release_instance (release_id row) (plan_id prow)
                     (release_name_of data) (release_of data)) in *.
  change (release_id row) with (r_pk release2) in Hrows.
  (* the second import: the milestones, kept in place *)
  assert (Hthere : forall n, List.In n (map milestone_name_of (milestones_of data)) ->
                             find_milestone s' (r_pk release2) n <> None).
  { intros n Hin.
    destruct (last_occurrence milestone_name_of _ n Hin)
      as (before & ms & after & Heq & Hname & Hlast).
    rewrite <- Hname in Hlast |- *.
    destruct (Hrows before ms after Heq Hlast) as (mrow & Hfind & _). congruence. }
  destruct (runs_milestones_in_place args2 (loglevel args2) release2 (milestones_of data) s'
              ([EvSetupDjango; EvSelect TMaintenancePlan; EvAtomicEnter] ++ e3)%list
              Hupdate2 Hentries Hmd HndM' Hthere)
    as (s2 & e4 & Hloop2 & Hnone4 & Hkeys).
  (* the second import: what the rows hold *)
  destruct (runs_milestones_stored args2 (loglevel args2) release2 (milestones_of data) s'
              ([EvSetupDjango; EvSelect TMaintenancePlan; EvAtomicEnter] ++ e3)%list
              Hentries Hmd HndM' (or_introl Hupdate2))
    as (s2' & e4' & Hloop2' & Hp2 & Hr2 & HndM2 & Hrows2 & _).
  destruct (runs_unique _ _ _ _ _ _ _ _ _ Hloop2' Hloop2) as (_ & -> & ->).
  pose proof (runs_upsert _ _ _ _ _ _ _ _ _ _ _ _ _ _ _ Hrelease2 Hloop2) as Hblock2.
  cbn match in Hblock2. rewrite Hdry2 in Hblock2.
  assert (Hplan2 : find_plan s2 (plan_name_of data) = Some prow)
    by now rewrite (find_plan_same_table s' s2).
  assert (Hrow2 : find_release s2 (plan_id prow) (release_name_of data) = Some row)
    by now rewrite (find_release_same_table s' s2).
  eexists (e3 ++ e4)%list, _, prow, row.
  split; [exact (run_transaction args2 data s' prow _ _ _ Hwf Hplan' Hblock2)|].
  cbn [db trace].
  split; [reflexivity|].
  split; [now rewrite forallb_app, Hnone3, Hnone4|].
  split; [split; [now rewrite Hr2 | exact HndM2]|].
  split; [exact Hp2|]. split; [exact Hr2|]. split; [exact Hkeys|].
  split; [exact Hplan2|]. split; [exact Hrow2|].
  split; [now rewrite Hrow_eq|]. split; [now rewrite Hrow_eq|].
  split.
  - intros before ms after Heq Hlast.
    destruct (Hrows2 before ms after Heq Hlast) as (mrow & Hfind & Hmrow).
    exists mrow. split; [exact Hfind|]. split; now rewrite Hmrow.
  - intros Hnames.
    destruct (runs_milestones_again args2 (loglevel args2) release2 (milestones_of data) s'
                ([EvSetupDjango; EvSelect TMaintenancePlan; EvAtomicEnter] ++ e3)%list
                Hupdate2 Hentries Hmd HndM') as (e5 & Hloop3 & _).
    { intros ms Hin. destruct (in_split _ _ Hin) as (before & after & Heq).
      apply (Hrows before ms after Heq).
      unfold milestone_names in Hnames. rewrite Heq in Hnames.
      exact (distinct_last milestone_name_of before ms after Hnames). }
    now destruct (runs_unique _ _ _ _ _ _ _ _ _ Hloop3 Hloop2) as (_ & -> & _).
Qed.

End reimport.

End importer_reimport.

(** ** The importer at work on the sample inputs *)

Module importer_samples.
Import DjangoDb create_release samples more_samples.
Import importer_checks importer_transaction importer_reimport.
Open Scope string_scope.

(** The first plan of [fresh_store]. *)
Lemma sample_plan :
  find_plan fresh_store (@plan_name_of sample_environment help_document)
  = Some {| plan_id := 1; plan_name := "OE-Core" |}.
Proof. reflexivity. Qed.



(** C5, the claim as stated fails.  The release object of the first
    document is nothing: it has no field, and the run ends in a
    [TypeError] with nothing reported.  In the second document the first
    entry that is no mapping with the three fields is the first one, and
    the position reported is 2. *)
Lemma first_invalid_not_reported :
  has_field "release" null_release_document = true /\
  has_field "plan" (release_of null_release_document) = false /\
  @run sample_environment plain null_release_document fresh_store
  = (Traceback TypeError, {| db := fresh_store; trace := [] |}) /\
  nth_error (milestones_of mixed_document) 0 = Some sequence_entry /\
  has_fields milestone_fields sequence_entry = false /\
  @run sample_environment plain mixed_document fresh_store
  = (Exit 1,
     {| db := fresh_store;
        trace := [EvLog ERROR "Milestone 2 is missing required field 'start_date'"] |}).
Proof. repeat split. Qed.

(** C5 at work: the release without [name]; the release that is nothing;
    the second milestone without [start_date], after a mapping and after
    the sequence [[name, start_date, end_date]]; the entries [M1] and 5. *)
Lemma first_missing_field_reported_witness :
  (has_field "release" nameless_document = true /\
   @run sample_environment plain nameless_document fresh_store =
   (Exit 1,
    {| db := fresh_store;
       trace := [EvLog ERROR "Release is missing required field 'name'"] |})) /\
  (has_field "release" null_release_document = true /\
   @run sample_environment plain null_release_document fresh_store =
   (Traceback TypeError, {| db := fresh_store; trace := [] |})) /\
  (has_field "release" incomplete_milestone_document = true /\
   @run sample_environment plain incomplete_milestone_document fresh_store =
   (Exit 1,
    {| db := fresh_store;
       trace := [EvLog ERROR "Milestone 2 is missing required field 'start_date'"] |})) /\
  (has_field "release" mixed_document = true /\
   @run sample_environment plain mixed_document fresh_store =
   (Exit 1,
    {| db := fresh_store;
       trace := [EvLog ERROR "Milestone 2 is missing required field 'start_date'"] |})) /\
  (has_field "release" text_entry_document = true /\
   @run sample_environment plain text_entry_document fresh_store =
   (Exit 1,
    {| db := fresh_store;
       trace := [EvLog ERROR "Milestone 1 is missing required field 'name'"] |})) /\
  (has_field "release" number_entry_document = true /\
   @run sample_environment plain number_entry_document fresh_store =
   (Traceback TypeError, {| db := fresh_store; trace := [] |})).
Proof.
  split; [split; [reflexivity|] |].
  { exact (proj1 (proj1 (proj2 (proj2
               (@first_missing_field_reported sample_environment plain nameless_document
                  fresh_store eq_refl)))
               ["plan"] "name" ["start_date"; "end_date"] eq_refl eq_refl) eq_refl). }
  split; [split; [reflexivity|] |].
  { exact (proj2 (proj1 (proj2 (proj2
               (@first_missing_field_reported sample_environment plain
                  null_release_document fresh_store eq_refl)))
               [] "plan" ["name"; "start_date"; "end_date"] eq_refl eq_refl)
               TypeError eq_refl). }
  split; [split; [reflexivity|] |].
  { exact (proj1 (proj2 (proj2 (proj2
               (@first_missing_field_reported sample_environment plain
                  incomplete_milestone_document fresh_store eq_refl)))
               [milestone_entry "M1" (ymd 2024 4 30) (ymd 2024 5 31)]
               (VDict [(VStr "name", VStr "M2"); (VStr "end_date", ymd 2024 7 19)]) []
               ["name"] "start_date" ["end_date"]
               eq_refl eq_refl eq_refl eq_refl eq_refl) eq_refl). }
  split; [split; [reflexivity|] |].
  { exact (proj1 (proj2 (proj2 (proj2
               (@first_missing_field_reported sample_environment plain
                  mixed_document fresh_store eq_refl)))
               [sequence_entry]
               (VDict [(VStr "name", VStr "M2"); (VStr "end_date", ymd 2024 7 19)]) []
               ["name"] "start_date" ["end_date"]
               eq_refl eq_refl eq_refl eq_refl eq_refl) eq_refl). }
  split; [split; [reflexivity|] |].
  { exact (proj1 (proj2 (proj2 (proj2
               (@first_missing_field_reported sample_environment plain
                  text_entry_document fresh_store eq_refl)))
               [] (VStr "M1") [] [] "name" ["start_date"; "end_date"]
               eq_refl eq_refl eq_refl eq_refl eq_refl) eq_refl). }
  split; [reflexivity|].
  exact (proj2 (proj2 (proj2 (proj2
             (@first_missing_field_reported sample_environment plain
                number_entry_document fresh_store eq_refl)))
             [] (VInt 5) [] [] "name" ["start_date"; "end_date"]
             eq_refl eq_refl eq_refl eq_refl eq_refl) TypeError eq_refl).
Defined.

(** C4 at work: the plan [Poky] is not in the store. *)
Lemma unknown_plan_exits_witness :
  well_formed unknown_plan_document = true /\
  find_plan fresh_store (@plan_name_of sample_environment unknown_plan_document) = None /\
  @run sample_environment plain unknown_plan_document fresh_store =
  (Exit 1,
   {| db := fresh_store;
      trace := [EvSetupDjango; EvSelect TMaintenancePlan; EvSelect TMaintenancePlan;
                EvLog ERROR
                  "Maintenance plan 'Poky' does not exist. Available plans: OE-Core, meta-oe"] |}).
Proof.
  split; [reflexivity|]. split; [reflexivity|].
  exact (@unknown_plan_exits sample_environment plain unknown_plan_document fresh_store
           eq_refl eq_refl).
Defined.

Lemma imported_release :
  List.In {| release_id := 1; release_plan_id := 1; release_name := "5.1";
             release_start := {| year := 2024; month := 4; day := 30 |};
             release_end := {| year := 2024; month := 10; day := 25 |} |}
          (releases imported_store).
Proof. now left. Qed.

Lemma sample_names_distinct :
  List.NoDup (@milestone_names sample_environment help_document).
Proof.
  change (List.NoDup ["M1"; "M2"]).
  repeat constructor; simpl; intuition discriminate.
Qed.

Lemma twice_names_repeat :
  ~ List.NoDup (@milestone_names sample_environment twice_document).
Proof.
  change (~ List.NoDup ["M1"; "M1"]).
  intros Hnd. inversion Hnd as [|? ? Hnotin _]. apply Hnotin. now left.
Qed.

(** A new release whose document names the milestone [M1] twice: the
    first entry is created, the second one is a conflict, and the
    rollback undoes the release and the first milestone. *)
Example twice_document_conflict :
  @run sample_environment plain twice_document fresh_store =
  (Exit 1,
   {| db := fresh_store;
      trace := [EvSetupDjango; EvSelect TMaintenancePlan; EvAtomicEnter;
                EvSelect TRelease; EvInsert TRelease 1;
                EvLog INFO "Created release '5.1'";
                EvSelect TMilestone; EvInsert TMilestone 1;
                EvLog INFO "Created milestone 'M1'";
                EvSelect TMilestone;
                EvLog ERROR
                  "Milestone 'M1' already exists for release '5.1' (use --update to update it)";
                EvRollback] |}).
Proof. reflexivity. Qed.

(** C2 at work: the example imported a second time without [--update]. *)
Lemma conflict_without_update_witness :
  well_formed help_document = true /\
  update plain = false /\
  find_plan imported_store (@plan_name_of sample_environment help_document)
  = Some {| plan_id := 1; plan_name := "OE-Core" |} /\
  @run sample_environment plain help_document imported_store =
  (Exit 1,
   {| db := imported_store;
      trace := [EvSetupDjango; EvSelect TMaintenancePlan; EvAtomicEnter;
                EvSelect TRelease;
                EvLog ERROR
                  "Release '5.1' already exists for plan 'OE-Core' (use --update to update it)";
                EvRollback] |}).
Proof.
  split; [reflexivity|]. split; [reflexivity|]. split; [reflexivity|].
  exact (proj1 (@conflict_without_update sample_environment plain help_document
                  imported_store {| plan_id := 1; plan_name := "OE-Core" |}
                  eq_refl eq_refl eq_refl)
           _ imported_release eq_refl eq_refl).
Defined.

(** C10 at work: the same second import with [--dry-run]. *)
Lemma dry_run_keeps_conflicts_witness :
  well_formed help_document = true /\
  dry_run with_dry_run = true /\
  update with_dry_run = false /\
  fst (@run sample_environment with_dry_run help_document imported_store) = Exit 1 /\
  fst (@run sample_environment with_dry_run help_document imported_store) <> Exit 0 /\
  db (snd (@run sample_environment with_dry_run help_document imported_store))
  = imported_store /\
  exists pre msg,
    trace (snd (@run sample_environment with_dry_run help_document imported_store))
    = (pre ++ [EvLog ERROR msg; EvRollback])%list.
Proof.
  split; [reflexivity|]. split; [reflexivity|]. split; [reflexivity|].
  refine (@dry_run_keeps_conflicts sample_environment with_dry_run help_document
            imported_store {| plan_id := 1; plan_name := "OE-Core" |}
            eq_refl eq_refl eq_refl eq_refl _).
  left. eexists. split; [exact imported_release|]. split; reflexivity.
Defined.

(** C1 at work: a dry run of the example on the fresh store. *)
Lemma dry_run_leaves_store_witness :
  well_formed help_document = true /\
  @all_dates_valid sample_environment help_document = true /\
  dry_run with_dry_run = true /\
  List.NoDup (@milestone_names sample_environment help_document) /\
  referential fresh_store /\
  exists evs,
    @run sample_environment with_dry_run help_document fresh_store =
    (Exit 0,
     {| db := fresh_store;
        trace := ([EvSetupDjango; EvSelect TMaintenancePlan; EvAtomicEnter]
                  ++ evs ++ [EvRollback]
                  ++ logged (loglevel with_dry_run) INFO "Dry run; changes not saved")%list |}).
Proof.
  assert (Href : referential fresh_store) by (intros m []).
  split; [reflexivity|]. split; [reflexivity|]. split; [reflexivity|].
  split; [exact sample_names_distinct|]. split; [exact Href|].
  exact (proj1 (@dry_run_leaves_store sample_environment with_dry_run help_document
                  fresh_store {| plan_id := 1; plan_name := "OE-Core" |}
                  eq_refl eq_refl eq_refl eq_refl
                  (or_intror (conj eq_refl (conj sample_names_distinct Href))))).
Defined.

(** C6 at work: the example imported, then imported again with
    [--update]. *)
Lemma reimport_with_update_witness :
  well_formed help_document = true /\
  @all_dates_valid sample_environment help_document = true /\
  keys_unique fresh_store /\
  @run sample_environment plain help_document fresh_store
  = (Exit 0, snd (@run sample_environment plain help_document fresh_store)) /\
  exists evs w2,
    @run sample_environment with_update help_document imported_store = (Exit 0, w2) /\
    trace w2 = ([EvSetupDjango; EvSelect TMaintenancePlan; EvAtomicEnter]
                ++ evs ++ [EvCommit])%list /\
    forallb (fun e => negb (is_insert e)) evs = true /\
    db w2 = imported_store.
Proof.
  assert (Hkeys : keys_unique fresh_store) by (split; constructor).
  split; [reflexivity|]. split; [reflexivity|]. split; [exact Hkeys|].
  split; [reflexivity|].
  destruct (@reimport_with_update sample_environment plain with_update help_document
              fresh_store (snd (@run sample_environment plain help_document fresh_store))
              eq_refl eq_refl Hkeys eq_refl eq_refl eq_refl eq_refl)
    as (evs & w2 & prow & row & Hrun & Htrace & Hnone & Hrest).
  exists evs, w2. split; [exact Hrun|]. split; [exact Htrace|]. split; [exact Hnone|].
  apply Hrest. exact sample_names_distinct.
Defined.

End importer_samples.

(** ** The page links the filter shows *)

Module paginator_links.
Import DjangoPaginator paginator page_links paginator_range.

Lemma In_range k a b : List.In k (range a b) <-> a <= k < b.
Proof.
  unfold range. rewrite in_map_iff. split.
  - intros (i & <- & Hi). apply in_seq in Hi. lia.
  - intros Hk. exists (Z.to_nat (k - a)). split; [lia|]. apply in_seq. lia.
Qed.

Lemma In_numbers k xs : List.In (PageNumber k) (numbers xs) <-> List.In k xs.
Proof.
  unfold numbers. rewrite in_map_iff. split.
  - intros (x & [= ->] & Hx). exact Hx.
  - intros Hk. now exists k.
Qed.

Lemma In_marker k : List.In (PageNumber k) [ELLIPSIS] <-> False.
Proof. simpl. split; [intros [|]; [discriminate | assumption] | intros []]. Qed.

Lemma length_range a b : length (range a b) = Z.to_nat (b - a).
Proof. unfold range. now rewrite length_map, length_seq. Qed.

Lemma length_numbers xs : length (numbers xs) = length xs.
Proof. apply length_map. Qed.

Lemma page_numbers_app l1 l2 :
  page_numbers (l1 ++ l2) = (page_numbers l1 ++ page_numbers l2)%list.
Proof.
  induction l1 as [|[n|] l1 IH]; simpl; [reflexivity | now rewrite IH | exact IH].
Qed.

Lemma page_numbers_numbers xs : page_numbers (numbers xs) = xs.
Proof. induction xs as [|x xs IH]; simpl; [reflexivity | now rewrite IH]. Qed.

Lemma range_sorted a b : StronglySorted Z.lt (range a b).
Proof.
  unfold range. generalize (Z.to_nat (b - a)) as n. intros n.
  generalize 0%nat as i. induction n as [|n IH]; intros i; simpl; constructor.
  - apply IH.
  - apply List.Forall_forall. intros x Hx. apply in_map_iff in Hx as (j & <- & Hj).
    apply in_seq in Hj. lia.
Qed.

Lemma sorted_app (l1 l2 : list Z) :
  StronglySorted Z.lt l1 -> StronglySorted Z.lt l2 ->
  (forall x y, List.In x l1 -> List.In y l2 -> x < y) ->
  StronglySorted Z.lt (l1 ++ l2).
Proof.
  intros H1 H2 H. induction H1 as [|x l1 H1 IH Hx]; simpl; [exact H2|].
  constructor.
  - apply IH. intros a b' Ha Hb. apply H; [now right | exact Hb].
  - apply List.Forall_app. split; [exact Hx|].
    apply List.Forall_forall. intros y Hy. apply H; [now left | exact Hy].
Qed.

Lemma range_first a b : a < b -> range a b = a :: range (a + 1) b.
Proof.
  intros Hab. unfold range.
  replace (Z.to_nat (b - a)) with (S (Z.to_nat (b - (a + 1)))) by lia.
  simpl. f_equal; [lia|]. rewrite <- seq_shift, map_map.
  apply map_ext. intros i. lia.
Qed.

Lemma range_last a b : a < b -> range a b = (range a (b - 1) ++ [b - 1])%list.
Proof.
  intros Hab. unfold range.
  replace (Z.to_nat (b - a)) with (Z.to_nat (b - 1 - a) + 1)%nat by lia.
  rewrite seq_app, List.map_app. simpl. do 2 f_equal. lia.
Qed.

Lemma numbers_app xs ys : numbers (xs ++ ys) = (numbers xs ++ numbers ys)%list.
Proof. apply List.map_app. Qed.

(** *** Lists in which every marker hides two pages *)

Lemma hides_two_nil : hides_two [].
Proof. intros [|x pre] post H; discriminate. Qed.

Lemma hides_two_number k l : hides_two l -> hides_two (PageNumber k :: l).
Proof.
  intros Hl [|x pre] post H; [discriminate|].
  injection H as <- H. destruct (Hl pre post H) as (pre' & a & b & post' & -> & -> & Hab).
  now exists (PageNumber k :: pre'), a, b, post'.
Qed.

Lemma hides_two_numbers xs l : hides_two l -> hides_two (numbers xs ++ l).
Proof.
  intros Hl. induction xs as [|x xs IH]; [exact Hl|]. now apply hides_two_number.
Qed.

Lemma hides_two_marker a b l :
  a + 3 <= b -> hides_two (PageNumber b :: l) ->
  hides_two (PageNumber a :: ELLIPSIS :: PageNumber b :: l).
Proof.
  intros Hab Hl [|x [|y pre]] post H; [discriminate | |].
  - injection H as <- <-. now exists [], a, b, l.
  - injection H as <- <- H.
    destruct (Hl pre post H) as (pre' & a' & b' & post' & -> & -> & Hab').
    now exists (PageNumber a :: ELLIPSIS :: pre'), a', b', post'.
Qed.

(** X1: page [k] is among what the filter yields for page [current] of
    [total] pages exactly when it is one of the pages 1 to [total] and
    there are at most 8 pages, or [k] is the first or the last page, or
    it is at most 3 away from the current page, or it lies between the
    current page and an end of the range that is at most 5 pages away
    from the current page. *)
Theorem elided_page_range_shown total current l k :
  elided_page_range (page_of total current) = Ok l ->
  (List.In (PageNumber k) l <->
   1 <= k <= total /\
   (total <= 8 \/ k = 1 \/ k = total \/ current - 3 <= k <= current + 3
    \/ (current <= 6 /\ k <= current) \/ (total - 5 <= current /\ current <= k))).
Proof.
  intros Hl. pose proof (elided_page_range_valid _ _ _ Hl) as Hvalid.
  destruct (Z.le_gt_cases total 8) as [Hshort|Hlong].
  - rewrite elided_page_range_short in Hl by lia. apply Ok_inj in Hl; subst l.
    rewrite In_numbers, In_range. lia.
  - rewrite elided_page_range_long in Hl by lia. apply Ok_inj in Hl; subst l.
    destruct (Z.gtb_spec current 6), (Z.ltb_spec current (total - 5));
      rewrite ?in_app_iff, ?In_marker, ?In_numbers, ?In_range; lia.
Qed.

(** X1 at work: page 4 is shown on page 7 of 13. *)
Lemma elided_page_range_shown_witness :
  elided_page_range (page_of 13 7) =
    Ok [PageNumber 1; ELLIPSIS; PageNumber 4; PageNumber 5; PageNumber 6; PageNumber 7;
        PageNumber 8; PageNumber 9; PageNumber 10; ELLIPSIS; PageNumber 13] /\
  (List.In (PageNumber 4)
     [PageNumber 1; ELLIPSIS; PageNumber 4; PageNumber 5; PageNumber 6; PageNumber 7;
      PageNumber 8; PageNumber 9; PageNumber 10; ELLIPSIS; PageNumber 13] <->
   1 <= 4 <= 13 /\
   (13 <= 8 \/ 4 = 1 \/ 4 = 13 \/ 7 - 3 <= 4 <= 7 + 3
    \/ (7 <= 6 /\ 4 <= 7) \/ (13 - 5 <= 7 /\ 7 <= 4))).
Proof.
  split; [reflexivity|].
  exact (elided_page_range_shown 13 7 _ 4 eq_refl).
Defined.

(** X2: the page numbers the filter yields are in strictly ascending
    order, so that no page is yielded twice. *)
Theorem elided_page_range_ascending total current l :
  elided_page_range (page_of total current) = Ok l ->
  StronglySorted Z.lt (page_numbers l).
Proof.
  intros Hl. pose proof (elided_page_range_valid _ _ _ Hl) as Hvalid.
  destruct (Z.le_gt_cases total 8) as [Hshort|Hlong].
  - rewrite elided_page_range_short in Hl by lia. apply Ok_inj in Hl; subst l.
    rewrite page_numbers_numbers. apply range_sorted.
  - rewrite elided_page_range_long in Hl by lia. apply Ok_inj in Hl; subst l.
    destruct (Z.gtb_spec current 6), (Z.ltb_spec current (total - 5));
      rewrite ?page_numbers_app; cbn [page_numbers app];
      rewrite ?page_numbers_app; cbn [page_numbers app];
      rewrite ?page_numbers_numbers;
      repeat (apply sorted_app; [try apply range_sorted | try apply range_sorted |
               intros x y; rewrite ?in_app_iff, ?In_range; lia]).
Qed.

(** X2 at work: page 2 of 20. *)
Lemma elided_page_range_ascending_witness :
  elided_page_range (page_of 20 2) =
    Ok [PageNumber 1; PageNumber 2; PageNumber 3; PageNumber 4; PageNumber 5;
        ELLIPSIS; PageNumber 20] /\
  StronglySorted Z.lt
    (page_numbers [PageNumber 1; PageNumber 2; PageNumber 3; PageNumber 4; PageNumber 5;
                   ELLIPSIS; PageNumber 20]).
Proof.
  split; [reflexivity|].
  exact (elided_page_range_ascending 20 2 _ eq_refl).
Defined.

(** X3: the filter never yields more than 11 items, whatever the number
    of pages is; with at most 8 pages it yields one item for each page. *)
Theorem elided_page_range_length total current l :
  elided_page_range (page_of total current) = Ok l ->
  (length l <= 11)%nat /\ (total <= 8 -> Z.of_nat (length l) = total).
Proof.
  intros Hl. pose proof (elided_page_range_valid _ _ _ Hl) as Hvalid.
  destruct (Z.le_gt_cases total 8) as [Hshort|Hlong].
  - rewrite elided_page_range_short in Hl by lia. apply Ok_inj in Hl; subst l.
    rewrite length_numbers, length_range. lia.
  - rewrite elided_page_range_long in Hl by lia. apply Ok_inj in Hl; subst l.
    split; [|lia].
    destruct (Z.gtb_spec current 6), (Z.ltb_spec current (total - 5));
      rewrite ?length_app; cbn [length];
      rewrite ?length_app; cbn [length];
      rewrite ?length_numbers, ?length_range; lia.
Qed.

(** X3 at work: page 500 of 1000. *)
Lemma elided_page_range_length_witness :
  exists l, elided_page_range (page_of 1000 500) = Ok l /\ (length l <= 11)%nat.
Proof.
  eexists. split; [reflexivity|].
  exact (proj1 (elided_page_range_length 1000 500 _ eq_refl)).
Defined.

(** X4: every elision marker the filter yields stands between two page
    numbers [a] and [b] with [a + 3 <= b]: a marker is never the first
    or the last item and it always hides at least two pages. *)
Theorem elided_page_range_hides_two total current l pre post :
  elided_page_range (page_of total current) = Ok l ->
  l = (pre ++ ELLIPSIS :: post)%list ->
  exists pre' a b post',
    pre = (pre' ++ [PageNumber a])%list /\ post = PageNumber b :: post' /\ a + 3 <= b.
Proof.
  intros Hl. revert pre post. change (hides_two l).
  pose proof (elided_page_range_valid _ _ _ Hl) as Hvalid.
  destruct (Z.le_gt_cases total 8) as [Hshort|Hlong].
  - rewrite elided_page_range_short in Hl by lia. apply Ok_inj in Hl; subst l.
    rewrite <- (app_nil_r (numbers _)). apply hides_two_numbers, hides_two_nil.
  - rewrite elided_page_range_long in Hl by lia. apply Ok_inj in Hl; subst l.
    assert (Htail : current < total - 5 ->
                    hides_two (numbers (range (current + 1) (current + 4)) ++ [ELLIPSIS]
                               ++ numbers (range total (total + 1)))).
    { intros Hlt. rewrite (range_last (current + 1) (current + 4)) by lia.
      rewrite (range_first total) by lia.
      rewrite numbers_app, <- app_assoc. apply hides_two_numbers. cbn [numbers map app].
      apply hides_two_marker; [lia|]. apply hides_two_number.
      rewrite <- (app_nil_r (map _ _)). apply hides_two_numbers, hides_two_nil. }
    assert (Hrest : hides_two (if current <? total - 5
                               then numbers (range (current + 1) (current + 4)) ++ [ELLIPSIS]
                                      ++ numbers (range total (total + 1))
                               else numbers (range (current + 1) (total + 1)))).
    { destruct (Z.ltb_spec current (total - 5)); [now apply Htail|].
      rewrite <- (app_nil_r (numbers _)). apply hides_two_numbers, hides_two_nil. }
    destruct (Z.gtb_spec current 6).
    + rewrite (range_first (current - 3)) by lia.
      change (numbers (range 1 2)) with [PageNumber 1].
      cbn [numbers map app]. apply hides_two_marker; [lia|].
      apply hides_two_number.
      apply (hides_two_numbers (range (current - 3 + 1) (current + 1))). exact Hrest.
    + apply hides_two_numbers. exact Hrest.
Qed.

(** X4 at work: the marker after page 4 on page 1 of 9. *)
Lemma elided_page_range_hides_two_witness :
  elided_page_range (page_of 9 1) =
    Ok ([PageNumber 1; PageNumber 2; PageNumber 3; PageNumber 4]
        ++ ELLIPSIS :: [PageNumber 9]) /\
  exists pre' a b post',
    [PageNumber 1; PageNumber 2; PageNumber 3; PageNumber 4]
      = (pre' ++ [PageNumber a])%list /\
    [PageNumber 9] = PageNumber b :: post' /\ a + 3 <= b.
Proof.
  split; [reflexivity|].
  exact (elided_page_range_hides_two 9 1 _
           [PageNumber 1; PageNumber 2; PageNumber 3; PageNumber 4] [PageNumber 9]
           eq_refl eq_refl).
Defined.

End paginator_links.

(** ** The query string of a page link *)

Module query_links.
Import Urllib DjangoHttp paginator page_links query_string more_samples.
Open Scope string_scope.

Lemma all_chars_app p x y : all_chars p (x ++ y) = all_chars p x && all_chars p y.
Proof.
  induction x as [|c x IH]; simpl; [reflexivity|]. now rewrite IH, andb_assoc.
Qed.

Lemma quote_plus_byte_chars c : all_chars query_char (quote_plus_byte c) = true.
Proof. each_byte c; reflexivity. Qed.

Lemma quote_plus_chars s : all_chars query_char (quote_plus s) = true.
Proof.
  rewrite quote_plus_bytes_eq. induction s as [|c s IH]; [reflexivity|].
  simpl. now rewrite all_chars_app, quote_plus_byte_chars, IH.
Qed.

Lemma urlencode_pair_chars k v : all_chars query_char (urlencode_pair k v) = true.
Proof.
  unfold urlencode_pair. now rewrite !all_chars_app, !quote_plus_chars.
Qed.

Lemma concat_chars p sep l :
  all_chars p sep = true -> List.Forall (fun x => all_chars p x = true) l ->
  all_chars p (String.concat sep l) = true.
Proof.
  intros Hsep Hl. induction Hl as [|x l Hx Hl IH]; [reflexivity|].
  destruct l as [|y l]; [exact Hx|].
  change (String.concat sep (x :: y :: l)) with (x ++ sep ++ String.concat sep (y :: l)).
  now rewrite !all_chars_app, Hx, Hsep, IH.
Qed.

Lemma urlencode_chars d : all_chars query_char (urlencode d) = true.
Proof.
  unfold urlencode. apply concat_chars; [reflexivity|].
  apply List.Forall_forall. intros x Hx. apply in_map_iff in Hx as ([k v] & <- & _).
  apply urlencode_pair_chars.
Qed.

(** X5: whatever the keys and the values of the request's query are,
    [page_url] returns a text made of unreserved characters, [%], [+],
    [?], [&] and [=] only: no space, quote, angle bracket or byte
    outside ASCII is left in it. *)
Theorem page_url_query_chars (h : heap) (request : HttpRequest) (q : QueryDict)
    (page : Z) :
  h !! GET request = Some q ->
  exists (url : string) (h' : heap),
    page_url request page h = (Ok url, h') /\
    all_chars query_char url = true.
Proof.
  intros Hq. eexists _, _. split; [apply (page_url_runs h request q page Hq)|].
  cbn [all_chars append]. apply urlencode_chars.
Qed.

(** X5 at work: a request for [?q=<a href="x">&page=1]. *)
Lemma page_url_query_chars_witness :
  let q := {| mutable := false;
              entries := [("q", ["<a href=" ++ String (ascii_of_nat 34) "x" ++
                                 String (ascii_of_nat 34) ">"]); ("page", ["1"])] |} in
  let h : heap := {[ 1%positive := q ]} in
  h !! 1%positive = Some q /\
  exists (url : string) (h' : heap),
    page_url {| GET := 1%positive |} 2 h = (Ok url, h') /\
    all_chars query_char url = true.
Proof.
  intros q h.
  assert (Hq : h !! 1%positive = Some q) by reflexivity.
  exact (conj Hq (page_url_query_chars h {| GET := 1%positive |} q 2 Hq)).
Defined.

(** *** Parsing what was written gives the dictionary back *)

Lemma dict_get_app_absent {V : Type} k (d1 d2 : list (string * V)) :
  ~ List.In k (map fst d1) -> dict_get k (d1 ++ d2) = dict_get k d2.
Proof.
  induction d1 as [|[k0 v0] d1 IH]; simpl; [reflexivity|].
  intros Hn. destruct (String.eqb_spec k k0) as [->|Hne]; [tauto|]. apply IH. tauto.
Qed.

Lemma dict_set_app_absent {V : Type} k (v : V) d1 d2 :
  ~ List.In k (map fst d1) -> dict_set k v (d1 ++ d2) = (d1 ++ dict_set k v d2)%list.
Proof.
  induction d1 as [|[k0 v0] d1 IH]; simpl; [reflexivity|].
  intros Hn. destruct (String.eqb_spec k k0) as [->|Hne]; [tauto|].
  rewrite IH by tauto. reflexivity.
Qed.

Lemma fold_appendlist_key k l acc l0 :
  ~ List.In k (map fst acc) ->
  fold_left (fun d kv => appendlist (fst kv) (snd kv) d)
            (map (fun v => (k, v)) l) (acc ++ [(k, l0)])%list
  = (acc ++ [(k, (l0 ++ l)%list)])%list.
Proof.
  intros Hk. revert l0. induction l as [|v l IH]; intros l0; simpl.
  - now rewrite app_nil_r.
  - unfold appendlist at 2, getlist. rewrite dict_get_app_absent by exact Hk.
    simpl. rewrite String.eqb_refl. rewrite dict_set_app_absent by exact Hk.
    simpl. rewrite String.eqb_refl. rewrite IH. now rewrite <- app_assoc.
Qed.

Lemma fold_appendlist_pairs d acc :
  List.NoDup (map fst (acc ++ d)) -> no_empty_list d ->
  fold_left (fun d kv => appendlist (fst kv) (snd kv) d) (pairs d) acc = (acc ++ d)%list.
Proof.
  revert acc. induction d as [|[k l] d IH]; intros acc Hnd Hne; simpl.
  - now rewrite app_nil_r.
  - inversion Hne as [|? ? Hl Hne']; subst. simpl in Hl.
    destruct l as [|v l]; [congruence|].
    unfold pairs. simpl flat_map. fold (pairs d).
    rewrite List.map_app in Hnd. simpl in Hnd.
    assert (Hk : ~ List.In k (map fst acc)).
    { intros Hin. apply NoDup_remove_2 in Hnd. apply Hnd. apply in_app_iff. now left. }
    assert (Hfirst : appendlist k v acc = (acc ++ [(k, [v])])%list).
    { unfold appendlist, getlist. rewrite (dict_get_absent k acc Hk). simpl.
      rewrite <- (app_nil_r acc) at 1. now rewrite dict_set_app_absent by exact Hk. }
    cbn [map app fold_left fst snd]. rewrite Hfirst.
    rewrite fold_left_app, fold_appendlist_key by exact Hk. cbn [app].
    rewrite IH; [now rewrite <- app_assoc| |exact Hne'].
    rewrite <- app_assoc. simpl. now rewrite List.map_app.
Qed.

(** A dictionary as [QueryDict] builds them is read back whole from the
    query string [urlencode] writes for it. *)
Lemma parse_urlencode d :
  List.NoDup (map fst d) -> no_empty_list d -> QueryDict_parse (urlencode d) = d.
Proof.
  intros Hnd Hne. unfold QueryDict_parse. rewrite parse_qsl_urlencode.
  now apply (fold_appendlist_pairs d []).
Qed.

Lemma dict_set_no_empty_list k (l : list string) d :
  l <> [] -> no_empty_list d -> no_empty_list (dict_set k l d).
Proof.
  intros Hl Hd. induction Hd as [|[k0 l0] d Hx Hd IH]; simpl.
  - constructor; [exact Hl | constructor].
  - destruct (String.eqb k k0); constructor; assumption.
Qed.

Lemma appendlist_normal k v d :
  List.NoDup (map fst d) /\ no_empty_list d ->
  List.NoDup (map fst (appendlist k v d)) /\ no_empty_list (appendlist k v d).
Proof.
  intros [Hnd Hne]. unfold appendlist. split.
  - now apply dict_set_NoDup.
  - apply dict_set_no_empty_list; [|exact Hne]. now destruct (getlist k d).
Qed.

(** What [QueryDict] builds from a query string has distinct keys and
    no key without a value. *)
Lemma parse_normal qs :
  List.NoDup (map fst (QueryDict_parse qs)) /\ no_empty_list (QueryDict_parse qs).
Proof.
  unfold QueryDict_parse. generalize (parse_qsl qs true). intros ps.
  assert (Hnil : List.NoDup (map fst (@nil (string * list string))) /\ no_empty_list [])
    by (split; constructor).
  revert Hnil. generalize (@nil (string * list string)).
  induction ps as [|[k v] ps IH]; intros acc Hacc; simpl; [exact Hacc|].
  apply IH. now apply appendlist_normal.
Qed.

Lemma dict_set_twice {V : Type} k (v v' : V) d :
  dict_set k v (dict_set k v' d) = dict_set k v d.
Proof.
  induction d as [|[k0 v0] d IH]; simpl.
  - now rewrite String.eqb_refl.
  - destruct (String.eqb_spec k k0) as [->|Hne]; simpl.
    + now rewrite String.eqb_refl.
    + destruct (String.eqb_spec k k0); [congruence|]. now rewrite IH.
Qed.

(** X6: page links are stable under navigation.  Take a request whose
    [GET] dictionary was parsed from a query string, and the request made
    by following the link [page_url] gives for page [n]: for every page
    [m] the tag returns the same link on both, with the same parameters
    in the same order. *)
Theorem page_url_links_stable (h1 h2 : heap) (request1 request2 : HttpRequest)
    (q1 q2 : QueryDict) (query query' : string) (n m : Z) :
  h1 !! GET request1 = Some q1 -> entries q1 = QueryDict_parse query ->
  fst (page_url request1 n h1) = Ok ("?" ++ query') ->
  h2 !! GET request2 = Some q2 -> entries q2 = QueryDict_parse query' ->
  fst (page_url request2 m h2) = fst (page_url request1 m h1).
Proof.
  intros Hq1 He1 Hurl Hq2 He2.
  assert (Hquery : query' = urlencode (dict_set "page" [str_of_int n] (entries q1))).
  { rewrite (page_url_runs h1 request1 q1 n Hq1) in Hurl. cbn [fst] in Hurl.
    apply Ok_inj in Hurl. now injection Hurl. }
  subst query'. clear Hurl.
  rewrite (page_url_runs h1 request1 q1 m Hq1), (page_url_runs h2 request2 q2 m Hq2).
  cbn [fst]. rewrite He2.
  destruct (parse_normal query) as [Hnd Hne]. rewrite <- He1 in Hnd, Hne.
  rewrite parse_urlencode.
  - now rewrite dict_set_twice.
  - now apply dict_set_NoDup.
  - apply dict_set_no_empty_list; [discriminate | exact Hne].
Qed.

(** X6 at work: from [?a=1&a=2&q=x+y] to its page 2, and the link to
    page 5 on both. *)
Lemma page_url_links_stable_witness :
  fst (page_url the_request 2 first_heap) = Ok ("?" ++ "a=1&a=2&q=x+y&page=2") /\
  fst (page_url the_request 5 second_heap) = fst (page_url the_request 5 first_heap).
Proof.
  assert (Hurl : fst (page_url the_request 2 first_heap)
                 = Ok ("?" ++ "a=1&a=2&q=x+y&page=2")) by (vm_compute; reflexivity).
  split; [exact Hurl|].
  exact (page_url_links_stable first_heap second_heap the_request the_request
           first_query second_query "a=1&a=2&q=x+y" "a=1&a=2&q=x+y&page=2" 2 5
           eq_refl eq_refl Hurl eq_refl eq_refl).
Defined.

End query_links.

(** ** The importer: a logic of its commands *)

Module hoare.
Import DjangoDb create_release importer_logic commands validation.
Open Scope string_scope.

Lemma triple_ret {A : Type} (a : A) (P : World -> Prop) Q E :
  (forall w, P w -> Q a w) -> triple P (ret a) Q E.
Proof. intros H w Hw. now apply H. Qed.

Lemma triple_raise {A : Type} e (P : World -> Prop) (Q : A -> World -> Prop) E :
  (forall w, P w -> E e w) -> triple P (raise e) Q E.
Proof. intros H w Hw. now apply H. Qed.

Lemma triple_lift {A : Type} (r : result A) (P : World -> Prop) Q E :
  (forall w, P w -> match r with Ok a => Q a w | Raise e => E e w end) ->
  triple P (lift r) Q E.
Proof. intros H w Hw. specialize (H w Hw). unfold lift. now destruct r. Qed.

Lemma triple_emit e (P : World -> Prop) Q E :
  (forall w, P w -> Q tt {| db := db w; trace := trace w ++ [e] |}) ->
  triple P (emit e) Q E.
Proof. intros H w Hw. now apply H. Qed.

Lemma triple_get_db (P : World -> Prop) Q E :
  (forall w, P w -> Q (db w) w) -> triple P get_db Q E.
Proof. intros H w Hw. now apply H. Qed.

Lemma triple_put_db s (P : World -> Prop) Q E :
  (forall w, P w -> Q tt {| db := s; trace := trace w |}) ->
  triple P (put_db s) Q E.
Proof. intros H w Hw. now apply H. Qed.

Lemma triple_bind {A B : Type} (c : M A) (k : A -> M B) (P : World -> Prop) R Q E :
  triple P c R E -> (forall a, triple (R a) (k a) Q E) -> triple P (bind c k) Q E.
Proof.
  intros Hc Hk w Hw. specialize (Hc w Hw). unfold bind.
  destruct (c w) as [[a|e] w']; [now apply Hk | exact Hc].
Qed.

Lemma triple_bind_lift {A B : Type} (r : result A) (k : A -> M B)
    (P : World -> Prop) Q E :
  (forall a, r = Ok a -> triple P (k a) Q E) ->
  (forall e w, r = Raise e -> P w -> E e w) ->
  triple P (bind (lift r) k) Q E.
Proof.
  intros Hk He w Hw. unfold bind, lift. destruct r as [a|e].
  - now apply Hk.
  - now apply He.
Qed.

Lemma triple_pure {A : Type} (c : M A) (fact : Prop) (P : World -> Prop) Q E :
  (fact -> triple P c Q E) -> triple (fun w => fact /\ P w) c Q E.
Proof. intros Hc w [Hf Hw]. now apply Hc. Qed.

Lemma triple_weaken {A : Type} (c : M A) (P P' : World -> Prop) Q Q' E E' :
  triple P' c Q' E' ->
  (forall w, P w -> P' w) ->
  (forall a w, Q' a w -> Q a w) ->
  (forall e w, E' e w -> E e w) ->
  triple P c Q E.
Proof.
  intros Hc HP HQ HE w Hw. specialize (Hc w (HP w Hw)).
  destruct (c w) as [[a|e] w']; [now apply HQ | now apply HE].
Qed.

Lemma triple_for_each {A : Type} (l : list A) (body : A -> M unit)
    (I : World -> Prop) E :
  (forall x, List.In x l -> triple I (body x) (fun _ => I) E) ->
  triple I (for_each l body) (fun _ => I) E.
Proof.
  induction l as [|x l IH]; intros Hbody; simpl.
  - now apply triple_ret.
  - eapply triple_bind; [apply Hbody; now left|]. intros ?.
    apply IH. intros y Hy. apply Hbody. now right.
Qed.

Lemma triple_logger lvl level msg (P : World -> Prop) Q E :
  (forall w, P w -> Q tt w) ->
  (forall w, P w -> Q tt {| db := db w; trace := trace w ++ [EvLog level msg] |}) ->
  triple P (logger_log lvl level msg) Q E.
Proof.
  intros H1 H2. unfold logger_log. destruct (level >=? lvl)%Z.
  - now apply triple_emit.
  - now apply triple_ret.
Qed.

(** [atomic]: the block runs from a store [s0]; what it wrote is kept
    when it returns and [s0] is back when it raises. *)
Lemma triple_atomic {A : Type} (body : M A) s0 (P : World -> Prop) Q' E' Q E :
  (forall w, P w -> db w = s0) ->
  triple P (emit EvAtomicEnter ;;; body) Q' E' ->
  (forall a w, Q' a w -> Q a {| db := db w; trace := trace w ++ [EvCommit] |}) ->
  (forall e w, E' e w -> E e {| db := s0; trace := trace w ++ [EvRollback] |}) ->
  triple P (atomic body) Q E.
Proof.
  intros Hs0 Hbody HQ HE w Hw. specialize (Hbody w Hw). unfold atomic.
  destruct ((emit EvAtomicEnter ;;; body) w) as [[a|e] w'].
  - now apply HQ.
  - rewrite (Hs0 w Hw). now apply HE.
Qed.

Lemma triple_try_except {A : Type} (body : M A) handler (P : World -> Prop) Q E' E :
  triple P body Q E' ->
  (forall e, match handler e with
             | Some h => triple (E' e) h Q E
             | None => forall w, E' e w -> E e w
             end) ->
  triple P (try_except body handler) Q E.
Proof.
  intros Hbody Hh w Hw. specialize (Hbody w Hw). unfold try_except.
  destruct (body w) as [[a|e] w']; [exact Hbody|].
  specialize (Hh e). destruct (handler e) as [h|]; [now apply Hh | now apply Hh].
Qed.

(** Whatever a command does satisfies the trivial postconditions. *)
Lemma triple_any {A : Type} (c : M A) (P : World -> Prop) :
  triple P c (fun _ _ => True) (fun _ _ => True).
Proof. intros w _. now destruct (c w) as [[a|e] w']. Qed.

Lemma triple_store_free {A : Type} (c : M A) s0 :
  store_free c ->
  triple (fun w => db w = s0) c (fun _ w => db w = s0)
         (fun e w => db w = s0 /\ exception_status e = 1).
Proof.
  intros Hc [s t] Hw. simpl in Hw. subst s.
  destruct (Hc s0 t) as (r & evs & Hrun & _ & Hexc). unfold runs in Hrun.
  rewrite Hrun. destruct r as [a|e]; [reflexivity|]. split; [reflexivity | now apply Hexc].
Qed.

End hoare.

(** ** The importer: how every run ends *)

Module importer_outcomes.
Import DjangoDb create_release importer_logic commands validation hoare.
Open Scope string_scope.

Section outcomes.
Context `{Environment}.

Lemma triple_plan_filter name s0 E :
  triple (fun w => db w = s0) (MaintenancePlan_filter_first name)
         (fun _ w => db w = s0) E.
Proof. intros w Hw. exact Hw. Qed.

Lemma triple_plan_names s0 E :
  triple (fun w => db w = s0) MaintenancePlan_values_list_name
         (fun _ w => db w = s0) E.
Proof. intros w Hw. exact Hw. Qed.

(** The block under [atomic] returns only when no dry run was asked. *)
Lemma upsert_returns args lvl maintplan pname rname reldata milestones
    (P : World -> Prop) :
  triple P (upsert args lvl maintplan pname rname reldata milestones)
         (fun _ _ => dry_run args = false) (fun _ _ => True).
Proof.
  unfold upsert.
  eapply triple_bind; [apply triple_any|]. intros release.
  eapply triple_bind; [apply triple_any|]. intros items.
  eapply triple_bind; [apply triple_any|]. intros ?.
  destruct (dry_run args); [now apply triple_raise | now apply triple_ret].
Qed.

Lemma transaction_keeps_or_commits args lvl maintplan pname rname reldata milestones s0 :
  triple (fun w => db w = s0)
         (transaction args lvl maintplan pname rname reldata milestones)
         (fun _ w => db w = s0 \/ dry_run args = false)
         (fun _ w => db w = s0).
Proof.
  unfold transaction.
  eapply triple_try_except with (E' := fun _ w => db w = s0).
  - eapply (triple_atomic _ s0); [now intros w Hw | | |].
    + eapply triple_bind with (R := fun _ w => db w = s0);
        [apply triple_emit; intros w Hw; exact Hw|]. intros ?.
      apply upsert_returns.
    + intros ? w Hdry. now right.
    + intros e w Hw. reflexivity.
  - intros e. destruct e; simpl; try (intros w Hw; exact Hw).
    apply triple_logger; intros w Hw; left; exact Hw.
Qed.

Lemma main_keeps_or_commits args data s0 :
  triple (fun w => db w = s0) (main args data)
         (fun _ _ => False)
         (fun e w => db w = s0 \/ (e = SystemExit 0 /\ dry_run args = false)).
Proof.
  unfold main.
  eapply triple_bind.
  { eapply triple_weaken; [apply (triple_store_free _ s0), store_free_validate | | |].
    - intros w Hw. exact Hw.
    - intros ? w Hw. exact Hw.
    - intros e w [Hw _]. now left. }
  intros checked. cbv zeta.
  eapply triple_bind with (R := fun _ w => db w = s0);
    [apply triple_emit; intros w Hw; exact Hw|]. intros ?.
  eapply triple_bind with (R := fun _ w => db w = s0).
  { apply triple_lift. intros w Hw. destruct (py_getitem _ _); [exact Hw | now left]. }
  intros plan.
  eapply triple_bind; [apply triple_plan_filter|]. intros [maintplan|].
  - eapply triple_bind with (R := fun _ w => db w = s0).
    { apply triple_lift. intros w Hw. destruct (py_getitem _ _); [exact Hw | now left]. }
    intros name.
    eapply triple_bind.
    { eapply triple_weaken; [apply (transaction_keeps_or_commits _ _ _ _ _ _ _ s0) | | |].
      - intros w Hw. exact Hw.
      - intros ? w Hw. exact Hw.
      - intros e w Hw. now left. }
    intros ?. apply triple_raise. intros w [Hw|Hdry]; [now left | now right].
  - eapply triple_bind; [apply triple_plan_names|]. intros names.
    eapply triple_bind with (R := fun _ w => db w = s0);
      [apply triple_logger; intros w Hw; exact Hw|]. intros ?.
    apply triple_raise. intros w Hw. now left.
Qed.

(** X7: all or nothing.  Whatever the options, the document and the
    store are, a run either leaves the store exactly as it was or it
    ends with exit code 0 and was no dry run.  So a run that fails in
    any way (an error message, a document of the wrong shape, a date the
    column refuses) and every dry run write nothing. *)
Theorem run_all_or_nothing args data s :
  db (snd (run args data s)) = s \/
  (fst (run args data s) = Exit 0 /\ dry_run args = false).
Proof.
  pose proof (main_keeps_or_commits args data s {| db := s; trace := [] |} eq_refl)
    as Hmain.
  unfold run. destruct (main args data _) as [[a|e] w]; [contradiction|].
  destruct Hmain as [Hdb|[-> Hdry]].
  - left. now destruct e.
  - right. now split.
Qed.

(** *** Exit status *)

Lemma status_one_bind {A B : Type} (c : M A) (k : A -> M B) :
  status_one c -> (forall a, status_one (k a)) -> status_one (bind c k).
Proof. intros Hc Hk. eapply triple_bind; [exact Hc | exact Hk]. Qed.

Lemma status_one_lift {A : Type} (r : result A) :
  (forall e, r = Raise e -> exception_status e = 1) -> status_one (lift r).
Proof.
  intros Hr. apply triple_lift. intros w _. destruct r; [exact I | now apply Hr].
Qed.

Lemma status_one_for_each {A : Type} (l : list A) (body : A -> M unit) :
  (forall x, status_one (body x)) -> status_one (for_each l body).
Proof. intros Hbody. apply triple_for_each. intros x _. apply Hbody. Qed.

Lemma status_one_store_free {A : Type} (c : M A) : store_free c -> status_one c.
Proof.
  intros Hc w _. pose proof (triple_store_free c (db w) Hc w eq_refl) as Hw.
  destruct (c w) as [[a|e] w']; [exact I | apply Hw].
Qed.

Lemma status_one_atomic {A : Type} (body : M A) :
  status_one body -> status_one (atomic body).
Proof.
  intros Hbody w _. unfold atomic, bind, emit.
  specialize (Hbody {| db := db w; trace := trace w ++ [EvAtomicEnter] |} I).
  now destruct (body _) as [[a|e] w'].
Qed.

Lemma DateField_status v e :
  DateField_get_prep_value v = Raise e -> exception_status e = 1.
Proof.
  destruct v; simpl; try discriminate; try (intros [= <-]; reflexivity).
  destruct (parse_date s); [discriminate | intros [= <-]; reflexivity].
Qed.

Lemma not_null_status d e : not_null d = Raise e -> exception_status e = 1.
Proof. destruct d; simpl; [discriminate | intros [= <-]; reflexivity]. Qed.

Ltac status_one_leaf :=
  first [ apply triple_ret; intros; exact I
        | apply triple_raise; intros; reflexivity
        | apply triple_emit; intros; exact I
        | apply triple_get_db; intros; exact I
        | apply triple_put_db; intros; exact I
        | apply triple_logger; intros; exact I
        | apply status_one_lift;
          first [apply py_getitem_status | apply py_iter_status | apply DateField_status
                 | apply not_null_status] ].

Ltac status_one_walk :=
  repeat first
    [ status_one_leaf
    | apply status_one_bind; [|intros ?]
    | match goal with
      | |- status_one (if ?b then _ else _) => destruct b
      | |- status_one (match ?x with Some _ => _ | None => _ end) => destruct x
      end ].

Lemma status_one_upsert args lvl maintplan pname rname reldata milestones :
  status_one (upsert args lvl maintplan pname rname reldata milestones).
Proof.
  unfold upsert, upsert_release, Release_filter_first, Release_save, Release_create,
    str_release, logger_info, logger_error, sys_exit.
  apply status_one_bind; [status_one_walk|]. intros release.
  apply status_one_bind; [status_one_walk|]. intros items.
  apply status_one_bind.
  - apply status_one_for_each. intros ms.
    unfold upsert_milestone, Milestone_filter_first, Milestone_save, Milestone_create,
      str_release, str_milestone, logger_info, logger_error, sys_exit.
    status_one_walk.
  - intros ?. status_one_walk.
Qed.

Lemma status_one_transaction args lvl maintplan pname rname reldata milestones :
  status_one (transaction args lvl maintplan pname rname reldata milestones).
Proof.
  unfold transaction.
  eapply triple_try_except; [apply status_one_atomic, status_one_upsert|].
  intros e. destruct e; simpl; try (intros w Hw; exact Hw).
  apply triple_logger; intros; exact I.
Qed.

Lemma main_status args data :
  triple (fun _ => True) (main args data) (fun _ _ => True)
         (fun e _ => exception_status e = 0 \/ exception_status e = 1).
Proof.
  unfold main.
  eapply triple_bind with (R := fun _ _ => True).
  { eapply triple_weaken; [apply status_one_store_free, store_free_validate | | |]; auto. }
  intros checked. cbv zeta.
  unfold MaintenancePlan_filter_first, MaintenancePlan_values_list_name,
    logger_error, sys_exit.
  repeat first
    [ apply triple_emit; intros; exact I
    | apply triple_get_db; intros; exact I
    | apply triple_ret; intros; exact I
    | apply triple_logger; intros; exact I
    | apply triple_raise; intros; auto
    | apply triple_lift; intros w _;
      match goal with |- match ?r with _ => _ end =>
        let E := fresh in
        destruct r eqn:E; [exact I | right; now apply py_getitem_status in E]
      end
    | eapply triple_weaken; [apply status_one_transaction | | |]; now auto
    | eapply triple_bind with (R := fun _ _ => True); [|intros ?]
    | match goal with
      | |- triple _ (match ?x with Some _ => _ | None => _ end) _ _ => destruct x
      end ].
Qed.

(** X8: whatever the options, the document and the store are, the
    process ends with status 0 or status 1: [sys.exit] is only called
    with 0 or 1, and any exception that reaches the interpreter gives
    status 1. *)
Theorem exit_status_zero_or_one args data s :
  exit_status (fst (run args data s)) = 0 \/ exit_status (fst (run args data s)) = 1.
Proof.
  pose proof (main_status args data {| db := s; trace := [] |} I) as Hmain.
  unfold run. destruct (main args data _) as [[a|e] w]; [now left|].
  destruct e; simpl in *; auto.
Qed.

End outcomes.

End importer_outcomes.

(** ** The importer: what the options change *)

Module importer_flags.
Import DjangoDb create_release importer_logic samples.
Open Scope string_scope.

Lemma sim_ret {A : Type} (a : A) : sim (ret a) (ret a).
Proof. intros w1 w2 Hw. now split. Qed.

Lemma sim_raise {A : Type} e : sim (@raise A e) (raise e).
Proof. intros w1 w2 Hw. now split. Qed.

Lemma sim_lift {A : Type} (r : result A) : sim (lift r) (lift r).
Proof. intros w1 w2 Hw. now split. Qed.

Lemma sim_emit e1 e2 : sim (emit e1) (emit e2).
Proof. intros w1 w2 Hw. now split. Qed.

Lemma sim_get_db : sim get_db get_db.
Proof. intros w1 w2 Hw. simpl. now rewrite Hw. Qed.

Lemma sim_put_db s : sim (put_db s) (put_db s).
Proof. intros w1 w2 Hw. now split. Qed.

(** A logger call changes neither the result nor the store, whatever
    the logger's level is. *)
Lemma sim_logger lvl1 lvl2 level msg :
  sim (logger_log lvl1 level msg) (logger_log lvl2 level msg).
Proof.
  intros w1 w2 Hw. unfold logger_log.
  destruct (level >=? lvl1)%Z, (level >=? lvl2)%Z; now split.
Qed.

Lemma sim_bind {A B : Type} (c1 c2 : M A) (k1 k2 : A -> M B) :
  sim c1 c2 -> (forall a, sim (k1 a) (k2 a)) -> sim (bind c1 k1) (bind c2 k2).
Proof.
  intros Hc Hk w1 w2 Hw. destruct (Hc w1 w2 Hw) as [Hr Hdb]. unfold bind.
  destruct (c1 w1) as [r1 w1'], (c2 w2) as [r2 w2']. simpl in Hr, Hdb. subst r2.
  destruct r1 as [a|e]; [now apply Hk | now split].
Qed.

Lemma sim_for_each {A : Type} (l : list A) (b1 b2 : A -> M unit) :
  (forall x, sim (b1 x) (b2 x)) -> sim (for_each l b1) (for_each l b2).
Proof.
  intros Hb. induction l as [|x l IH]; simpl; [apply sim_ret|].
  apply sim_bind; [apply Hb | intros _; exact IH].
Qed.

Lemma sim_for_each_enumerate {A : Type} (l : list A) i (b1 b2 : Z -> A -> M unit) :
  (forall j x, sim (b1 j x) (b2 j x)) ->
  sim (for_each_enumerate i l b1) (for_each_enumerate i l b2).
Proof.
  intros Hb. revert i. induction l as [|x l IH]; intros i; simpl; [apply sim_ret|].
  apply sim_bind; [apply Hb | intros _; apply IH].
Qed.

Lemma sim_atomic {A : Type} (b1 b2 : M A) : sim b1 b2 -> sim (atomic b1) (atomic b2).
Proof.
  intros Hb w1 w2 Hw. unfold atomic, bind, emit.
  destruct (Hb {| db := db w1; trace := trace w1 ++ [EvAtomicEnter] |}
               {| db := db w2; trace := trace w2 ++ [EvAtomicEnter] |} Hw) as [Hr Hdb].
  destruct (b1 _) as [r1 w1'], (b2 _) as [r2 w2']. simpl in Hr, Hdb. subst r2.
  destruct r1 as [a|e]; now split.
Qed.

Lemma same_result_bind {A B : Type} (c1 c2 : M A) (k1 k2 : A -> M B) :
  sim c1 c2 -> (forall a, same_result (k1 a) (k2 a)) ->
  same_result (bind c1 k1) (bind c2 k2).
Proof.
  intros Hc Hk w1 w2 Hw. destruct (Hc w1 w2 Hw) as [Hr Hdb]. unfold bind.
  destruct (c1 w1) as [r1 w1'], (c2 w2) as [r2 w2']. simpl in Hr, Hdb. subst r2.
  destruct r1 as [a|e]; [now apply Hk | reflexivity].
Qed.

Lemma rehearsal_bind {A : Type} (c1 c2 : M A) (k1 k2 : A -> M unit) :
  sim c1 c2 -> (forall a, rehearsal (k1 a) (k2 a)) ->
  rehearsal (bind c1 k1) (bind c2 k2).
Proof.
  intros Hc Hk w1 w2 Hw. destruct (Hc w1 w2 Hw) as [Hr Hdb]. unfold bind.
  destruct (c1 w1) as [r1 w1'], (c2 w2) as [r2 w2']. simpl in Hr, Hdb. subst r2.
  destruct r1 as [a|e]; [now apply Hk | now left].
Qed.

Lemma sim_same_result {A : Type} (c1 c2 : M A) : sim c1 c2 -> same_result c1 c2.
Proof. intros Hc w1 w2 Hw. apply (Hc w1 w2 Hw). Qed.

Ltac sim_walk :=
  repeat first
    [ apply sim_ret | apply sim_raise | apply sim_lift | apply sim_emit
    | apply sim_get_db | apply sim_put_db | apply sim_logger
    | apply sim_for_each; intros ?
    | apply sim_for_each_enumerate; intros ? ?
    | apply sim_bind; [|intros ?]
    | match goal with
      | |- sim (if ?b then _ else _) (if ?b then _ else _) => destruct b
      | |- sim (match ?x with Some _ => _ | None => _ end)
               (match ?x with Some _ => _ | None => _ end) => destruct x
      end ].

Section flags.
Context `{Environment}.

Lemma sim_validate lvl1 lvl2 data : sim (validate lvl1 data) (validate lvl2 data).
Proof. unfold validate, logger_error, sys_exit. sim_walk. Qed.

Lemma sim_upsert_release args1 args2 lvl1 lvl2 maintplan pname rname reldata :
  update args1 = update args2 ->
  sim (upsert_release args1 lvl1 maintplan pname rname reldata)
      (upsert_release args2 lvl2 maintplan pname rname reldata).
Proof.
  intros Hu.
  unfold upsert_release, Release_filter_first, Release_save, Release_create,
    str_release, logger_info, logger_error, sys_exit.
  rewrite Hu. sim_walk.
Qed.

Lemma sim_upsert_milestone args1 args2 lvl1 lvl2 release ms :
  update args1 = update args2 ->
  sim (upsert_milestone args1 lvl1 release ms) (upsert_milestone args2 lvl2 release ms).
Proof.
  intros Hu.
  unfold upsert_milestone, Milestone_filter_first, Milestone_save, Milestone_create,
    str_release, str_milestone, logger_info, logger_error, sys_exit.
  rewrite Hu. sim_walk.
Qed.

(** The blocks of two runs that agree on [--update] end alike, up to the
    [raise] of the dry run at their end. *)
Lemma rehearsal_upsert args1 args2 lvl1 lvl2 maintplan pname rname reldata milestones :
  update args1 = update args2 ->
  rehearsal (upsert args1 lvl1 maintplan pname rname reldata milestones)
            (upsert args2 lvl2 maintplan pname rname reldata milestones).
Proof.
  intros Hu. unfold upsert.
  apply rehearsal_bind; [now apply sim_upsert_release|]. intros release.
  apply rehearsal_bind; [apply sim_lift|]. intros items.
  apply rehearsal_bind; [apply sim_for_each; intros ms; now apply sim_upsert_milestone|].
  intros _ w1 w2 Hw. destruct (dry_run args1), (dry_run args2); simpl; auto.
Qed.

Lemma sim_upsert args1 args2 lvl1 lvl2 maintplan pname rname reldata milestones :
  update args1 = update args2 -> dry_run args1 = dry_run args2 ->
  sim (upsert args1 lvl1 maintplan pname rname reldata milestones)
      (upsert args2 lvl2 maintplan pname rname reldata milestones).
Proof.
  intros Hu Hd. unfold upsert. rewrite Hd.
  apply sim_bind; [now apply sim_upsert_release|]. intros release.
  apply sim_bind; [apply sim_lift|]. intros items.
  apply sim_bind; [apply sim_for_each; intros ms; now apply sim_upsert_milestone|].
  intros _. sim_walk.
Qed.

Lemma same_result_transaction args1 args2 lvl1 lvl2 maintplan pname rname
    reldata milestones :
  update args1 = update args2 ->
  same_result (transaction args1 lvl1 maintplan pname rname reldata milestones)
              (transaction args2 lvl2 maintplan pname rname reldata milestones).
Proof.
  intros Hu w1 w2 Hw. unfold transaction, try_except, atomic, bind, emit.
  pose proof (rehearsal_upsert args1 args2 lvl1 lvl2 maintplan pname rname reldata
                milestones Hu
                {| db := db w1; trace := trace w1 ++ [EvAtomicEnter] |}
                {| db := db w2; trace := trace w2 ++ [EvAtomicEnter] |} Hw) as Hr.
  destruct (upsert args1 _ _ _ _ _ _ _) as [r1 w1'], (upsert args2 _ _ _ _ _ _ _) as [r2 w2'].
  simpl in Hr.
  destruct Hr as [<-|[[-> ->]|[-> ->]]]; [destruct r1 as [[]|[]]| |];
    simpl; unfold logger_info, logger_log;
    destruct (INFO >=? lvl1)%Z, (INFO >=? lvl2)%Z; reflexivity.
Qed.

Lemma sim_transaction args1 args2 lvl1 lvl2 maintplan pname rname reldata milestones :
  update args1 = update args2 -> dry_run args1 = dry_run args2 ->
  sim (transaction args1 lvl1 maintplan pname rname reldata milestones)
      (transaction args2 lvl2 maintplan pname rname reldata milestones).
Proof.
  intros Hu Hd w1 w2 Hw. unfold transaction, try_except.
  destruct (sim_atomic _ _ (sim_upsert args1 args2 lvl1 lvl2 maintplan pname rname reldata
                              milestones Hu Hd) w1 w2 Hw) as [Hr Hdb].
  destruct (atomic _ w1) as [r1 w1'], (atomic _ w2) as [r2 w2']. simpl in Hr, Hdb. subst r2.
  destruct r1 as [a|e]; [now split|].
  destruct e; simpl; try now split.
  now apply sim_logger.
Qed.

Lemma same_result_main args1 args2 data :
  update args1 = update args2 -> same_result (main args1 data) (main args2 data).
Proof.
  intros Hu. unfold main.
  apply same_result_bind; [apply sim_validate|]. intros checked. cbv zeta.
  apply same_result_bind; [apply sim_emit|]. intros ?.
  apply same_result_bind; [apply sim_lift|]. intros plan.
  apply same_result_bind.
  { unfold MaintenancePlan_filter_first. sim_walk. }
  intros [maintplan|].
  - apply same_result_bind; [apply sim_lift|]. intros name.
    intros w1 w2 Hw. unfold bind.
    pose proof (same_result_transaction args1 args2 (loglevel args1) (loglevel args2)
                  maintplan (py_str plan) (py_str name) (fst checked) (snd checked) Hu
                  w1 w2 Hw) as Hr.
    destruct (transaction args1 _ _ _ _ _ _ w1) as [r1 w1'],
             (transaction args2 _ _ _ _ _ _ w2) as [r2 w2'].
    simpl in Hr. subst r2. now destruct r1.
  - apply sim_same_result.
    unfold MaintenancePlan_values_list_name, logger_error, sys_exit. sim_walk.
Qed.

Lemma sim_main args1 args2 data :
  update args1 = update args2 -> dry_run args1 = dry_run args2 ->
  sim (main args1 data) (main args2 data).
Proof.
  intros Hu Hd. unfold main.
  apply sim_bind; [apply sim_validate|]. intros checked. cbv zeta.
  unfold MaintenancePlan_filter_first, MaintenancePlan_values_list_name,
    logger_error, sys_exit.
  repeat first
    [ now apply sim_transaction
    | apply sim_ret | apply sim_raise | apply sim_lift | apply sim_emit
    | apply sim_get_db | apply sim_logger
    | apply sim_bind; [|intros ?]
    | match goal with
      | |- sim (match ?x with Some _ => _ | None => _ end)
               (match ?x with Some _ => _ | None => _ end) => destruct x
      end ].
Qed.

(** X9: two runs on the same document and the same store that agree on
    [--update] end in the same way, with the same exit code or the same
    uncaught exception, whatever [--debug], [--quiet] and [--dry-run]
    are: a dry run ends as the real run would.  If the two runs also
    agree on [--dry-run] they leave the same store: the logging options
    change nothing of what is written. *)
Theorem outcome_depends_on_update_only args1 args2 data s :
  update args1 = update args2 ->
  fst (run args1 data s) = fst (run args2 data s) /\
  (dry_run args1 = dry_run args2 ->
   db (snd (run args1 data s)) = db (snd (run args2 data s))).
Proof.
  intros Hu. split.
  - pose proof (same_result_main args1 args2 data Hu
                  {| db := s; trace := [] |} {| db := s; trace := [] |} eq_refl) as Hr.
    unfold run.
    destruct (main args1 data _) as [r1 w1], (main args2 data _) as [r2 w2].
    simpl in Hr. subst r2. destruct r1 as [a|[]]; reflexivity.
  - intros Hd.
    destruct (sim_main args1 args2 data Hu Hd
                {| db := s; trace := [] |} {| db := s; trace := [] |} eq_refl) as [Hr Hdb].
    unfold run.
    destruct (main args1 data _) as [r1 w1], (main args2 data _) as [r2 w2].
    simpl in Hr, Hdb. subst r2. destruct r1 as [a|[]]; exact Hdb.
Qed.

End flags.

(** X9 at work: the example that repeats a milestone name, as a real run
    and as a quiet dry run. *)
Lemma outcome_depends_on_update_only_witness :
  update plain = update {| debug := false; quiet := true; dry_run := true; update := false |} /\
  fst (@run sample_environment plain twice_document fresh_store) = Exit 1 /\
  fst (@run sample_environment
         {| debug := false; quiet := true; dry_run := true; update := false |}
         twice_document fresh_store) = Exit 1.
Proof.
  split; [reflexivity|]. split; [reflexivity|].
  rewrite <- (proj1 (@outcome_depends_on_update_only sample_environment plain
                       {| debug := false; quiet := true; dry_run := true; update := false |}
                       twice_document fresh_store eq_refl)).
  reflexivity.
Defined.

End importer_flags.

(** ** The importer: what its writes keep *)

Module importer_writes.
Import DjangoDb create_release importer_logic commands validation hoare
  importer_checks importer_transaction importer_reimport samples more_samples.
Open Scope string_scope.

Lemma map_update_key {A K : Type} (id : A -> Z) (key : A -> K) (found row : A) l :
  List.NoDup (map id l) -> List.In found l ->
  id row = id found -> key row = key found ->
  map key (map (fun r => if (id r =? id row)%Z then row else r) l) = map key l.
Proof.
  intros Hnd Hin Hid Hkey. rewrite map_map. apply map_ext_in. intros x Hx.
  destruct (Z.eqb_spec (id x) (id row)) as [Heq|Hne]; [|reflexivity].
  rewrite Hid in Heq. rewrite (NoDup_map_same_id id x found l Hnd Hx Hin Heq). exact Hkey.
Qed.

Lemma In_update_other {A : Type} (id : A -> Z) (found row x : A) l :
  List.NoDup (map id l) -> List.In found l -> List.In x l ->
  id row = id found -> x <> found ->
  List.In x (map (fun r => if (id r =? id row)%Z then row else r) l).
Proof.
  intros Hnd Hin Hx Hid Hne. apply in_map_iff. exists x. split; [|exact Hx].
  destruct (Z.eqb_spec (id x) (id row)) as [Heq|]; [|reflexivity].
  exfalso. apply Hne. rewrite Hid in Heq.
  exact (NoDup_map_same_id id x found l Hnd Hx Hin Heq).
Qed.

Lemma py_getitem_ok_field c k v : py_getitem c k = Ok v -> field k c = v.
Proof.
  destruct c; simpl; try discriminate.
  destruct (lookup_key k d); [now intros [= ->] | discriminate].
Qed.

Section writes.
Variables (plan : Z) (name : string) (named : string -> Prop).

Lemma write_plans s s' : write plan name named s s' -> plans s' = plans s.
Proof. now intros []. Qed.

Lemma write_keys_unique s s' :
  write plan name named s s' -> keys_unique s -> keys_unique s'.
Proof.
  intros Hw [HndR HndM].
  destruct Hw; split; cbn [insert_release insert_milestone releases milestones];
    rewrite ?update_release_ids, ?update_milestone_ids, ?List.map_app;
    cbn [map release_id milestone_id];
    try assumption; now apply NoDup_insert_key.
Qed.

Lemma write_release_keys s s' :
  write plan name named s s' -> keys_unique s ->
  exists more, map release_key (releases s') = (map release_key (releases s) ++ more)%list.
Proof.
  intros Hw [HndR HndM].
  destruct Hw as [sd ed Hnone|found sd ed Hfound|? ? ? ? ? ?|? ? ? ? ? ? ?].
  - eexists. cbn [insert_release releases]. now rewrite List.map_app.
  - exists []. rewrite app_nil_r. apply find_release_found in Hfound as (Hin & _ & _).
    cbn [update_release releases].
    now apply (map_update_key release_id release_key found).
  - exists []. now rewrite app_nil_r.
  - exists []. now rewrite app_nil_r.
Qed.

Lemma write_milestone_keys s s' :
  write plan name named s s' -> keys_unique s ->
  exists more,
    map milestone_key (milestones s') = (map milestone_key (milestones s) ++ more)%list.
Proof.
  intros Hw [HndR HndM].
  destruct Hw as [sd ed Hnone|found sd ed Hfound|? ? ? ? ? ?|rel n found sd ed Hn Hfound].
  - exists []. now rewrite app_nil_r.
  - exists []. now rewrite app_nil_r.
  - eexists. cbn [insert_milestone milestones]. now rewrite List.map_app.
  - exists []. rewrite app_nil_r. apply find_milestone_found in Hfound as (Hin & _ & _).
    cbn [update_milestone milestones].
    now apply (map_update_key milestone_id milestone_key found).
Qed.

Lemma write_names_unique s s' :
  write plan name named s s' -> keys_unique s -> names_unique s -> names_unique s'.
Proof.
  intros Hw [HndR HndM] [HnR HnM].
  destruct Hw as [sd ed Hnone|found sd ed Hfound|rel n sd ed Hn Hnone
                  |rel n found sd ed Hn Hfound];
    split; try assumption.
  - cbn [insert_release releases]. rewrite List.map_app.
    apply List.NoDup_app; [exact HnR | |].
    + constructor; [intros [] | constructor].
    + intros k Hin [<-|[]]. apply in_map_iff in Hin as (r & Hk & Hr).
      unfold find_release in Hnone. rewrite find_none_iff in Hnone.
      specialize (Hnone r Hr). cbn beta in Hnone. injection Hk as Hp Hnm.
      now rewrite Hp, Hnm, Z.eqb_refl, String.eqb_refl in Hnone.
  - apply find_release_found in Hfound as (Hin & _ & _).
    cbn [update_release releases].
    now rewrite (map_update_key release_id
                   (fun r => (release_plan_id r, release_name r)) found).
  - cbn [insert_milestone milestones]. rewrite List.map_app.
    apply List.NoDup_app; [exact HnM | |].
    + constructor; [intros [] | constructor].
    + intros k Hin [<-|[]]. apply in_map_iff in Hin as (m & Hk & Hm).
      unfold find_milestone in Hnone. rewrite find_none_iff in Hnone.
      specialize (Hnone m Hm). cbn beta in Hnone. injection Hk as Hp Hnm.
      now rewrite Hp, Hnm, Z.eqb_refl, String.eqb_refl in Hnone.
  - apply find_milestone_found in Hfound as (Hin & _ & _).
    cbn [update_milestone milestones].
    now rewrite (map_update_key milestone_id
                   (fun m => (milestone_release_id m, milestone_name m)) found).
Qed.

Lemma write_other_release s s' r :
  write plan name named s s' -> keys_unique s ->
  List.In r (releases s) ->
  release_plan_id r <> plan \/ release_name r <> name ->
  List.In r (releases s').
Proof.
  intros Hw [HndR HndM] Hr Hother.
  destruct Hw as [sd ed Hnone|found sd ed Hfound|? ? ? ? ? ?|? ? ? ? ? ? ?];
    try assumption.
  - cbn [insert_release releases]. apply in_app_iff. now left.
  - apply find_release_found in Hfound as (Hin & Hp & Hn).
    cbn [update_release releases].
    apply (In_update_other release_id found); try assumption; [reflexivity|].
    intros ->. tauto.
Qed.

Lemma write_other_milestone s s' m :
  write plan name named s s' -> keys_unique s ->
  List.In m (milestones s) ->
  ~ named (milestone_name m) ->
  List.In m (milestones s').
Proof.
  intros Hw [HndR HndM] Hm Hother.
  destruct Hw as [sd ed Hnone|found sd ed Hfound|? ? ? ? ? ?|rel n found sd ed Hn Hfound];
    try assumption.
  - cbn [insert_milestone milestones]. apply in_app_iff. now left.
  - apply find_milestone_found in Hfound as (Hin & Hp & Hnm).
    cbn [update_milestone milestones].
    apply (In_update_other milestone_id found); try assumption; [reflexivity|].
    intros ->. apply Hother. now rewrite Hnm.
Qed.

(** What a sequence of writes keeps. *)
Lemma writes_keep s s' :
  rtc (write plan name named) s s' -> keys_unique s ->
  keys_unique s' /\
  plans s' = plans s /\
  (exists more,
     map release_key (releases s') = (map release_key (releases s) ++ more)%list) /\
  (exists more,
     map milestone_key (milestones s') = (map milestone_key (milestones s) ++ more)%list) /\
  (names_unique s -> names_unique s') /\
  (forall r, List.In r (releases s) ->
             release_plan_id r <> plan \/ release_name r <> name ->
             List.In r (releases s')) /\
  (forall m, List.In m (milestones s) -> ~ named (milestone_name m) ->
             List.In m (milestones s')).
Proof.
  induction 1 as [s|s s1 s2 Hw Hws IH]; intros Hk.
  - split; [exact Hk|]. split; [reflexivity|].
    split; [exists []; now rewrite app_nil_r|]. split; [exists []; now rewrite app_nil_r|].
    auto.
  - destruct (IH (write_keys_unique _ _ Hw Hk))
      as (Hk2 & Hp & [r2 Hr2] & [m2 Hm2] & Hn & Hor & Hom).
    destruct (write_release_keys _ _ Hw Hk) as [r1 Hr1].
    destruct (write_milestone_keys _ _ Hw Hk) as [m1 Hm1].
    split; [exact Hk2|]. split; [now rewrite Hp, (write_plans _ _ Hw)|].
    split; [exists (r1 ++ r2)%list; now rewrite Hr2, Hr1, <- app_assoc|].
    split; [exists (m1 ++ m2)%list; now rewrite Hm2, Hm1, <- app_assoc|].
    split; [intros Hu; apply Hn; now apply (write_names_unique _ _ Hw)|].
    split.
    + intros r Hr Hother. apply Hor; [|exact Hother].
      now apply (write_other_release _ _ _ Hw).
    + intros m Hm Hother. apply Hom; [|exact Hother].
      now apply (write_other_milestone _ _ _ Hw).
Qed.

End writes.

Ltac exec_step :=
  match goal with
  | |- context [py_getitem ?c ?k] => destruct (py_getitem c k) eqn:?
  | |- context [DateField_get_prep_value ?v] =>
      destruct (DateField_get_prep_value v) as [[?|]|] eqn:?
  | |- context [(?level >=? ?lvl)%Z] => destruct (level >=? lvl)%Z
  | |- context [update ?args] => destruct (update args) eqn:?
  end; simpl.

Section walk.
Context `{Environment}.

(** Lines 103-122 make one write, for the release. *)
Lemma upsert_release_writes args lvl maintplan pname rname reldata named s1 :
  triple (fun w => db w = s1) (upsert_release args lvl maintplan pname rname reldata)
         (fun release w => rtc (write (mp_pk maintplan) rname named) s1 (db w))
         (fun _ _ => True).
Proof.
  intros [s t] Hw. simpl in Hw. subst s1.
  unfold upsert_release, Release_filter_first, Release_save, Release_create, str_release,
    logger_info, logger_error, logger_log, sys_exit, bind, lift, emit, get_db, put_db,
    ret, raise.
  simpl.
  fold (find_release s (mp_pk maintplan) rname).
  destruct (find_release s (mp_pk maintplan) rname) as [found|] eqn:Hfind; simpl.
  - repeat exec_step; try exact I.
    all: apply rtc_once; now apply write_release_update.
  - repeat exec_step; try exact I.
    all: apply rtc_once; now apply write_release_insert.
Qed.

(** Lines 125-145 make one write, for the milestone of the entry. *)
Lemma upsert_milestone_writes args lvl release ms plan rname (named : string -> Prop) s1 :
  (forall v, py_getitem ms "name" = Ok v -> named (py_str v)) ->
  triple (fun w => db w = s1) (upsert_milestone args lvl release ms)
         (fun _ w => rtc (write plan rname named) s1 (db w))
         (fun _ _ => True).
Proof.
  intros Hnamed [s t] Hw. simpl in Hw. subst s1.
  unfold upsert_milestone, Milestone_filter_first, Milestone_save, Milestone_create,
    str_release, str_milestone,
    logger_info, logger_error, logger_log, sys_exit, bind, lift, emit, get_db, put_db,
    ret, raise.
  simpl.
  destruct (py_getitem ms "name") as [v|] eqn:Hname; simpl; [|exact I].
  specialize (Hnamed v eq_refl).
  fold (find_milestone s (r_pk release) (py_str v)).
  destruct (find_milestone s (r_pk release) (py_str v)) as [found|] eqn:Hfind; simpl.
  - repeat exec_step; try exact I.
    all: apply rtc_once;
      now apply (write_milestone_update _ _ _ _ (r_pk release) (py_str v)).
  - repeat exec_step; try exact I.
    all: apply rtc_once; now apply write_milestone_insert.
Qed.

(** A loop whose body makes writes makes writes. *)
Lemma for_each_writes {A : Type} (l : list A) (body : A -> M unit) plan rname named s0 :
  (forall x s1, List.In x l ->
     triple (fun w => db w = s1) (body x)
            (fun _ w => rtc (write plan rname named) s1 (db w)) (fun _ _ => True)) ->
  triple (fun w => rtc (write plan rname named) s0 (db w)) (for_each l body)
         (fun _ w => rtc (write plan rname named) s0 (db w)) (fun _ _ => True).
Proof.
  intros Hbody. apply triple_for_each. intros x Hx w Hw.
  specialize (Hbody x (db w) Hx w eq_refl).
  destruct (body x w) as [[a|e] w']; [|exact I].
  now apply (rtc_trans _ (db w)).
Qed.

(** Lines 103-148: when the block returns, the store is the one it
    started on after writes for its release and its milestones. *)
Lemma upsert_writes args lvl maintplan pname rname reldata milestones
    (named : string -> Prop) s0 :
  (forall items ms v, py_iter milestones = Ok items -> List.In ms items ->
                      py_getitem ms "name" = Ok v -> named (py_str v)) ->
  triple (fun w => db w = s0)
         (upsert args lvl maintplan pname rname reldata milestones)
         (fun _ w => rtc (write (mp_pk maintplan) rname named) s0 (db w))
         (fun _ _ => True).
Proof.
  intros Hnamed. unfold upsert.
  eapply triple_bind; [apply (upsert_release_writes _ _ _ _ _ _ named s0)|].
  intros release.
  eapply triple_bind with
    (R := fun items w => py_iter milestones = Ok items
                         /\ rtc (write (mp_pk maintplan) rname named) s0 (db w)).
  { apply triple_lift. intros w Hw. destruct (py_iter milestones); [now split | exact I]. }
  intros items. apply triple_pure. intros Hitems.
  eapply triple_bind.
  { apply for_each_writes. intros ms s1 Hms.
    apply upsert_milestone_writes. intros v Hv. exact (Hnamed items ms v Hitems Hms Hv). }
  intros ?. destruct (dry_run args); [now apply triple_raise | now apply triple_ret].
Qed.

(** What the checks return. *)
Lemma validate_result lvl data w checked w' :
  validate lvl data w = (Ok checked, w') ->
  py_getitem data "release" = Ok (fst checked) /\
  py_get (fst checked) "milestones" (VList []) = Ok (snd checked).
Proof.
  unfold validate, bind, lift, ret.
  destruct (py_in "release" data) as [has_release|]; [|discriminate].
  destruct (negb has_release).
  { unfold logger_error, logger_log, sys_exit, raise, emit, bind.
    destruct (ERROR >=? lvl)%Z; discriminate. }
  destruct (py_getitem data "release") as [reldata|]; [|discriminate].
  destruct (for_each release_fields _ w) as [[[]|] w2]; [|discriminate].
  destruct (py_get reldata "milestones" (VList [])) as [milestones|] eqn:Hms;
    [|discriminate].
  destruct (py_iter milestones) as [items|]; [|discriminate].
  destruct (for_each_enumerate 0 items _ w2) as [[[]|] w3]; [|discriminate].
  intros [= <- _]. now split.
Qed.

(** [main] leaves the store as it was, or as it is after writes for the
    release and the milestones the document names. *)
Lemma main_writes args data s0 :
  triple (fun w => db w = s0) (main args data)
         (fun _ _ => False)
         (fun _ w =>
            db w = s0 \/
            exists reldata plan name milestones prow,
              py_getitem data "release" = Ok reldata /\
              py_getitem reldata "plan" = Ok plan /\
              py_getitem reldata "name" = Ok name /\
              py_get reldata "milestones" (VList []) = Ok milestones /\
              find_plan s0 (py_str plan) = Some prow /\
              rtc (write (plan_id prow) (py_str name) (names_in milestones)) s0 (db w)).
Proof.
  unfold main.
  eapply triple_bind with
    (R := fun checked w =>
            (py_getitem data "release" = Ok (fst checked) /\
             py_get (fst checked) "milestones" (VList []) = Ok (snd checked))
            /\ db w = s0).
  { intros w Hw.
    pose proof (triple_store_free _ s0 (store_free_validate (loglevel args) data) w Hw)
      as Hfree.
    destruct (validate (loglevel args) data w) as [[checked|e] w'] eqn:Hv.
    - split; [exact (validate_result _ _ _ _ _ Hv) | exact Hfree].
    - left. apply Hfree. }
  intros [reldata milestones]. cbn [fst snd]. apply triple_pure. intros [Hrel Hms].
  eapply triple_bind with (R := fun _ w => db w = s0);
    [apply triple_emit; intros w Hw; exact Hw|]. intros ?.
  apply triple_bind_lift; [|intros e w _ Hw; now left]. intros plan Hplan.
  eapply triple_bind with
    (R := fun maintplan w =>
            maintplan = option_map plan_of_row (find_plan s0 (py_str plan)) /\ db w = s0).
  { intros w Hw. simpl. rewrite Hw. now split. }
  intros maintplan. apply triple_pure. intros ->.
  destruct (find_plan s0 (py_str plan)) as [prow|] eqn:Hfind; cbn [option_map].
  - apply triple_bind_lift; [|intros e w _ Hw; now left]. intros name Hname.
    set (post := fun w : World =>
           db w = s0 \/
           exists reldata plan name milestones prow,
             py_getitem data "release" = Ok reldata /\
             py_getitem reldata "plan" = Ok plan /\
             py_getitem reldata "name" = Ok name /\
             py_get reldata "milestones" (VList []) = Ok milestones /\
             find_plan s0 (py_str plan) = Some prow /\
             rtc (write (plan_id prow) (py_str name) (names_in milestones)) s0 (db w)).
    eapply triple_bind with (R := fun _ w => post w).
    + unfold transaction.
      eapply triple_try_except with (E' := fun _ w => db w = s0).
      * eapply (triple_atomic _ s0); [now intros w Hw | | |].
        -- eapply triple_bind with (R := fun _ w => db w = s0);
             [apply triple_emit; intros w Hw; exact Hw|]. intros ?.
           apply (upsert_writes _ _ _ _ _ _ _ (names_in milestones)).
           intros items ms v Hitems Hin Hv. now exists items, ms, v.
        -- intros ? w Hw. right. now exists reldata, plan, name, milestones, prow.
        -- intros e w Hw. reflexivity.
      * intros e. destruct e; simpl; try (intros w Hw; now left).
        apply triple_logger; intros w Hw; now left.
    + intros ?. apply triple_raise. intros w Hw. exact Hw.
  - eapply triple_bind with (R := fun _ w => db w = s0).
    { intros w Hw. exact Hw. }
    intros names.
    eapply triple_bind with (R := fun _ w => db w = s0);
      [apply triple_logger; intros w Hw; exact Hw|]. intros ?.
    apply triple_raise. intros w Hw. now left.
Qed.

Lemma run_writes args data s :
  db (snd (run args data s)) = s \/
  exists reldata plan name milestones prow,
    py_getitem data "release" = Ok reldata /\
    py_getitem reldata "plan" = Ok plan /\
    py_getitem reldata "name" = Ok name /\
    py_get reldata "milestones" (VList []) = Ok milestones /\
    find_plan s (py_str plan) = Some prow /\
    rtc (write (plan_id prow) (py_str name) (names_in milestones)) s
        (db (snd (run args data s))).
Proof.
  pose proof (main_writes args data s {| db := s; trace := [] |} eq_refl) as Hmain.
  unfold run. destruct (main args data _) as [[a|e] w]; [contradiction|].
  now destruct e.
Qed.

(** X10: no run creates a duplicate.  On a store with unique primary
    keys in which no two releases of a plan share a name and no two
    milestones of a release share a name, every run, whatever the
    options and the document are, leaves a store of which the same
    holds. *)
Theorem run_keeps_names_unique args data s :
  keys_unique s -> names_unique s ->
  keys_unique (db (snd (run args data s))) /\ names_unique (db (snd (run args data s))).
Proof.
  intros Hk Hn.
  destruct (run_writes args data s)
    as [->|(reldata & plan & name & ms & prow & _ & _ & _ & _ & _ & Hw)];
    [now split|].
  destruct (writes_keep _ _ _ _ _ Hw Hk) as (Hk' & _ & _ & _ & Hn' & _).
  split; [exact Hk' | now apply Hn'].
Qed.

(** X11: no run deletes or renames anything.  On a store with unique
    primary keys every run leaves the table of the plans as it was, and
    every release and every milestone that was in the store is still
    there, at its place, with its key, its plan or release and its name;
    rows are only added after them. *)
Theorem run_deletes_nothing args data s :
  keys_unique s ->
  plans (db (snd (run args data s))) = plans s /\
  (exists more, map release_key (releases (db (snd (run args data s))))
                = (map release_key (releases s) ++ more)%list) /\
  (exists more, map milestone_key (milestones (db (snd (run args data s))))
                = (map milestone_key (milestones s) ++ more)%list).
Proof.
  intros Hk.
  destruct (run_writes args data s)
    as [->|(reldata & plan & name & ms & prow & _ & _ & _ & _ & _ & Hw)].
  - split; [reflexivity|]. split; exists []; now rewrite app_nil_r.
  - destruct (writes_keep _ _ _ _ _ Hw Hk) as (_ & Hp & Hr & Hm & _). auto.
Qed.

(** X12: a run touches nothing but what the document names.  For a
    well-formed document whose plan is in the store, every release row
    of another plan or of another name, and every milestone row whose
    name is not the name of an entry of the document, is after the run
    the row it was before, dates included. *)
Theorem run_touches_named_only args data s prow :
  well_formed data = true ->
  keys_unique s ->
  find_plan s (plan_name_of data) = Some prow ->
  (forall r, List.In r (releases s) ->
             release_plan_id r <> plan_id prow \/ release_name r <> release_name_of data ->
             List.In r (releases (db (snd (run args data s))))) /\
  (forall m, List.In m (milestones s) ->
             ~ List.In (milestone_name m) (milestone_names data) ->
             List.In m (milestones (db (snd (run args data s))))).
Proof.
  intros Hwf Hk Hplan.
  destruct (run_writes args data s)
    as [->|(reldata & plan & name & ms & prow' & Hrel & Hp & Hn & Hms & Hfind & Hw)];
    [now split|].
  destruct (well_formed_inv data Hwf) as (_ & _ & _ & Hget).
  apply py_getitem_ok_field in Hrel. fold (release_of data) in Hrel. subst reldata.
  apply py_getitem_ok_field in Hp, Hn.
  rewrite Hget in Hms. apply Ok_inj in Hms. subst ms.
  unfold plan_name_of in Hplan. rewrite Hp in Hplan. rewrite Hplan in Hfind.
  apply (f_equal (fun o => match o with Some x => x | None => prow end)) in Hfind.
  cbn beta iota in Hfind. subst prow'.
  destruct (writes_keep _ _ _ _ _ Hw Hk) as (_ & _ & _ & _ & _ & Hor & Hom).
  split.
  - intros r Hr Hother. apply Hor; [exact Hr|].
    unfold release_name_of in Hother. now rewrite Hn in Hother.
  - intros m Hm Hother. apply Hom; [exact Hm|].
    intros (items & entry & v & Hitems & Hin & Hv & Heq). apply Hother.
    cbn [py_iter] in Hitems. apply Ok_inj in Hitems. subst items.
    unfold milestone_names. apply in_map_iff. exists entry. split; [|exact Hin].
    unfold milestone_name_of. apply py_getitem_ok_field in Hv. now rewrite Hv.
Qed.

(** X13: an import that is not a dry run stores what the document says.
    For a well-formed document with dates the columns accept, whose plan
    is in the store, on a store with unique keys: with [--update], or when
    the release is not in the store, the milestone names are distinct
    and every milestone of the store belongs to a release of the store,
    the run ends with exit code 0; then the store holds the release with
    the document's dates and, for every entry (the last one of a name,
    should a name come twice), the milestone of its name with the
    entry's dates. *)
Theorem import_stores_document args data s prow :
  well_formed data = true ->
  all_dates_valid data = true ->
  keys_unique s ->
  find_plan s (plan_name_of data) = Some prow ->
  dry_run args = false ->
  update args = true \/
  (find_release s (plan_id prow) (release_name_of data) = None /\
   List.NoDup (milestone_names data) /\ referential s) ->
  exists w row,
    run args data s = (Exit 0, w) /\
    find_release (db w) (plan_id prow) (release_name_of data) = Some row /\
    release_start row = stored_date (field "start_date" (release_of data)) /\
    release_end row = stored_date (field "end_date" (release_of data)) /\
    (forall before ms after,
       milestones_of data = (before ++ ms :: after)%list ->
       ~ List.In (milestone_name_of ms) (map milestone_name_of after) ->
       exists mrow,
         find_milestone (db w) (release_id row) (milestone_name_of ms) = Some mrow /\
         milestone_start mrow = stored_date (field "start_date" ms) /\
         milestone_end mrow = stored_date (field "end_date" ms)).
Proof.
  intros Hwf Hdates [HndR HndM] Hplan Hdry Hfree.
  destruct (well_formed_inv data Hwf) as (_ & _ & Hentries & _).
  unfold all_dates_valid in Hdates. apply andb_true_iff in Hdates as [Hrd Hmd].
  assert (HfreeR : update args = true \/
                   find_release s (plan_id prow) (release_name_of data) = None).
  { destruct Hfree as [Hu|[Hnone _]]; [now left | now right]. }
  destruct (upsert_release_stored args (loglevel args) prow data s
              [EvSetupDjango; EvSelect TMaintenancePlan; EvAtomicEnter]
              Hwf Hrd HndR HfreeR)
    as (release & s1 & e1 & Hrelease & Hp1 & Hm1 & HndR1 & (row & Hrow & Hrow_eq) & Hpk).
  assert (HfreeM : update args = true \/
                   (List.NoDup (map milestone_name_of (milestones_of data)) /\
                    forall n, List.In n (map milestone_name_of (milestones_of data)) ->
                              find_milestone s1 (r_pk release) n = None)).
  { destruct Hfree as [Hu|(Hnone & Hnames & Href)]; [now left | right].
    split; [exact Hnames|]. intros n _.
    rewrite (find_milestone_same_table s s1 _ _ Hm1), (Hpk Hnone).
    now apply find_milestone_unreferenced. }
  assert (HndM1 : List.NoDup (map milestone_id (milestones s1))) by now rewrite Hm1.
  destruct (runs_milestones_stored args (loglevel args) release (milestones_of data) s1
              ([EvSetupDjango; EvSelect TMaintenancePlan; EvAtomicEnter] ++ e1)%list
              Hentries Hmd HndM1 HfreeM)
    as (s' & e2 & Hloop & Hp' & Hr' & HndM' & Hrows & _).
  pose proof (runs_upsert _ _ _ _ _ _ _ _ _ _ _ _ _ _ _ Hrelease Hloop) as Hblock.
  cbn match in Hblock. rewrite Hdry in Hblock.
  eexists _, row.
  split; [exact (run_transaction args data s prow _ _ _ Hwf Hplan Hblock)|].
  cbn [db].
  split; [now rewrite (find_release_same_table s1 s') by exact Hr'|].
  split; [now rewrite Hrow_eq|]. split; [now rewrite Hrow_eq|].
  intros before ms after Heq Hlast.
  assert (Hid : release_id row = r_pk release) by now rewrite Hrow_eq.
  rewrite Hid.
  destruct (Hrows before ms after Heq Hlast) as (mrow & Hfind & Hmrow).
  exists mrow. split; [exact Hfind|]. split; now rewrite Hmrow.
Qed.

(** X14: a document that is no mapping never gets the store touched.
    When the test ['release' not in data] holds of it (a text or a list
    without [release]) the run logs the error of line 69 and ends with
    exit code 1; otherwise (an empty file, a number, a date, or a text or
    a list with [release] in it) a [TypeError] reaches the interpreter
    and nothing is logged. *)
Theorem document_not_a_mapping args data s :
  is_dict data = false ->
  run args data s =
  match py_in "release" data with
  | Ok false =>
      (Exit 1,
       {| db := s;
          trace := [EvLog ERROR "YAML file must contain a top-level 'release' key"] |})
  | _ => (Traceback TypeError, {| db := s; trace := [] |})
  end.
Proof.
  intros Hd. unfold run, main, validate, bind, lift.
  destruct data; try discriminate; cbn [py_in]; try reflexivity.
  - destruct (is_substring "release" s0); cbn [negb py_getitem]; [reflexivity|].
    unfold logger_error, logger_log, sys_exit, raise, emit, ret.
    unfold loglevel. destruct (debug args), (quiet args); reflexivity.
  - destruct (existsb (is_str "release") l); cbn [negb py_getitem]; [reflexivity|].
    unfold logger_error, logger_log, sys_exit, raise, emit, ret.
    unfold loglevel. destruct (debug args), (quiet args); reflexivity.
Qed.

End walk.

(** *** The theorems at work *)

Lemma imported_store_keys : keys_unique imported_store.
Proof.
  split; vm_compute; repeat constructor; simpl; intuition discriminate.
Qed.

Lemma imported_store_names : names_unique imported_store.
Proof.
  split; vm_compute; repeat constructor; simpl; intuition discriminate.
Qed.

(** X10 at work: the example imported a second time, with [--update]. *)
Lemma run_keeps_names_unique_witness :
  keys_unique imported_store /\ names_unique imported_store /\
  keys_unique (db (snd (@run sample_environment with_update help_document imported_store)))
  /\ names_unique
       (db (snd (@run sample_environment with_update help_document imported_store))).
Proof.
  split; [exact imported_store_keys|]. split; [exact imported_store_names|].
  exact (@run_keeps_names_unique sample_environment with_update help_document
           imported_store imported_store_keys imported_store_names).
Defined.

(** X11 at work: the revised example on the store of the first import. *)
Lemma run_deletes_nothing_witness :
  keys_unique imported_store /\
  plans (db (snd (@run sample_environment with_update revised_document imported_store)))
  = plans imported_store /\
  (exists more,
     map release_key
       (releases (db (snd (@run sample_environment with_update revised_document
                             imported_store))))
     = (map release_key (releases imported_store) ++ more)%list) /\
  (exists more,
     map milestone_key
       (milestones (db (snd (@run sample_environment with_update revised_document
                               imported_store))))
     = (map milestone_key (milestones imported_store) ++ more)%list).
Proof.
  split; [exact imported_store_keys|].
  exact (@run_deletes_nothing sample_environment with_update revised_document
           imported_store imported_store_keys).
Defined.

(** X12 at work: the revised example does not name [M2], whose row
    stays. *)
Lemma run_touches_named_only_witness :
  well_formed revised_document = true /\
  keys_unique imported_store /\
  find_plan imported_store (@plan_name_of sample_environment revised_document)
  = Some {| plan_id := 1; plan_name := "OE-Core" |} /\
  List.In {| milestone_id := 2; milestone_release_id := 1; milestone_name := "M2";
             milestone_start := {| year := 2024; month := 6; day := 3 |};
             milestone_end := {| year := 2024; month := 7; day := 19 |} |}
    (milestones (db (snd (@run sample_environment with_update revised_document
                            imported_store)))).
Proof.
  split; [reflexivity|]. split; [exact imported_store_keys|]. split; [reflexivity|].
  apply (proj2 (@run_touches_named_only sample_environment with_update revised_document
                  imported_store {| plan_id := 1; plan_name := "OE-Core" |}
                  eq_refl imported_store_keys eq_refl)).
  - vm_compute. auto.
  - vm_compute. intuition discriminate.
Defined.

(** X13 at work: the example imported into the store that has its plan. *)
Lemma import_stores_document_witness :
  well_formed help_document = true /\
  @all_dates_valid sample_environment help_document = true /\
  keys_unique fresh_store /\
  find_plan fresh_store (@plan_name_of sample_environment help_document)
  = Some {| plan_id := 1; plan_name := "OE-Core" |} /\
  exists w row,
    @run sample_environment plain help_document fresh_store = (Exit 0, w) /\
    find_release (db w) 1 (@release_name_of sample_environment help_document) = Some row /\
    release_start row = {| year := 2024; month := 4; day := 30 |} /\
    release_end row = {| year := 2024; month := 10; day := 25 |}.
Proof.
  assert (Hkeys : keys_unique fresh_store) by (split; constructor).
  assert (Hfree : update plain = true \/
                  (find_release fresh_store 1
                     (@release_name_of sample_environment help_document) = None /\
                   List.NoDup (@milestone_names sample_environment help_document) /\
                   referential fresh_store)).
  { right. split; [reflexivity|]. split; [|intros m []].
    vm_compute. repeat constructor; simpl; intuition discriminate. }
  split; [reflexivity|]. split; [reflexivity|]. split; [exact Hkeys|].
  split; [reflexivity|].
  destruct (@import_stores_document sample_environment plain help_document fresh_store
              {| plan_id := 1; plan_name := "OE-Core" |}
              eq_refl eq_refl Hkeys eq_refl eq_refl Hfree)
    as (w & row & Hrun & Hrow & Hstart & Hend & _).
  exists w, row. auto.
Defined.

(** X14 at work: an empty YAML file, which loads as [None]. *)
Lemma document_not_a_mapping_witness :
  is_dict VNone = false /\
  @run sample_environment plain VNone fresh_store
  = (Traceback TypeError, {| db := fresh_store; trace := [] |}).
Proof.
  split; [reflexivity|].
  exact (@document_not_a_mapping sample_environment plain VNone fresh_store eq_refl).
Defined.

End importer_writes.

(** ** The importer: what [--quiet] hides *)

Module importer_logging.
Import DjangoDb create_release importer_logic hoare samples.
Open Scope string_scope.

Lemma only_errors_app evs e :
  only_errors evs ->
  (forall level msg, e = EvLog level msg -> level = ERROR) ->
  only_errors (evs ++ [e]).
Proof.
  intros Hevs He level msg Hin. apply in_app_iff in Hin as [Hin|[Hin|[]]].
  - exact (Hevs level msg Hin).
  - exact (He level msg Hin).
Qed.

Lemma quiet_bind {A B : Type} (c : M A) (k : A -> M B) :
  quiet_command c -> (forall a, quiet_command (k a)) -> quiet_command (bind c k).
Proof. intros Hc Hk. eapply triple_bind; [exact Hc | exact Hk]. Qed.

Lemma quiet_for_each {A : Type} (l : list A) (body : A -> M unit) :
  (forall x, quiet_command (body x)) -> quiet_command (for_each l body).
Proof. intros Hbody. apply triple_for_each. intros x _. apply Hbody. Qed.

Lemma quiet_for_each_enumerate {A : Type} (l : list A) i (body : Z -> A -> M unit) :
  (forall j x, quiet_command (body j x)) -> quiet_command (for_each_enumerate i l body).
Proof.
  intros Hbody. revert i. induction l as [|x l IH]; intros i; simpl.
  - now apply triple_ret.
  - apply quiet_bind; [apply Hbody | intros _; apply IH].
Qed.

Lemma quiet_emit e :
  (forall level msg, e = EvLog level msg -> level = ERROR) -> quiet_command (emit e).
Proof. intros He. apply triple_emit. intros w Hw. now apply only_errors_app. Qed.

Lemma quiet_lift {A : Type} (r : result A) : quiet_command (lift r).
Proof. apply triple_lift. intros w Hw. now destruct r. Qed.

Lemma quiet_atomic {A : Type} (body : M A) :
  quiet_command body -> quiet_command (atomic body).
Proof.
  intros Hbody w Hw. unfold atomic, bind, emit.
  assert (Henter : only_errors (trace w ++ [EvAtomicEnter]))
    by (apply only_errors_app; [exact Hw | discriminate]).
  specialize (Hbody {| db := db w; trace := trace w ++ [EvAtomicEnter] |} Henter).
  destruct (body _) as [[a|e] w']; cbn [trace];
    (apply only_errors_app; [exact Hbody | discriminate]).
Qed.

Lemma quiet_try_except {A : Type} (body : M A) handler :
  quiet_command body ->
  (forall e h, handler e = Some h -> quiet_command h) ->
  quiet_command (try_except body handler).
Proof.
  intros Hbody Hh. eapply triple_try_except; [exact Hbody|].
  intros e. destruct (handler e) as [h|] eqn:He; [now apply (Hh e) | auto].
Qed.

Ltac quiet_leaf :=
  first [ apply triple_ret; intros w Hw; exact Hw
        | apply triple_raise; intros w Hw; exact Hw
        | apply triple_get_db; intros w Hw; exact Hw
        | apply triple_put_db; intros w Hw; exact Hw
        | apply quiet_lift
        | apply quiet_emit; intros level msg; first [discriminate | now intros [= <- _]] ].

Ltac quiet_walk :=
  repeat first
    [ quiet_leaf
    | apply quiet_for_each; intros ?
    | apply quiet_for_each_enumerate; intros ? ?
    | apply quiet_bind; [|intros ?]
    | match goal with
      | |- quiet_command (if ?b then _ else _) => destruct b
      | |- quiet_command (match ?x with Some _ => _ | None => _ end) => destruct x
      end ].

Section logging.
Context `{Environment}.

Lemma quiet_main args data :
  quiet args = true -> debug args = false -> quiet_command (main args data).
Proof.
  intros Hq Hd.
  unfold main, loglevel. rewrite Hq, Hd. cbv zeta.
  unfold validate, transaction, upsert, upsert_release, upsert_milestone,
    MaintenancePlan_filter_first, MaintenancePlan_values_list_name,
    Release_filter_first, Release_save, Release_create,
    Milestone_filter_first, Milestone_save, Milestone_create,
    str_release, str_milestone, logger_info, logger_error, logger_log, sys_exit.
  change (ERROR >=? WARNING)%Z with true. change (INFO >=? WARNING)%Z with false.
  cbv iota.
  repeat first
    [ quiet_leaf
    | apply quiet_for_each; intros ?
    | apply quiet_for_each_enumerate; intros ? ?
    | apply quiet_try_except;
      [apply quiet_atomic
      |intros e h; destruct e; cbn [except_dry_run]; try discriminate;
       intros [= <-]; unfold logger_info, logger_log;
       change (INFO >=? WARNING)%Z with false; cbv iota;
       apply triple_ret; intros w Hw; exact Hw]
    | apply quiet_bind; [|intros ?]
    | match goal with
      | |- quiet_command (if ?b then _ else _) => destruct b
      | |- quiet_command (match ?x with Some _ => _ | None => _ end) => destruct x
      end ].
Qed.

(** X15: with [--quiet] and without [--debug], whatever the document
    and the store are, every record the run logs is an error record: no
    information message is shown. *)
Theorem quiet_logs_only_errors args data s :
  quiet args = true -> debug args = false ->
  only_errors (trace (snd (run args data s))).
Proof.
  intros Hq Hd.
  assert (Hnil : only_errors (trace {| db := s; trace := [] |})) by (intros level msg []).
  pose proof (quiet_main args data Hq Hd {| db := s; trace := [] |} Hnil) as Hmain.
  unfold run. destruct (main args data _) as [[a|e] w]; [exact Hmain|].
  now destruct e.
Qed.

End logging.

(** X15 at work: the example imported quietly; nothing is logged. *)
Lemma quiet_logs_only_errors_witness :
  quiet {| debug := false; quiet := true; dry_run := false; update := false |} = true /\
  debug {| debug := false; quiet := true; dry_run := false; update := false |} = false /\
  only_errors
    (trace (snd (@run sample_environment
                   {| debug := false; quiet := true; dry_run := false; update := false |}
                   help_document fresh_store))).
Proof.
  split; [reflexivity|]. split; [reflexivity|].
  exact (@quiet_logs_only_errors sample_environment
           {| debug := false; quiet := true; dry_run := false; update := false |}
           help_document fresh_store eq_refl eq_refl).
Defined.

End importer_logging.
